(* ===== verification/_CoqProject ===== *)
-Q . S2P
Prelude.v
Format.v
Win32.v
Debounce.v
WndProc.v
Interp.v
System.v
Hosts.v
Refinement.v
WinMain.v
Session.v
Windows.v
Buffer.v
Tree.v
Timed.v
