(* ===== verification/Prelude.v ===== *)
(** * MouseButtonClicker: a verification development

    ** The program

    MouseButtonClicker ([src/MouseButtonClicker.cpp], one file) clicks the
    primary mouse button for the user: when the mouse has moved and then
    rests for the double-click time with no button held, it injects a
    button-down/button-up pair.  The file has three parts.

    - Macros (lines 14-35): the masks of the five buttons' down- and
      up-flags, six compile-time assertions on the values of the Windows
      headers, [ABS], the timer identifier and the motion threshold.
    - [WndProc] (lines 38-141), the window procedure and the whole logic.  Its
      state is four [static] locals (two accumulated deltas, the flag
      [fOkToClick], the mask [usMouseButtonsDown]).  [WM_INPUT] reads a raw
      mouse report and either (re)sets a timer (plain motion beyond the
      threshold, no button held) or cancels it and resets (button or wheel);
      [WM_TIMER] cancels the timer, injects the click and resets;
      [WM_DESTROY] posts the quit message; everything else goes to
      [DefWindowProc].
    - [_tWinMain] (lines 144-197): a named mutex keeps a second instance from
      running; the window class, a message-only window and the raw-input
      registration are set up; the message loop runs until [WM_QUIT]; a
      failure of the set-up is shown in a message box.

    ** The development

    - [Prelude] (this file): machine integers in [Z] with the wrap-around
      written out ([wrap_LONG], [wrap_UINT], [UINT_not]), bit masks
      ([bits_within]), and the monad the code is written in.  [Act R S W A]
      is a reader of the system's answers [R], a state [S] and a writer of
      the outbound calls [W]; its laws and the lemmas that run it one call at
      a time are proved here, with the tactics and hint databases the other
      files use.
    - [Format]: the [%d] conversion, the expansion of a format string over
      its arguments ([expand]) and the bounded [StringCchPrintf], for the
      diagnostic message.  A 32-bit value has at most ten digits; the
      conversion runs with that fuel ([max_digits]) and [parse_format_d]
      shows that it is enough: reading the text back gives the value.
    - [Win32]: the constants and structures of the Windows headers the
      program names.
    - [Debounce]: the engine of the specification, an abstract state machine
      with sets of buttons and exact integers, and its state-machine view:
      the phases [IDLE], [ACCUMULATING] and [BUTTON_HELD] with the relation
      [transition] between them.
    - [WndProc]: the macros and the window procedure.  The statics are the
      record [WndStatics]; the results of the calls that return something
      ([GetRawInputData], [_malloca], [GetDoubleClickTime], [DefWindowProc])
      are the environment [OsAnswers]; the calls that change the system are
      the log [OsCall].  There is one definition per case of the switch and
      per block of [WM_INPUT], failure paths included, composed as in the
      source.  [Outcome] lists what one call can do, as a relation.
    - [Interp]: what the two files that use interaction trees share: the
      notation of sequencing and the step of the symbolic runs.
    - [Buffer]: [WndProc] a second time, as an interaction tree over every
      call it makes ([wndE]): the size query and the read of
      [GetRawInputData], [_malloca], the read of the report through
      [pRawInput], [_freea], [GetDoubleClickTime] and the calls of [OsCall].
      The handler [wnd_handle] runs them on a [Memory]: a finite map of
      buffers with their sizes and contents, the faults (a write outside a
      buffer, a read of a buffer that was not filled, a free of what is not
      allocated) and the calls made.
    - [System]: what the program relies on of Windows, as the typeclass
      [Host] with its laws (a periodic timer per window and identifier,
      replaced by [SetTimer], removed by [KillTimer]; input appended by
      [SendInput]; the quit message), and the composition of [WndProc] with
      any such host: [deliver] handles one message, [reachable] is the step
      relation, [run] its executable form.
    - [Hosts]: the relation between two hosts that are equal in all that
      is observed of them ([obs_eq], [sys_eq]); on one host it is an
      equivalence that [deliver] and [run] respect, so that states can be
      replaced by equivalent ones by rewriting.
    - [Refinement]: the abstraction from the statics and the host to the
      state of [Debounce] ([abs]), its inverse on the statics
      ([statics_of], with [mask_of] from sets of buttons to bit masks), and
      the simulation.
    - [WinMain]: [_tWinMain] over the answers of the system to its calls;
      the events of [GetMessage] are a list (messages sent, posted, [WM_QUIT],
      failure), so that the loop is a structural recursion and every run of
      the model is a finite prefix of an execution.
    - [Session]: the processes of the program in one session of a user.
      Each process runs [_tWinMain] over what the system has answered it so
      far; it holds the named mutex from [CreateMutex] until it ends, and it
      has not ended while it is in its loop or while the message box of a
      failed start is open ([showing]); [launch_ok] is what [CreateMutex]
      answers a new process, by whether a process holds the mutex;
      [session_step] launches a process, feeds messages to one that is in
      its loop, or closes a box, and [valid_session] are the sessions so
      reached ([apply_events] is the executable form).
    - [Windows]: a model of the host (a finite map of timers, the input
      stream, the quit message) that satisfies the laws, with the scenarios
      of the specification and the theorems' instances evaluated in it.
    - [Tree]: [_tWinMain] a second time, as an interaction tree over the
      calls it makes ([winE]: the calls of the start, [GetLastError],
      [GetMessage], [TranslateMessage], [DispatchMessage]), with the loop of
      lines 175-180 as [ITree.iter] of [loop_body].  The handler [handle]
      gives the calls their meaning on a [Machine] (the events [GetMessage]
      has yet to produce, the system, the calls so far); a [GetMessage] with
      no event left does not return.  Here the program needs no fuel and no
      result for "still waiting": a run that waits is a tree that diverges.
    - [Timed]: a second model of the host, with a clock.  Timers have a
      period and a due time and expire periodically; [wait] lets time pass
      and hands the window procedure the timer messages that are due;
      [timed_run] takes input messages with their arrival times.  A period
      is at least [USER_TIMER_MINIMUM] (10 ms), which bounds the number of
      expiries in an interval: that bound is the fuel of [wait].

    ** What is proved

    - Integers and bits: the deltas stay 32-bit, [usMouseButtonsDown] holds
      only down-flags, the button update adds and removes the right buttons,
      the threshold test is strict, and [ABS] is the absolute value except at
      [LONG_MIN], where the threshold is missed; the test is characterised
      on every 32-bit value, wrap included ([arming_on_wrapped_deltas]); a
      report that releases the buttons a report pressed gives
      [usMouseButtonsDown] its value back, bit for bit
      ([press_release_roundtrip]).
    - The window procedure: its result, statics and calls on every branch
      ([WndProc_outcome]), and the invariants of the statics, by one rule
      ([WndProc_invariant]: what [update_deltas], [update_buttons] and
      [reset_click] keep, the procedure keeps): the ranges, and that the
      deltas are within the threshold while clicking is disabled
      ([unarmed_within_threshold], for every sequence of messages).
    - The buffer: the tree of [WndProc] returns on every message with the
      result, statics and calls of the function, no fault occurs, and the
      memory after the call is the memory before it, so that the buffer of a
      report is released on every path ([WndProc_tree_run]); hence a run of
      any length leaks nothing and agrees with the run of the composition
      ([run_tree_run]).
    - The composition, by induction on [reachable]: the click timer is the
      only timer; it is pending only while no button is held and the motion
      is armed; input is injected in whole clicks, only in such states, and
      at most once per arming; a button or wheel report resets; motion arms
      monotonically.  The laws of the interface determine what is observed:
      states of two hosts that agree in it stay so along every run
      ([run_sys_eq]), which is how [Timed.v] reuses these theorems.
    - Refinement: every run is a run of the abstract engine on the events of
      its messages, with the same clicks and with the statics the abstract
      state stands for ([run_refines]), provided [SetTimer] succeeds and no
      delta overflows; every message moves the program between the phases
      as [transition] says ([deliver_transition]).
    - Time: after a move that sets the timer, a click is injected exactly
      when the next message is later than the move by more than the
      double-click time, one period after the move and only once
      ([click_iff_rest]); for a burst of moves the clicks are those of the
      reference function [rest_clicks], one per rest ([debounce]); on any
      timeline of input messages whatever, every click comes one
      double-click time after a report of the mouse with no report in
      between ([click_after_rest], by the invariant [timed_inv]), and a
      pending timer that no message overtakes does click
      ([pending_click_comes]); a timed run is, as far as it is observed, a
      run of the composition in any host, with the timer messages of the
      expiries in their places ([timed_run_is_run]), so what is proved of
      runs holds of timed runs, and of the program when its deliveries are
      those of a timeline ([WinMain_on_timeline]); the
      invariant holds along timed runs; [wait] leaves no expiry behind, a
      single unit of its fuel being used, since the handler destroys the
      timer ([wait_complete]).
    - The program: the start makes its calls in order; a second instance
      does nothing; a failure is reported, the format expands to a text that
      always fits the buffer, and the one call of the failure path is the
      message box whose text holds the error code as [%d] prints it
      ([diagnostic_shows_error_code]); the exit code is 0; the states of
      [_tWinMain] are reachable states of the composition, so the invariants
      above hold throughout the execution.  The two models of the function
      agree ([WinMain_tree_run]): the tree returns what the function
      returns, in the same state and after the same calls, and diverges
      where the function is [Pumping]; the loop returns exactly when
      [GetMessage] retrieves [WM_QUIT], and blocks for ever otherwise
      ([message_loop_tree_halts]).
    - Sessions, by induction on [valid_session]: at most one process has
      not ended, in its message loop or before its message box
      ([one_instance_pumps]); a process launched meanwhile returns at once
      and changes nothing ([second_launch_exits]); once the instance has
      ended, the next launch runs ([relaunch_after_exit]).

    ** Assumptions

    [LONG] arithmetic wraps (two's complement), as on the targets of the
    program.  The host delivers [WM_TIMER] to the window only for a pending
    timer, and retrieves [WM_QUIT] only when the program posted it; where a
    theorem needs one of these it says so ([deliverable], [quit_posted]).
    A message sent while [DefWindowProc] runs is handled after the message
    that caused it; this is the same run, since the default case does
    nothing after the call.  [CreateMutex] reports that the mutex exists
    exactly while a process that got a handle of it has not returned
    ([launch_ok]); this is the contract line 196 relies on.  In the function
    of [WinMain] the answers of the system are values of a record, so the
    test of line 153 reads the error code of [CreateMutex] whether or not
    the handle is [NULL]; that [GetLastError] is called only after a handle
    was returned is kept in [Tree.first_instance_tree].

    ** Bounds and fuel

    [format_d] runs with ten digits of fuel, enough for a 32-bit value
    ([parse_format_d]).  [wait] runs with one unit of fuel per
    [USER_TIMER_MINIMUM] of the interval and one more, enough for every
    expiry in it ([wait_complete]).  The loop of [WinMain] runs over the list of events
    it is given, and is [Pumping] at its end; the loop of [Tree] has no
    bound.

    ** Not modelled

    The scheduling of the message queue beyond the order of the messages
    (a timer message is handled at its due time, or when the clock has
    passed it), the resolution of the system clock, the windows of other
    programs, and what Windows does with the injected input.  The release
    of the mutex, class and window at process exit is left to Windows by
    the program (line 196) and has no code; [Session] models its effect on
    the mutex, and gives every process a system state of its own, so that
    nothing of a process outlives it.  [MessageBox] runs a message loop of
    its own until the box is closed; by then the window, if it was created,
    still exists, and the messages dispatched to it from inside that loop
    are not modelled: the call returns with the system as it was.
    [TranslateMessage] does nothing for
    the messages of a message-only window: it is a call of the tree with no
    effect, and is left out of the function of [WinMain].  The conversions
    of [StringCchPrintf] other than [%d] and [%%] are rejected by [expand];
    the program uses none.  The memory of [Buffer] knows buffers by their
    address, size and content; the layout of [RAWINPUT] in bytes, and
    whether [_malloca] takes the buffer from the stack or from the heap, are
    not modelled.  Nothing else of the source is left out: the
    lines the definitions do not cover are comments, blank lines and the
    four [#include] directives. *)

From stdpp Require Import base numbers list.
From coqutil Require Import Z.bitblast.
From Stdlib Require Import Lia.

#[local] Open Scope Z_scope.

(** ** Machine integers

    The program's integers are Win32 types: [LONG] (32-bit signed), [UINT] and
    [DWORD] (32-bit unsigned) and [USHORT] (16-bit unsigned).  They are
    modelled as [Z] with the wrap-around written out. *)

Definition LONG_MIN : Z := - 2 ^ 31.
Definition LONG_MAX : Z := 2 ^ 31 - 1.
Definition UINT_MAX : Z := 2 ^ 32 - 1.
Definition USHORT_MAX : Z := 2 ^ 16 - 1.

Definition in_LONG (z : Z) : Prop := LONG_MIN <= z <= LONG_MAX.
Definition in_UINT (z : Z) : Prop := 0 <= z <= UINT_MAX.
Definition in_USHORT (z : Z) : Prop := 0 <= z <= USHORT_MAX.

(** Two's-complement reduction of a mathematical integer to a [LONG]: what the
    32-bit [add]/[neg] instructions emitted for [+=] and unary [-] compute. *)
Definition wrap_LONG (z : Z) : Z := (z + 2 ^ 31) mod 2 ^ 32 - 2 ^ 31.

(** Reduction to a [UINT]. *)
Definition wrap_UINT (z : Z) : Z := z mod 2 ^ 32.

(** [~x] on a [UINT]. *)
Definition UINT_not (x : Z) : Z := wrap_UINT (Z.lnot x).

(** [a] has no bit outside of the mask [m]. *)
Definition bits_within (a m : Z) : Prop := Z.land a m = a.

#[export] Instance in_LONG_dec z : Decision (in_LONG z).
Proof. unfold in_LONG. apply _. Defined.
#[export] Instance in_UINT_dec z : Decision (in_UINT z).
Proof. unfold in_UINT. apply _. Defined.
#[export] Instance in_USHORT_dec z : Decision (in_USHORT z).
Proof. unfold in_USHORT. apply _. Defined.
#[export] Instance bits_within_dec a m : Decision (bits_within a m).
Proof. unfold bits_within. apply _. Defined.

Lemma wrap_LONG_range z : in_LONG (wrap_LONG z).
Proof. unfold in_LONG, wrap_LONG, LONG_MIN, LONG_MAX. Z.div_mod_to_equations. lia. Qed.

Lemma wrap_LONG_id z : in_LONG z -> wrap_LONG z = z.
Proof.
  unfold in_LONG, wrap_LONG, LONG_MIN, LONG_MAX. intros ?.
  rewrite Z.mod_small by lia. lia.
Qed.

(** ** The [Act] monad

    A Win32 window procedure reads answers from the operating system (the
    results of the API calls it makes), updates its [static] variables and
    issues API calls that change the system.  [Act R S W A] is the
    corresponding reader/state/writer computation: [R] the answers of the
    environment, [S] the static variables, [W] the outbound calls, in the order
    they are made. *)

Definition Act (R S W A : Type) : Type := R -> S -> A * S * list W.

Definition act_ret {R S W A} (a : A) : Act R S W A :=
  fun _ s => (a, s, []).

Definition act_bind {R S W A B} (m : Act R S W A) (k : A -> Act R S W B) : Act R S W B :=
  fun r s =>
    let x := m r s in
    let y := k x.1.1 r x.1.2 in
    (y.1.1, y.1.2, x.2 ++ y.2).

(** The environment's answers. *)
Definition ask {R S W} : Act R S W R := fun r s => (r, s, []).
(** The static variables. *)
Definition get {R S W} : Act R S W S := fun _ s => (s, s, []).
Definition put {R S W} (s : S) : Act R S W unit := fun _ _ => (tt, s, []).
Definition modify {R S W} (f : S -> S) : Act R S W unit := fun _ s => (tt, f s, []).
(** An outbound call whose result the program discards. *)
Definition call {R S W} (w : W) : Act R S W unit := fun _ s => (tt, s, [w]).

(** Running a computation: result, final statics, calls made. *)
Definition result {R S W A} (m : Act R S W A) (r : R) (s : S) : A := (m r s).1.1.
Definition final {R S W A} (m : Act R S W A) (r : R) (s : S) : S := (m r s).1.2.
Definition calls {R S W A} (m : Act R S W A) (r : R) (s : S) : list W := (m r s).2.

(** Two computations are equivalent when they agree on every environment and
    state. *)
Definition act_equiv {R S W A} (m1 m2 : Act R S W A) : Prop :=
  forall r s, m1 r s = m2 r s.

Declare Scope mbc_scope.
Delimit Scope mbc_scope with mbc.

(** C-like spellings of the bit operations on [Z], and the monad's notation. *)
Notation "a .& b" := (Z.land a b) (at level 40, left associativity) : mbc_scope.
Notation "a .| b" := (Z.lor a b) (at level 50, left associativity) : mbc_scope.
Notation "a .>> n" := (Z.shiftr a n) (at level 35, right associativity) : mbc_scope.
Notation "x <- m ;; k" := (act_bind m (fun x => k))
  (at level 100, m at next level, right associativity) : mbc_scope.
Notation "m ;; k" := (act_bind m (fun _ => k))
  (at level 100, right associativity) : mbc_scope.
Infix "=act=" := act_equiv (at level 70, no associativity) : mbc_scope.

#[local] Open Scope mbc_scope.

(** ** Automation *)

Create HintDb mbc discriminated.
Create Rewrite HintDb mbc_rw.

(** Unfolds the monad's operations and runs them. *)
Ltac run_act :=
  unfold result, final, calls, act_bind, act_ret, ask, get, put, modify, call in *;
  cbn [fst snd app] in *.

(** Case analysis on the first boolean test ([if], [&&], [||]) of the goal
    that is not yet decided. *)
Ltac case_bool b :=
  lazymatch b with
  | true => fail
  | false => fail
  | _ => destruct b eqn:?; cbn [andb orb negb]
  end.

Ltac case_test :=
  match goal with
  | |- context [if ?b then _ else _] => case_bool b
  | |- context [andb ?b _] => case_bool b
  | |- context [orb ?b _] => case_bool b
  end.

(** Boolean comparisons of [Z] in hypotheses to propositions. *)
Ltac reflect_Z :=
  repeat match goal with
    | H : (_ =? _) = true |- _ => apply Z.eqb_eq in H
    | H : (_ =? _) = false |- _ => apply Z.eqb_neq in H
    | H : (_ <? _) = true |- _ => apply Z.ltb_lt in H
    | H : (_ <? _) = false |- _ => apply Z.ltb_ge in H
    | H : (_ <=? _) = true |- _ => apply Z.leb_le in H
    | H : (_ <=? _) = false |- _ => apply Z.leb_gt in H
    end.

(** ** Lemmas on machine integers *)

Lemma wrap_LONG_idemp z : wrap_LONG (wrap_LONG z) = wrap_LONG z.
Proof. apply wrap_LONG_id, wrap_LONG_range. Qed.

Lemma wrap_LONG_congr z : exists k, wrap_LONG z = z + k * 2 ^ 32.
Proof.
  exists (- ((z + 2 ^ 31) / 2 ^ 32)). unfold wrap_LONG.
  rewrite Z.mod_eq by lia. lia.
Qed.

Lemma wrap_LONG_add_l a b : wrap_LONG (wrap_LONG a + b) = wrap_LONG (a + b).
Proof.
  unfold wrap_LONG.
  replace ((a + 2 ^ 31) mod 2 ^ 32 - 2 ^ 31 + b + 2 ^ 31)
    with ((a + 2 ^ 31) mod 2 ^ 32 + b) by lia.
  rewrite Zplus_mod_idemp_l. do 2 f_equal. lia.
Qed.

Lemma wrap_LONG_min : wrap_LONG (- LONG_MIN) = LONG_MIN.
Proof. reflexivity. Qed.

Lemma wrap_UINT_range z : in_UINT (wrap_UINT z).
Proof. unfold in_UINT, wrap_UINT, UINT_MAX. Z.div_mod_to_equations. lia. Qed.

Lemma wrap_UINT_id z : in_UINT z -> wrap_UINT z = z.
Proof. unfold in_UINT, wrap_UINT, UINT_MAX. intros ?. apply Z.mod_small. lia. Qed.

(** ** Lemmas on bit masks *)

Lemma bits_within_spec a m :
  bits_within a m <-> forall i, 0 <= i -> Z.testbit a i = true -> Z.testbit m i = true.
Proof.
  unfold bits_within. split.
  - intros H i Hi Ha. rewrite <- H, Z.land_spec in Ha.
    apply andb_prop in Ha. tauto.
  - intros H. apply Z.bits_inj'. intros i Hi. rewrite Z.land_spec.
    destruct (Z.testbit a i) eqn:E; [|done]. by rewrite (H i Hi E).
Qed.

Lemma bits_within_0 m : bits_within 0 m.
Proof. reflexivity. Qed.

Lemma bits_within_land a m : bits_within (a .& m) m.
Proof. unfold bits_within. Z.bitblast. Qed.

Lemma bits_within_lor a b m :
  bits_within a m -> bits_within b m -> bits_within (a .| b) m.
Proof. unfold bits_within. intros Ha Hb. rewrite Z.land_lor_distr_l. congruence. Qed.

Lemma bits_within_land_l a b m : bits_within a m -> bits_within (a .& b) m.
Proof.
  unfold bits_within. intros Ha.
  rewrite <- Z.land_assoc, (Z.land_comm b m), Z.land_assoc. congruence.
Qed.

Lemma bits_within_nonneg a m : 0 <= m -> bits_within a m -> 0 <= a.
Proof. unfold bits_within. intros Hm <-. apply Z.land_nonneg. auto. Qed.

Lemma bits_within_le a m : 0 <= m -> bits_within a m -> a <= m.
Proof.
  unfold bits_within. intros Hm H.
  pose proof (Z.sub_land_same_l m a) as E. rewrite (Z.land_comm m a), H in E.
  assert (0 <= Z.land m (Z.lnot a)) by (apply Z.land_nonneg; auto). lia.
Qed.

Lemma bits_within_UINT a m : in_UINT m -> bits_within a m -> in_UINT a.
Proof.
  unfold in_UINT, UINT_MAX. intros [? ?] Hw.
  pose proof (bits_within_nonneg a m ltac:(lia) Hw).
  pose proof (bits_within_le a m ltac:(lia) Hw). lia.
Qed.

(** On a [UINT], [x & ~y] clears exactly the bits of [y]. *)
Lemma land_UINT_not a y : in_UINT a -> a .& UINT_not y = Z.ldiff a y.
Proof.
  unfold in_UINT, UINT_MAX, UINT_not, wrap_UINT. intros Ha.
  rewrite <- (Z.mod_small a (2 ^ 32)) at 1 2 by lia.
  Z.bitblast.
Qed.

Lemma bits_within_ldiff a y m : bits_within a m -> bits_within (Z.ldiff a y) m.
Proof. rewrite Z.ldiff_land. apply bits_within_land_l. Qed.

#[export] Hint Resolve wrap_LONG_range wrap_UINT_range bits_within_0 bits_within_land
  bits_within_lor bits_within_land_l bits_within_ldiff : mbc.
#[export] Hint Rewrite wrap_LONG_idemp wrap_LONG_add_l : mbc_rw.

(** ** Lemmas on lists *)

(** Appending one more copy to [n] copies of a list. *)
Lemma mjoin_replicate_snoc {A} (n : nat) (l : list A) :
  mjoin (replicate n l) ++ l = mjoin (replicate (S n) l).
Proof.
  change (mjoin (replicate (S n) l)) with (l ++ mjoin (replicate n l)).
  induction n as [|n IH]; [cbn; by rewrite app_nil_r|].
  change (mjoin (replicate (S n) l)) with (l ++ mjoin (replicate n l)).
  by rewrite <- app_assoc, IH.
Qed.

(** ** Laws of the [Act] monad *)

Section act_laws.
Context {R S W : Type}.
Implicit Types (r : R) (s : S).

#[export] Instance act_equiv_equivalence {A} : Equivalence (@act_equiv R S W A).
Proof.
  split.
  - by intros m r s.
  - intros m1 m2 H r s. by rewrite H.
  - intros m1 m2 m3 H1 H2 r s. by rewrite H1.
Qed.

#[export] Instance act_bind_proper {A B} :
  Proper (act_equiv ==> pointwise_relation A act_equiv ==> act_equiv)
    (@act_bind R S W A B).
Proof. intros m1 m2 Hm k1 k2 Hk r s. unfold act_bind. by rewrite Hm, Hk. Qed.

Lemma act_bind_ret_l {A B} (a : A) (k : A -> Act R S W B) :
  (x <- act_ret a ;; k x) =act= k a.
Proof. intros r s. unfold act_bind, act_ret. cbn. by destruct (k a r s) as [[? ?] ?]. Qed.

Lemma act_bind_ret_r {A} (m : Act R S W A) : (x <- m ;; act_ret x) =act= m.
Proof.
  intros r s. unfold act_bind, act_ret. cbn.
  destruct (m r s) as [[? ?] ?]. cbn. by rewrite app_nil_r.
Qed.

Lemma act_bind_assoc {A B C} (m : Act R S W A) (k : A -> Act R S W B)
    (h : B -> Act R S W C) :
  (y <- (x <- m ;; k x) ;; h y) =act= (x <- m ;; y <- k x ;; h y).
Proof. intros r s. unfold act_bind. cbn. by rewrite app_assoc. Qed.

(** A state update followed by [m] runs [m] from the updated state. *)
Lemma modify_bind {A} (f : S -> S) (m : Act R S W A) r s :
  (modify f ;; m) r s = m r (f s).
Proof. unfold act_bind, modify. cbn. by destruct (m r (f s)) as [[? ?] ?]. Qed.

(** A call followed by [m] logs the call before the calls of [m]. *)
Lemma call_bind {A} (w : W) (m : Act R S W A) r s :
  (call w ;; m) r s = ((m r s).1.1, (m r s).1.2, w :: (m r s).2).
Proof. reflexivity. Qed.

Lemma ask_bind {A} (k : R -> Act R S W A) r s : (x <- ask ;; k x) r s = k r r s.
Proof. unfold act_bind, ask. cbn. by destruct (k r r s) as [[? ?] ?]. Qed.

Lemma get_bind {A} (k : S -> Act R S W A) r s : (x <- get ;; k x) r s = k s r s.
Proof. unfold act_bind, get. cbn. by destruct (k s r s) as [[? ?] ?]. Qed.

(** Sequencing a unit computation with a constant result. *)
Lemma bind_ret_const {A} (m : Act R S W unit) (a : A) r s :
  (m ;; act_ret a) r s = (a, (m r s).1.2, (m r s).2).
Proof. unfold act_bind, act_ret. cbn. by rewrite app_nil_r. Qed.
(** Symbolic execution, one step at a time: the run of a sequence from the
    run of its parts. *)
Lemma run_bind {A B} (m : Act R S W A) (k : A -> Act R S W B) r s x s1 ws1 y s2 ws2 :
  m r s = (x, s1, ws1) -> k x r s1 = (y, s2, ws2) ->
  (z <- m ;; k z) r s = (y, s2, ws1 ++ ws2).
Proof. intros Hm Hk. unfold act_bind. rewrite Hm. cbn. by rewrite Hk. Qed.

Lemma run_call {A} (w : W) (m : Act R S W A) r s x s' ws :
  m r s = (x, s', ws) -> (call w ;; m) r s = (x, s', w :: ws).
Proof. intros Hm. by rewrite call_bind, Hm. Qed.

Lemma run_modify {A} (f : S -> S) (m : Act R S W A) r s res :
  m r (f s) = res -> (modify f ;; m) r s = res.
Proof. intros <-. apply modify_bind. Qed.

Lemma run_put {A} (s' : S) (m : Act R S W A) r s res :
  m r s' = res -> (put s' ;; m) r s = res.
Proof. intros <-. unfold act_bind, put. cbn. by destruct (m r s') as [[? ?] ?]. Qed.
End act_laws.

#[export] Hint Rewrite @modify_bind @ask_bind @get_bind @bind_ret_const : mbc_rw.
