(* ===== verification/Format.v ===== *)
(** * Format: the string formatting the diagnostic message relies on

    On an initialization failure [_tWinMain] formats the last error code with
    [StringCchPrintf] into a buffer of 64 characters (lines 188-189).  This
    file models what that call does for the formats the program can use: the
    decimal conversion [%d] of a 32-bit value, digit by digit as the C runtime
    produces it, the expansion of a format string over its arguments
    ([expand]), and the bounded copy of [strsafe.h], which fails instead of
    truncating.  Text is a list of characters, as the [TCHAR] buffer is.  The
    conversion is proved to denote the value it prints ([parse_format_d]) and
    to stay within eleven characters ([format_d_length]). *)

From Stdlib Require Import Ascii String.
From stdpp Require Import base numbers list strings.
From S2P Require Import Prelude.

#[local] Open Scope Z_scope.

(** A run of [TCHAR]s, without its terminating zero. *)
Definition TSTR : Type := list ascii.

(** [TEXT("...")]: the characters of a literal. *)
Definition TEXT (s : string) : TSTR := list_ascii_of_string s.

(** ** Decimal conversion *)

Definition digit_char (d : Z) : ascii := ascii_of_nat (48 + Z.to_nat d).

Definition digit_value (c : ascii) : Z := Z.of_nat (nat_of_ascii c) - 48.

(** The digits of [n], most significant first: the last digit is [n mod 10],
    the digits before it are those of [n / 10] unless that is zero.  [fuel]
    bounds the number of digits. *)
Fixpoint digits_of (fuel : nat) (n : Z) : list Z :=
  match fuel with
  | O => []
  | S fuel => (if n / 10 =? 0 then [] else digits_of fuel (n / 10)) ++ [n mod 10]
  end.

(** The number a digit sequence denotes. *)
Definition value_of (ds : list Z) : Z := foldl (fun a d => 10 * a + d) 0 ds.

(** A 32-bit magnitude has at most ten digits. *)
Definition max_digits : nat := 10.

(** [%d]: the argument is read as a signed 32-bit integer; a minus sign, then
    the digits of the magnitude. *)
Definition format_d (v : Z) : TSTR :=
  let n := wrap_LONG v in
  if n <? 0 then "-"%char :: (digit_char <$> digits_of max_digits (- n))
  else digit_char <$> digits_of max_digits n.

(** Reading a decimal back. *)
Definition parse_d (s : TSTR) : Z :=
  match s with
  | c :: s' =>
      if bool_decide (c = "-"%char) then - value_of (digit_value <$> s')
      else value_of (digit_value <$> s)
  | [] => 0
  end.

(** ** Format strings *)

(** The expansion of a format over its arguments: [%d] converts the next
    argument, [%%] is a percent sign, every other character is copied.  A
    conversion that has no argument, or that is neither of the two, is not a
    format of the program: [None]. *)
Fixpoint expand (fmt : TSTR) (args : list Z) : option TSTR :=
  match fmt with
  | [] => Some []
  | c :: fmt1 =>
      if Ascii.eqb c "%" then
        match fmt1 with
        | c' :: fmt2 =>
            if Ascii.eqb c' "d" then
              match args with
              | v :: args' => (format_d v ++.) <$> expand fmt2 args'
              | [] => None
              end
            else if Ascii.eqb c' "%" then ("%"%char ::.) <$> expand fmt2 args
            else None
        | [] => None
        end
      else (c ::.) <$> expand fmt1 args
  end.

(** ** Bounded formatting *)

(** [StringCchPrintf(dest, cchDest, format, ...)]: the expanded text and its
    terminating zero must fit in [cchDest] characters, otherwise the call
    fails ([STRSAFE_E_INSUFFICIENT_BUFFER]); it does not truncate. *)
Definition StringCchPrintf (cchDest : Z) (fmt : TSTR) (args : list Z) : option TSTR :=
  text ← expand fmt args;
  if Z.of_nat (length text) <? cchDest then Some text else None.

(** ** Digits *)

Lemma digit_value_char d : 0 <= d < 10 -> digit_value (digit_char d) = d.
Proof.
  intros Hd. unfold digit_value, digit_char.
  rewrite nat_ascii_embedding by lia. lia.
Qed.

Lemma digits_of_range fuel n : 0 <= n -> Forall (fun d => 0 <= d < 10) (digits_of fuel n).
Proof.
  revert n. induction fuel as [|fuel IH]; intros n Hn; cbn; [done|].
  apply Forall_app. split.
  - case_test; reflect_Z; [done|]. apply IH. by apply Z.div_pos.
  - apply Forall_singleton, Z.mod_pos_bound. lia.
Qed.

Lemma digits_of_length fuel n : (length (digits_of fuel n) <= fuel)%nat.
Proof.
  revert n. induction fuel as [|fuel IH]; intros n; cbn; [done|].
  rewrite length_app. cbn. case_test; reflect_Z; cbn; [lia|]. specialize (IH (n / 10)). lia.
Qed.

Lemma digits_of_nonempty fuel n : (0 < fuel)%nat -> digits_of fuel n <> [].
Proof. destruct fuel; [lia|]. cbn. intros _ Heq. by apply app_nil in Heq as [_ ?]. Qed.

Lemma value_of_snoc ds d : value_of (ds ++ [d]) = 10 * value_of ds + d.
Proof. unfold value_of. by rewrite foldl_app. Qed.

(** With enough fuel the digits denote the number: nothing is cut off. *)
Lemma value_of_digits_of fuel n :
  0 <= n < 10 ^ Z.of_nat fuel -> value_of (digits_of fuel n) = n.
Proof.
  revert n. induction fuel as [|fuel IH]; intros n Hn.
  - cbn in *. lia.
  - cbn [digits_of]. rewrite value_of_snoc.
    rewrite Nat2Z.inj_succ, Z.pow_succ_r in Hn by lia.
    case_test; reflect_Z.
    + cbn. Z.div_mod_to_equations. lia.
    + rewrite IH; Z.div_mod_to_equations; lia.
Qed.

Lemma value_of_digit_chars ds :
  Forall (fun d => 0 <= d < 10) ds -> digit_value <$> (digit_char <$> ds) = ds.
Proof.
  induction 1 as [|d ds Hd _ IH]; cbn; [done|].
  by rewrite digit_value_char, IH.
Qed.

Lemma digit_char_not_minus d : 0 <= d < 10 -> digit_char d <> "-"%char.
Proof.
  intros Hd Heq. apply (f_equal digit_value) in Heq.
  rewrite digit_value_char in Heq by done. vm_compute in Heq. lia.
Qed.

(** ** The conversion *)

Lemma parse_d_minus s : parse_d ("-"%char :: s) = - value_of (digit_value <$> s).
Proof. done. Qed.

Lemma parse_d_not_minus c s :
  c <> "-"%char -> parse_d (c :: s) = value_of (digit_value <$> c :: s).
Proof. intros. unfold parse_d. by rewrite bool_decide_eq_false_2. Qed.

Lemma parse_d_digits ds :
  Forall (fun d => 0 <= d < 10) ds -> parse_d (digit_char <$> ds) = value_of ds.
Proof.
  intros Hds. destruct Hds as [|d ds Hd Hds]; [done|].
  rewrite fmap_cons, parse_d_not_minus, <- fmap_cons by by apply digit_char_not_minus.
  by rewrite value_of_digit_chars by by apply Forall_cons_2.
Qed.

Lemma max_digits_enough n : - 2 ^ 31 <= n <= 2 ^ 31 -> Z.abs n < 10 ^ Z.of_nat max_digits.
Proof. change (Z.of_nat max_digits) with 10. lia. Qed.

(** Round trip of [%d]: reading the text [format_d] prints gives back the
    argument as a signed 32-bit integer, for every argument; ten digits are
    enough and no digit is lost. *)
Theorem parse_format_d v : parse_d (format_d v) = wrap_LONG v.
Proof.
  unfold format_d. pose proof (wrap_LONG_range v) as Hr.
  unfold in_LONG, LONG_MIN, LONG_MAX in Hr.
  pose proof (max_digits_enough (wrap_LONG v) ltac:(lia)).
  case_test; reflect_Z.
  - rewrite parse_d_minus, value_of_digit_chars by (apply digits_of_range; lia).
    rewrite value_of_digits_of; lia.
  - rewrite parse_d_digits by (apply digits_of_range; lia).
    apply value_of_digits_of. lia.
Qed.

(** A formatted 32-bit value takes at least one and at most eleven
    characters: a sign and ten digits. *)
Theorem format_d_length v : (1 <= length (format_d v) <= 11)%nat.
Proof.
  unfold format_d.
  pose proof (digits_of_length max_digits (wrap_LONG v)).
  pose proof (digits_of_length max_digits (- wrap_LONG v)).
  pose proof (digits_of_nonempty max_digits (wrap_LONG v) ltac:(unfold max_digits; lia)).
  change max_digits with 10%nat in *.
  case_test; cbn [length]; rewrite length_fmap; [lia|].
  destruct (digits_of _ (wrap_LONG v)); [done|cbn [length] in *; lia].
Qed.

Lemma StringCchPrintf_fits cch fmt args text :
  expand fmt args = Some text -> Z.of_nat (length text) < cch ->
  StringCchPrintf cch fmt args = Some text.
Proof.
  intros He ?. unfold StringCchPrintf. rewrite He. cbn. case_test; reflect_Z; [done|lia].
Qed.

Lemma StringCchPrintf_overflow cch fmt args text :
  expand fmt args = Some text -> cch <= Z.of_nat (length text) ->
  StringCchPrintf cch fmt args = None.
Proof.
  intros He ?. unfold StringCchPrintf. rewrite He. cbn. case_test; reflect_Z; [lia|done].
Qed.

(** What is expanded is the text before the first conversion, then the
    rest. *)
Lemma expand_app fmt1 fmt2 args :
  "%"%char ∉ fmt1 -> expand (fmt1 ++ fmt2) args = (fmt1 ++.) <$> expand fmt2 args.
Proof.
  induction fmt1 as [|c fmt1 IH]; [cbn [app]; by destruct (expand fmt2 args)|].
  intros [Hc Hf]%not_elem_of_cons. cbn [app expand].
  destruct (Ascii.eqb_spec c "%"); [done|]. rewrite IH by done.
  by destruct (expand fmt2 args).
Qed.

Example format_d_samples :
  format_d 5 = TEXT "5" /\ format_d 1410 = TEXT "1410" /\
  format_d 4294967295 = TEXT "-1" /\ format_d 2147483648 = TEXT "-2147483648" /\
  format_d 0 = TEXT "0" /\
  expand (TEXT "%d%% of %d") [50; 7] = Some (TEXT "50% of 7") /\
  expand (TEXT "%d, %d") [1] = None /\ expand (TEXT "%s") [1] = None /\
  StringCchPrintf 4 (TEXT "%d") [1410] = None /\
  StringCchPrintf 5 (TEXT "%d") [1410] = Some (TEXT "1410").
Proof. by vm_compute. Qed.
