(* ===== verification/Win32.v ===== *)
(** * Win32: the part of the Windows headers the program is compiled against

    [MouseButtonClicker.cpp] includes [windows.h]; the constants and structures
    below are the ones it names, with the values and fields of [winuser.h] and
    [winerror.h].  Nothing here comes from the program's own source: the
    definitions of this file are the environment's side of the interface. *)

From stdpp Require Import base numbers finite list strings.
From S2P Require Import Prelude.

#[local] Open Scope Z_scope.

(** ** Handles and scalar types (all represented in [Z]) *)

Abbreviation HWND := Z (only parsing).
Abbreviation HANDLE := Z (only parsing).
Abbreviation UINT := Z (only parsing).
Abbreviation DWORD := Z (only parsing).
Abbreviation LONG := Z (only parsing).
Abbreviation USHORT := Z (only parsing).
Abbreviation WPARAM := Z (only parsing).
Abbreviation LPARAM := Z (only parsing).
Abbreviation LRESULT := Z (only parsing).

(** ** Raw input *)

(** The five buttons a raw mouse report can describe. *)
Inductive MouseButton : Set := Button1 | Button2 | Button3 | Button4 | Button5.

(** [RI_MOUSE_BUTTON_n_DOWN]: the transition-to-down flag of button [n] in
    [RAWMOUSE.usButtonFlags]. *)
Definition RI_MOUSE_BUTTON_DOWN (b : MouseButton) : Z :=
  match b with
  | Button1 => 0x0001
  | Button2 => 0x0004
  | Button3 => 0x0010
  | Button4 => 0x0040
  | Button5 => 0x0100
  end.

(** [RI_MOUSE_BUTTON_n_UP]: the transition-to-up flag of button [n]. *)
Definition RI_MOUSE_BUTTON_UP (b : MouseButton) : Z :=
  match b with
  | Button1 => 0x0002
  | Button2 => 0x0008
  | Button3 => 0x0020
  | Button4 => 0x0080
  | Button5 => 0x0200
  end.

Abbreviation RI_MOUSE_BUTTON_1_DOWN := (RI_MOUSE_BUTTON_DOWN Button1).
Abbreviation RI_MOUSE_BUTTON_2_DOWN := (RI_MOUSE_BUTTON_DOWN Button2).
Abbreviation RI_MOUSE_BUTTON_3_DOWN := (RI_MOUSE_BUTTON_DOWN Button3).
Abbreviation RI_MOUSE_BUTTON_4_DOWN := (RI_MOUSE_BUTTON_DOWN Button4).
Abbreviation RI_MOUSE_BUTTON_5_DOWN := (RI_MOUSE_BUTTON_DOWN Button5).
Abbreviation RI_MOUSE_BUTTON_1_UP := (RI_MOUSE_BUTTON_UP Button1).
Abbreviation RI_MOUSE_BUTTON_2_UP := (RI_MOUSE_BUTTON_UP Button2).
Abbreviation RI_MOUSE_BUTTON_3_UP := (RI_MOUSE_BUTTON_UP Button3).
Abbreviation RI_MOUSE_BUTTON_4_UP := (RI_MOUSE_BUTTON_UP Button4).
Abbreviation RI_MOUSE_BUTTON_5_UP := (RI_MOUSE_BUTTON_UP Button5).

(** Vertical and horizontal wheel data present in [usButtonData]. *)
Definition RI_MOUSE_WHEEL : Z := 0x0400.
Definition RI_MOUSE_HWHEEL : Z := 0x0800.

(** [RAWMOUSE.usFlags]: coordinates are absolute (pens, tablets, remote
    desktop) rather than relative to the last position. *)
Definition MOUSE_MOVE_ABSOLUTE : Z := 0x01.

(** [GetRawInputData] command: the whole report, not its header alone. *)
Definition RID_INPUT : UINT := 0x10000003.

(** [RAWINPUTHEADER.dwType]. *)
Definition RIM_TYPEMOUSE : Z := 0.
Definition RIM_TYPEKEYBOARD : Z := 1.

Record RAWINPUTHEADER : Set := {
  dwType : DWORD;
  dwSize : DWORD;
  hDevice : HANDLE;
  wParam : WPARAM
}.

Record RAWMOUSE : Set := {
  usFlags : USHORT;
  usButtonFlags : USHORT;
  usButtonData : USHORT;
  ulRawButtons : Z;
  lLastX : LONG;
  lLastY : LONG;
  ulExtraInformation : Z
}.

(** [RAWINPUT]: the header and, of the [data] union, the [mouse] member (the
    only one the program reads, and only when [dwType] is [RIM_TYPEMOUSE]). *)
Record RAWINPUT : Set := {
  header : RAWINPUTHEADER;
  mouse : RAWMOUSE
}.

(** A report as the raw-input driver produces it: every field in the range of
    its C type. *)
Definition RAWMOUSE_wf (m : RAWMOUSE) : Prop :=
  in_USHORT (usFlags m) /\ in_USHORT (usButtonFlags m) /\
  in_LONG (lLastX m) /\ in_LONG (lLastY m).

(** ** Window messages *)

Definition WM_DESTROY : UINT := 0x0002.
Definition WM_QUIT : UINT := 0x0012.
Definition WM_INPUT : UINT := 0x00FF.
Definition WM_TIMER : UINT := 0x0113.

(** [MSG]: a message as [GetMessage] retrieves it. *)
Module MSG.
Record t : Set := {
  hwnd : HWND;
  message : UINT;
  wParam : WPARAM;
  lParam : LPARAM;
  time : DWORD;
  pt : LONG * LONG
}.
End MSG.

(** ** Synthesized input *)

Definition INPUT_MOUSE : DWORD := 0.
Definition MOUSEEVENTF_LEFTDOWN : DWORD := 0x0002.
Definition MOUSEEVENTF_LEFTUP : DWORD := 0x0004.

Record MOUSEINPUT : Set := {
  mi_dx : LONG;
  mi_dy : LONG;
  mouseData : DWORD;
  dwFlags : DWORD;
  time : DWORD;
  dwExtraInfo : Z
}.

(** [INPUT]: the type tag and, of the union, the [mi] member. *)
Record INPUT : Set := {
  type : DWORD;
  mi : MOUSEINPUT
}.

(** ** Start-up: mutexes, window classes, windows, device registration *)

Definition NULL : Z := 0.
Definition FALSE : Z := 0.

(** [GetLastError] after [CreateMutex] found an object of that name. *)
Definition ERROR_ALREADY_EXISTS : DWORD := 183.

(** [CW_USEDEFAULT] is [((int)0x80000000)]. *)
Definition CW_USEDEFAULT : Z := wrap_LONG 0x80000000.

(** [HWND_MESSAGE] is [((HWND)-3)]: the parent of message-only windows. *)
Definition HWND_MESSAGE : HWND := -3.

(** [RAWINPUTDEVICE.dwFlags]: receive input also while in the background. *)
Definition RIDEV_INPUTSINK : DWORD := 0x00000100.

Definition MB_OK : UINT := 0x00000000.
Definition MB_ICONERROR : UINT := 0x00000010.

(** [WNDCLASS], over the type [P] of window procedures. *)
Record WNDCLASS (P : Type) : Type := {
  style : UINT;
  lpfnWndProc : option P;
  cbClsExtra : Z;
  cbWndExtra : Z;
  hInstance : HANDLE;
  hIcon : HANDLE;
  hCursor : HANDLE;
  hbrBackground : HANDLE;
  lpszMenuName : option string;
  lpszClassName : option string
}.
Arguments style {P} _.
Arguments lpfnWndProc {P} _.
Arguments cbClsExtra {P} _.
Arguments cbWndExtra {P} _.
Arguments hInstance {P} _.
Arguments hIcon {P} _.
Arguments hCursor {P} _.
Arguments hbrBackground {P} _.
Arguments lpszMenuName {P} _.
Arguments lpszClassName {P} _.

Record RAWINPUTDEVICE : Set := {
  usUsagePage : USHORT;
  usUsage : USHORT;
  rid_dwFlags : DWORD;
  hwndTarget : HWND
}.

(** ** Instances *)

#[export] Instance MouseButton_eq_dec : EqDecision MouseButton.
Proof. solve_decision. Defined.

#[export, refine] Instance MouseButton_finite : Finite MouseButton :=
  {| enum := [Button1; Button2; Button3; Button4; Button5] |}.
Proof.
  - by apply (bool_decide_unpack _).
  - intros []; by apply (bool_decide_unpack _).
Defined.

#[export] Instance RAWINPUTHEADER_eq_dec : EqDecision RAWINPUTHEADER.
Proof. solve_decision. Defined.
#[export] Instance RAWMOUSE_eq_dec : EqDecision RAWMOUSE.
Proof. solve_decision. Defined.
#[export] Instance RAWINPUT_eq_dec : EqDecision RAWINPUT.
Proof. solve_decision. Defined.
#[export] Instance MOUSEINPUT_eq_dec : EqDecision MOUSEINPUT.
Proof. solve_decision. Defined.
#[export] Instance INPUT_eq_dec : EqDecision INPUT.
Proof. solve_decision. Defined.
#[export] Instance MSG_eq_dec : EqDecision MSG.t.
Proof. solve_decision. Defined.
#[export] Instance RAWINPUTDEVICE_eq_dec : EqDecision RAWINPUTDEVICE.
Proof. solve_decision. Defined.
#[export] Instance RAWMOUSE_wf_dec m : Decision (RAWMOUSE_wf m).
Proof. unfold RAWMOUSE_wf. apply _. Defined.

(** ** Facts about the header's values *)

(** Each button flag is a single bit; the up flag is the bit above the down
    flag. *)
Lemma RI_MOUSE_BUTTON_UP_DOWN b : RI_MOUSE_BUTTON_UP b = 2 * RI_MOUSE_BUTTON_DOWN b.
Proof. by destruct b. Qed.

Lemma RI_MOUSE_BUTTON_DOWN_inj : Inj (=) (=) RI_MOUSE_BUTTON_DOWN.
Proof. intros [] []; done. Qed.

Lemma RI_MOUSE_BUTTON_DOWN_UP_ne b b' : RI_MOUSE_BUTTON_DOWN b <> RI_MOUSE_BUTTON_UP b'.
Proof. by destruct b, b'. Qed.

Lemma WM_distinct :
  WM_INPUT <> WM_TIMER /\ WM_INPUT <> WM_DESTROY /\ WM_TIMER <> WM_DESTROY.
Proof. done. Qed.
