(* ===== verification/Debounce.v ===== *)
(** * Debounce: the abstract click decision engine

    The specification of the program describes its core as a small state
    machine over a _debounce state_: the motion accumulated since the last
    reset, whether it has exceeded the threshold, the set of buttons held and
    whether the delay timer is scheduled, with one operation per kind of
    event.  This file is that machine, in exact arithmetic and with sets of
    buttons instead of bit masks.  It is the reference [Refinement.v] proves
    the window procedure against; nothing here is translated from the
    code. *)

From stdpp Require Import base numbers list finite gmap.
From S2P Require Import Prelude Win32.

#[local] Open Scope Z_scope.

Module Debounce.

Definition THRESHOLD : Z := 2.

Record State : Type := {
  accumDeltaX : Z;
  accumDeltaY : Z;
  motionArmed : bool;
  buttonsDown : gset MouseButton;
  pendingTimer : bool
}.

Inductive Event : Type :=
| Motion (dx dy : Z)
| ButtonOrWheel (downMask upMask : gset MouseButton) (isWheel : bool)
| TimerFire.

(** The states of the machine as the specification names them. *)
Inductive Phase : Set := IDLE | ACCUMULATING | BUTTON_HELD.

Definition init : State :=
  {| accumDeltaX := 0; accumDeltaY := 0; motionArmed := false;
     buttonsDown := ∅; pendingTimer := false |}.

(** Accumulate; arm once a delta exceeds the threshold; schedule the timer
    if no button is held and the motion is armed. *)
Definition onMotion (dx dy : Z) (st : State) : State :=
  let x := accumDeltaX st + dx in
  let y := accumDeltaY st + dy in
  let armed :=
    motionArmed st || ((THRESHOLD <? Z.abs x) || (THRESHOLD <? Z.abs y)) in
  {| accumDeltaX := x; accumDeltaY := y; motionArmed := armed;
     buttonsDown := buttonsDown st;
     pendingTimer :=
       pendingTimer st || (bool_decide (buttonsDown st = ∅) && armed) |}.

(** The part of the state every reset clears. *)
Definition reset (buttons : gset MouseButton) : State :=
  {| accumDeltaX := 0; accumDeltaY := 0; motionArmed := false;
     buttonsDown := buttons; pendingTimer := false |}.

(** Cancel the timer, update the buttons, reset. *)
Definition onButtonOrWheelEvent (downMask upMask : gset MouseButton) (isWheel : bool)
    (st : State) : State :=
  reset ((buttonsDown st ∪ downMask) ∖ upMask).

(** Cancel the timer, emit one click, reset. *)
Definition onTimerFire (st : State) : State := reset (buttonsDown st).

(** One event: the next state and the number of clicks emitted. *)
Definition step (e : Event) (st : State) : State * nat :=
  match e with
  | Motion dx dy => (onMotion dx dy st, 0%nat)
  | ButtonOrWheel downMask upMask isWheel =>
      (onButtonOrWheelEvent downMask upMask isWheel st, 0%nat)
  | TimerFire => (onTimerFire st, 1%nat)
  end.

(** A sequence of events: the last state and the clicks emitted in all. *)
Fixpoint steps (es : list Event) (st : State) : State * nat :=
  match es with
  | [] => (st, 0%nat)
  | e :: es =>
      let r := step e st in
      let r' := steps es r.1 in
      (r'.1, (r.2 + r'.2)%nat)
  end.

Definition phase (st : State) : Phase :=
  if bool_decide (buttonsDown st = ∅)
  then if pendingTimer st then ACCUMULATING else IDLE
  else BUTTON_HELD.

(** The invariant of the specification: the timer is scheduled exactly when
    no button is held and the motion is armed. *)
Definition inv (st : State) : Prop :=
  pendingTimer st = bool_decide (buttonsDown st = ∅) && motionArmed st.

(** The state-machine view of the specification: the phase an event leads
    to, by the buttons held and the motion accumulated.  The specification
    lists the transitions of motion, of a button going down, of the last
    button going up and of the timer firing while accumulating; the
    relation completes them: a button or wheel event leads to [IDLE] whenever
    it leaves no button held (a wheel event while accumulating, for
    instance), and a timer fire is possible in every phase. *)
Inductive transition (st : State) : Event -> Phase -> Prop :=
| t_rest dx dy :
    buttonsDown st = ∅ -> motionArmed (onMotion dx dy st) = false ->
    transition st (Motion dx dy) IDLE
| t_arm dx dy :
    buttonsDown st = ∅ -> motionArmed (onMotion dx dy st) = true ->
    transition st (Motion dx dy) ACCUMULATING
| t_drag dx dy :
    buttonsDown st <> ∅ -> transition st (Motion dx dy) BUTTON_HELD
| t_hold downMask upMask isWheel :
    (buttonsDown st ∪ downMask) ∖ upMask <> ∅ ->
    transition st (ButtonOrWheel downMask upMask isWheel) BUTTON_HELD
| t_release downMask upMask isWheel :
    (buttonsDown st ∪ downMask) ∖ upMask = ∅ ->
    transition st (ButtonOrWheel downMask upMask isWheel) IDLE
| t_fire :
    buttonsDown st = ∅ -> transition st TimerFire IDLE
| t_fire_held :
    buttonsDown st <> ∅ -> transition st TimerFire BUTTON_HELD.

#[export] Instance State_eq_dec : EqDecision State.
Proof. solve_decision. Defined.
#[export] Instance Event_eq_dec : EqDecision Event.
Proof. solve_decision. Defined.
#[export] Instance Phase_eq_dec : EqDecision Phase.
Proof. solve_decision. Defined.

Lemma init_inv : inv init.
Proof. done. Qed.

Lemma step_inv e st : inv st -> inv (step e st).1.
Proof.
  unfold inv. destruct e as [dx dy|down up w|]; cbn; intros Hst.
  - rewrite Hst. by destruct (bool_decide _), (motionArmed st), (_ <? _), (_ <? _).
  - by rewrite andb_false_r.
  - by rewrite andb_false_r.
Qed.

Lemma steps_inv es : forall st, inv st -> inv (steps es st).1.
Proof.
  induction es as [|e es IH]; intros st Hst; [done|]. cbn. by apply IH, step_inv.
Qed.

Lemma steps_app es1 es2 st :
  steps (es1 ++ es2) st =
    ((steps es2 (steps es1 st).1).1, ((steps es1 st).2 + (steps es2 (steps es1 st).1).2)%nat).
Proof.
  revert st. induction es1 as [|e es1 IH]; intros st; cbn.
  - by destruct (steps es2 st).
  - rewrite IH. cbn. f_equal. lia.
Qed.

(** The phase after a reset is told by the buttons. *)
Lemma phase_reset bs : phase (reset bs) = if bool_decide (bs = ∅) then IDLE else BUTTON_HELD.
Proof. done. Qed.

(** With the invariant, the phase after a motion event is told by the
    buttons and the armed flag. *)
Lemma phase_onMotion dx dy st :
  inv st ->
  phase (onMotion dx dy st) =
    if bool_decide (buttonsDown st = ∅)
    then if motionArmed (onMotion dx dy st) then ACCUMULATING else IDLE
    else BUTTON_HELD.
Proof.
  unfold inv, phase. cbn. intros ->.
  destruct (bool_decide (buttonsDown st = ∅)); [|done].
  by destruct (motionArmed st), (THRESHOLD <? Z.abs (accumDeltaX st + dx)),
       (THRESHOLD <? Z.abs (accumDeltaY st + dy)).
Qed.

(** Every step is a transition of the state-machine view. *)
Lemma step_transition e st : inv st -> transition st e (phase (step e st).1).
Proof.
  intros Hst. destruct e as [dx dy|down up w|]; cbn [step fst].
  - rewrite phase_onMotion by done. case_bool_decide; [|by constructor].
    destruct (motionArmed (onMotion dx dy st)) eqn:Ha; by constructor.
  - unfold onButtonOrWheelEvent. rewrite phase_reset. case_bool_decide; by constructor.
  - unfold onTimerFire. rewrite phase_reset. case_bool_decide; by constructor.
Qed.

(** The transitions are deterministic: the relation tells the phase. *)
Lemma transition_phase e st p :
  inv st -> transition st e p -> phase (step e st).1 = p.
Proof.
  intros Hst Ht. destruct Ht; cbn [step fst];
    rewrite ?phase_onMotion by done; unfold onButtonOrWheelEvent, onTimerFire;
    rewrite ?phase_reset; repeat case_bool_decide; try done.
  all: by match goal with H : motionArmed _ = _ |- _ => rewrite H end.
Qed.

(** A timer fire leaves the machine idle or with a button held, never
    accumulating. *)
Lemma phase_onTimerFire st : phase (onTimerFire st) <> ACCUMULATING.
Proof. unfold phase. cbn. by case_bool_decide. Qed.

End Debounce.
