(* ===== verification/WndProc.v ===== *)
(** * WndProc: the window procedure of MouseButtonClicker.cpp

    The click decision engine.  [WndProc] (lines 38-141 of
    [src/MouseButtonClicker.cpp]) keeps four [static] variables across calls
    ([WndStatics]), reads the answers of the Win32 calls it makes
    ([OsAnswers]) and issues calls that act on the system ([OsCall]).  Each
    [case] of its [switch] is one definition below, written in the [Act] monad
    of the prelude; the macros of lines 14-35 come first. *)

From stdpp Require Import base numbers list strings.
From S2P Require Import Prelude Win32.

#[local] Open Scope Z_scope.
#[local] Open Scope mbc_scope.

(** ** Macros (lines 14-35) *)

(** [COMPILE_TIME_ASSERT(e)] declares [typedef int CTA[(e) ? 1 : -1]]: the
    value is the array bound, and the translation unit compiles only when it
    is positive. *)
Definition COMPILE_TIME_ASSERT (e : bool) : Z := if e then 1 else -1.

Definition RI_ALL_MOUSE_BUTTONS_DOWN : Z :=
  RI_MOUSE_BUTTON_1_DOWN .| RI_MOUSE_BUTTON_2_DOWN .| RI_MOUSE_BUTTON_3_DOWN .|
  RI_MOUSE_BUTTON_4_DOWN .| RI_MOUSE_BUTTON_5_DOWN.

Definition RI_ALL_MOUSE_BUTTONS_UP : Z :=
  RI_MOUSE_BUTTON_1_UP .| RI_MOUSE_BUTTON_2_UP .| RI_MOUSE_BUTTON_3_UP .|
  RI_MOUSE_BUTTON_4_UP .| RI_MOUSE_BUTTON_5_UP.

(** The six assertions of lines 22-27, as the array bounds they declare. *)
Definition bit_level_assumptions : list Z :=
  [ COMPILE_TIME_ASSERT (RI_MOUSE_BUTTON_1_DOWN =? (RI_MOUSE_BUTTON_1_UP .>> 1));
    COMPILE_TIME_ASSERT (RI_MOUSE_BUTTON_2_DOWN =? (RI_MOUSE_BUTTON_2_UP .>> 1));
    COMPILE_TIME_ASSERT (RI_MOUSE_BUTTON_3_DOWN =? (RI_MOUSE_BUTTON_3_UP .>> 1));
    COMPILE_TIME_ASSERT (RI_MOUSE_BUTTON_4_DOWN =? (RI_MOUSE_BUTTON_4_UP .>> 1));
    COMPILE_TIME_ASSERT (RI_MOUSE_BUTTON_5_DOWN =? (RI_MOUSE_BUTTON_5_UP .>> 1));
    COMPILE_TIME_ASSERT (RI_ALL_MOUSE_BUTTONS_DOWN =? (RI_ALL_MOUSE_BUTTONS_UP .>> 1)) ].

(** [ABS(v)] is [((0 <= v) ? v : -v)].  Its argument is a [LONG], so the
    negation is a 32-bit one: [-v] wraps for [v = LONG_MIN]. *)
Definition ABS (v : LONG) : LONG := if 0 <=? v then v else wrap_LONG (- v).

Definition APPLICATION_NAME : string := "MouseButtonClicker".
Definition TIMER_EVENT_ID : Z := 1.
Definition MOUSE_MOVE_THRESHOLD : Z := 2.

(** ** State, environment and outbound calls *)

(** The [static] locals of [WndProc] (lines 41-43 and 70). *)
Record WndStatics : Set := {
  lLastClickDeltaX : LONG;
  lLastClickDeltaY : LONG;
  fOkToClick : bool;
  usMouseButtonsDown : UINT
}.

(** Their initializers. *)
Definition WndStatics_init : WndStatics :=
  {| lLastClickDeltaX := 0; lLastClickDeltaY := 0; fOkToClick := false;
     usMouseButtonsDown := 0 |}.

(** The Win32 calls of [WndProc] that act on the system, with their
    arguments. *)
Inductive OsCall : Set :=
| SetTimer (hWnd : HWND) (nIDEvent : Z) (uElapse : UINT)
| KillTimer (hWnd : HWND) (uIDEvent : Z)
| SendInput (pInputs : list INPUT)
| PostQuitMessage (nExitCode : Z)
| DefWindowProc (hWnd : HWND) (Msg : UINT) (wParam : WPARAM) (lParam : LPARAM).

(** What the system answers to the calls [WndProc] makes while it handles
    one message.
    - [GetRawInputData_size h]: the return value of the size query
      [GetRawInputData(h, RID_INPUT, NULL, &cbSize, ...)] and the value it
      leaves in [cbSize];
    - [malloca n]: whether [_malloca(n)] returned a buffer;
    - [GetRawInputData_data h n]: the return value of the read
      [GetRawInputData(h, RID_INPUT, pData, &cbSize, ...)] with [cbSize = n]
      and the contents of the buffer afterwards;
    - [GetDoubleClickTime]: the system's double-click time, in milliseconds;
    - [DefWindowProc_result]: what [DefWindowProc] returns. *)
Record OsAnswers : Type := {
  GetRawInputData_size : LPARAM -> UINT * UINT;
  malloca : UINT -> bool;
  GetRawInputData_data : LPARAM -> UINT -> UINT * RAWINPUT;
  GetDoubleClickTime : UINT;
  DefWindowProc_result : HWND -> UINT -> WPARAM -> LPARAM -> LRESULT
}.

(** Computations of the window procedure. *)
Abbreviation Wnd := (Act OsAnswers WndStatics OsCall).

(** ** The raw-input case (lines 48-112) *)

(** Lines 73-77: add the report's motion to the deltas, then enable clicking
    once a delta exceeds the threshold. *)
Definition update_deltas (m : RAWMOUSE) (s : WndStatics) : WndStatics :=
  let x := wrap_LONG (lLastClickDeltaX s + lLastX m) in
  let y := wrap_LONG (lLastClickDeltaY s + lLastY m) in
  {| lLastClickDeltaX := x;
     lLastClickDeltaY := y;
     fOkToClick :=
       fOkToClick s || ((MOUSE_MOVE_THRESHOLD <? ABS x) || (MOUSE_MOVE_THRESHOLD <? ABS y));
     usMouseButtonsDown := usMouseButtonsDown s |}.

(** Lines 96-97: add the buttons that went down, remove the ones that went
    up. *)
Definition update_buttons (usButtonFlags : UINT) (s : WndStatics) : WndStatics :=
  let down := usMouseButtonsDown s .| (usButtonFlags .& RI_ALL_MOUSE_BUTTONS_DOWN) in
  {| lLastClickDeltaX := lLastClickDeltaX s;
     lLastClickDeltaY := lLastClickDeltaY s;
     fOkToClick := fOkToClick s;
     usMouseButtonsDown :=
       down .& UINT_not ((usButtonFlags .& RI_ALL_MOUSE_BUTTONS_UP) .>> 1) |}.

(** Lines 100-102 and again 126-128: reset the deltas and the threshold
    flag. *)
Definition reset_click (s : WndStatics) : WndStatics :=
  {| lLastClickDeltaX := 0;
     lLastClickDeltaY := 0;
     fOkToClick := false;
     usMouseButtonsDown := usMouseButtonsDown s |}.

(** Line 81: the report carries no button transition and no wheel rotation. *)
Definition is_mouse_move (usButtonFlags : UINT) : bool :=
  (usButtonFlags .&
     (RI_ALL_MOUSE_BUTTONS_DOWN .| RI_ALL_MOUSE_BUTTONS_UP .| RI_MOUSE_WHEEL)) =? 0.

(** Lines 83-88: (re)set the click timer if no button is down and the mouse
    moved enough. *)
Definition on_mouse_move (hWnd : HWND) : Wnd unit :=
  s <- get ;;
  if (usMouseButtonsDown s =? 0) && fOkToClick s
  then os <- ask ;; call (SetTimer hWnd TIMER_EVENT_ID (GetDoubleClickTime os))
  else act_ret tt.

(** Lines 92-102: cancel the click timer, update the buttons, reset. *)
Definition on_button_or_wheel (hWnd : HWND) (usButtonFlags : UINT) : Wnd unit :=
  call (KillTimer hWnd TIMER_EVENT_ID) ;;
  modify (update_buttons usButtonFlags) ;;
  modify reset_click.

(** Lines 69-103: a report of a device with relative coordinates. *)
Definition on_relative_mouse (hWnd : HWND) (m : RAWMOUSE) : Wnd unit :=
  modify (update_deltas m) ;;
  if is_mouse_move (usButtonFlags m)
  then on_mouse_move hWnd
  else on_button_or_wheel hWnd (usButtonFlags m).

(** Lines 61-105: only mouse input, and only of devices that use relative
    coordinates. *)
Definition on_raw_input (hWnd : HWND) (r : RAWINPUT) : Wnd unit :=
  if dwType (header r) =? RIM_TYPEMOUSE then
    if (usFlags (mouse r) .& MOUSE_MOVE_ABSOLUTE) =? 0
    then on_relative_mouse hWnd (mouse r)
    else act_ret tt
  else act_ret tt.

(** Lines 48-112: query the size, allocate, read, handle.  [cbSize] starts
    at 0 and holds what the size query stored.  The comparison of line 59
    reads [cbSize] on its left and passes [&cbSize] to the call on its right;
    the model compares the size the query stored with the result of the read,
    which is the value of the comparison in either order as long as the read
    stores in [cbSize] what it returns.  [_freea] (line 108) releases the
    buffer and changes nothing that is observed. *)
Definition on_WM_INPUT (hWnd : HWND) (lParam : LPARAM) : Wnd unit :=
  os <- ask ;;
  let query := GetRawInputData_size os lParam in
  let cbSize := query.2 in
  if query.1 =? 0 then
    if malloca os cbSize then
      let read := GetRawInputData_data os lParam cbSize in
      if cbSize =? read.1 then on_raw_input hWnd read.2 else act_ret tt
    else act_ret tt
  else act_ret tt.

(** ** The timer case (lines 114-130) *)

(** [INPUT pInputs[2] = {0}] with the two assignments to each element. *)
Definition click_input (flags : DWORD) : INPUT :=
  {| type := INPUT_MOUSE;
     mi := {| mi_dx := 0; mi_dy := 0; mouseData := 0; dwFlags := flags;
              time := 0; dwExtraInfo := 0 |} |}.

Definition pInputs : list INPUT :=
  [click_input MOUSEEVENTF_LEFTDOWN; click_input MOUSEEVENTF_LEFTUP].

(** Stop the timer, click the primary button, reset. *)
Definition on_WM_TIMER (hWnd : HWND) : Wnd unit :=
  call (KillTimer hWnd TIMER_EVENT_ID) ;;
  call (SendInput pInputs) ;;
  modify reset_click.

(** ** The close case (lines 132-134) *)

Definition on_WM_DESTROY : Wnd unit := call (PostQuitMessage 0).

(** ** The window procedure (lines 38-141) *)

Definition WndProc (hWnd : HWND) (message : UINT) (wParam : WPARAM) (lParam : LPARAM)
  : Wnd LRESULT :=
  if message =? WM_INPUT then on_WM_INPUT hWnd lParam ;; act_ret 0
  else if message =? WM_TIMER then on_WM_TIMER hWnd ;; act_ret 0
  else if message =? WM_DESTROY then on_WM_DESTROY ;; act_ret 0
  else
    os <- ask ;;
    call (DefWindowProc hWnd message wParam lParam) ;;
    act_ret (DefWindowProc_result os hWnd message wParam lParam).

(** ** Vocabulary of the theorems *)

(** The statics are in the ranges of their C types, and only bits of button
    down-flags are ever set in [usMouseButtonsDown]. *)
Definition WndStatics_wf (s : WndStatics) : Prop :=
  in_LONG (lLastClickDeltaX s) /\ in_LONG (lLastClickDeltaY s) /\
  bits_within (usMouseButtonsDown s) RI_ALL_MOUSE_BUTTONS_DOWN.

(** The report a [WM_INPUT] message hands to the engine, if any: both
    [GetRawInputData] calls and the allocation succeed, the input is mouse
    input and its coordinates are relative. *)
Definition raw_mouse_of (os : OsAnswers) (lParam : LPARAM) : option RAWMOUSE :=
  let query := GetRawInputData_size os lParam in
  let read := GetRawInputData_data os lParam query.2 in
  if bool_decide (query.1 = 0 /\ malloca os query.2 = true /\ query.2 = read.1 /\
                  dwType (header read.2) = RIM_TYPEMOUSE /\
                  usFlags (mouse read.2) .& MOUSE_MOVE_ABSOLUTE = 0)
  then Some (mouse read.2) else None.

(** Whether [flag] is set in [flags]. *)
Definition has_flag (flags flag : Z) : bool := negb (flags .& flag =? 0).

(** Button [b] is recorded as held. *)
Definition button_held (b : MouseButton) (s : WndStatics) : bool :=
  has_flag (usMouseButtonsDown s) (RI_MOUSE_BUTTON_DOWN b).

(** The position of a button's down-flag in [usButtonFlags]. *)
Definition button_bit (b : MouseButton) : Z :=
  match b with
  | Button1 => 0 | Button2 => 2 | Button3 => 4 | Button4 => 6 | Button5 => 8
  end.

(** A delta exceeds the threshold, in exact arithmetic. *)
Definition exceeds_threshold (x y : Z) : bool :=
  (MOUSE_MOVE_THRESHOLD <? Z.abs x) || (MOUSE_MOVE_THRESHOLD <? Z.abs y).

(** A delta that leaves clicking disabled: within the threshold, or
    [LONG_MIN], which [ABS] misses. *)
Definition within_threshold (v : Z) : Prop :=
  Z.abs v <= MOUSE_MOVE_THRESHOLD \/ v = LONG_MIN.

(** The threshold flag tells the deltas: while clicking is disabled, both
    deltas are within the threshold. *)
Definition flag_tracks_deltas (s : WndStatics) : Prop :=
  fOkToClick s = false ->
  within_threshold (lLastClickDeltaX s) /\ within_threshold (lLastClickDeltaY s).

(** What one call of the window procedure can do, by message: the result,
    the statics afterwards and the calls made.  [WndProc_outcome] below shows
    that these seven cases are exhaustive. *)
Inductive Outcome (hWnd : HWND) (wParam : WPARAM) (lParam : LPARAM)
    (os : OsAnswers) (s : WndStatics) :
    UINT -> LRESULT * WndStatics * list OsCall -> Prop :=
| out_ignored :
    raw_mouse_of os lParam = None ->
    Outcome hWnd wParam lParam os s WM_INPUT (0, s, [])
| out_move m :
    raw_mouse_of os lParam = Some m -> is_mouse_move (usButtonFlags m) = true ->
    (usMouseButtonsDown s =? 0) && fOkToClick (update_deltas m s) = false ->
    Outcome hWnd wParam lParam os s WM_INPUT (0, update_deltas m s, [])
| out_arm m :
    raw_mouse_of os lParam = Some m -> is_mouse_move (usButtonFlags m) = true ->
    usMouseButtonsDown s = 0 -> fOkToClick (update_deltas m s) = true ->
    Outcome hWnd wParam lParam os s WM_INPUT
      (0, update_deltas m s, [SetTimer hWnd TIMER_EVENT_ID (GetDoubleClickTime os)])
| out_reset m :
    raw_mouse_of os lParam = Some m -> is_mouse_move (usButtonFlags m) = false ->
    Outcome hWnd wParam lParam os s WM_INPUT
      (0, reset_click (update_buttons (usButtonFlags m) (update_deltas m s)),
       [KillTimer hWnd TIMER_EVENT_ID])
| out_click :
    Outcome hWnd wParam lParam os s WM_TIMER
      (0, reset_click s, [KillTimer hWnd TIMER_EVENT_ID; SendInput pInputs])
| out_quit :
    Outcome hWnd wParam lParam os s WM_DESTROY (0, s, [PostQuitMessage 0])
| out_default message :
    message <> WM_INPUT -> message <> WM_TIMER -> message <> WM_DESTROY ->
    Outcome hWnd wParam lParam os s message
      (DefWindowProc_result os hWnd message wParam lParam, s,
       [DefWindowProc hWnd message wParam lParam]).

(** ** Sample inputs (used by the witnesses) *)

(** A raw-input buffer holding a mouse report. *)
Definition sample_report (flags buttons : USHORT) (dx dy : LONG) : RAWINPUT :=
  {| header := {| dwType := RIM_TYPEMOUSE; dwSize := 48; hDevice := 65599; wParam := 0 |};
     mouse := {| usFlags := flags; usButtonFlags := buttons; usButtonData := 0;
                 ulRawButtons := 0; lLastX := dx; lLastY := dy;
                 ulExtraInformation := 0 |} |}.

(** A system in which every call succeeds and [GetRawInputData] yields [r]. *)
Definition sample_os (r : RAWINPUT) : OsAnswers :=
  {| GetRawInputData_size := fun _ => (0, 48);
     malloca := fun _ => true;
     GetRawInputData_data := fun _ n => (n, r);
     GetDoubleClickTime := 500;
     DefWindowProc_result := fun _ _ _ _ => 0 |}.

(** Statics with button 2 held and some motion accumulated. *)
Definition sample_statics : WndStatics :=
  {| lLastClickDeltaX := 7; lLastClickDeltaY := -1; fOkToClick := true;
     usMouseButtonsDown := RI_MOUSE_BUTTON_2_DOWN |}.

#[export] Instance WndStatics_eq_dec : EqDecision WndStatics.
Proof. solve_decision. Defined.
#[export] Instance OsCall_eq_dec : EqDecision OsCall.
Proof. solve_decision. Defined.
#[export] Instance WndStatics_wf_dec s : Decision (WndStatics_wf s).
Proof. unfold WndStatics_wf. apply _. Defined.

(** Splits a goal [WndStatics_wf s] into its three parts. *)
Ltac split_wf := unfold WndStatics_wf; cbn; refine (conj _ (conj _ _)).

(** Unfolds the handlers down to the monad's operations and runs them. *)
Ltac run_wnd :=
  unfold on_WM_TIMER, on_WM_DESTROY, on_button_or_wheel, on_mouse_move; run_act.

(** ** The macros *)

Lemma RI_ALL_MOUSE_BUTTONS_DOWN_value : RI_ALL_MOUSE_BUTTONS_DOWN = 0x155.
Proof. reflexivity. Qed.

Lemma RI_ALL_MOUSE_BUTTONS_UP_value : RI_ALL_MOUSE_BUTTONS_UP = 0x2AA.
Proof. reflexivity. Qed.

Lemma RI_MOUSE_BUTTON_DOWN_bit b : RI_MOUSE_BUTTON_DOWN b = 2 ^ button_bit b.
Proof. by destruct b. Qed.

Lemma RI_MOUSE_BUTTON_UP_bit b : RI_MOUSE_BUTTON_UP b = 2 ^ (button_bit b + 1).
Proof. by destruct b. Qed.

Lemma button_bit_nonneg b : 0 <= button_bit b.
Proof. by destruct b. Qed.

Lemma button_bit_DOWN b : Z.testbit RI_ALL_MOUSE_BUTTONS_DOWN (button_bit b) = true.
Proof. by destruct b. Qed.

Lemma button_bit_UP b : Z.testbit RI_ALL_MOUSE_BUTTONS_UP (button_bit b + 1) = true.
Proof. by destruct b. Qed.

Lemma has_flag_testbit flags k : 0 <= k -> has_flag flags (2 ^ k) = Z.testbit flags k.
Proof.
  intros Hk. unfold has_flag.
  destruct (Z.testbit flags k) eqn:E.
  - apply negb_true_iff, Z.eqb_neq. intros H0.
    assert (Z.testbit (flags .& 2 ^ k) k = true) as Hbit
      by (rewrite Z.land_spec, E, Z.pow2_bits_true by lia; done).
    by rewrite H0, Z.bits_0 in Hbit.
  - apply negb_false_iff, Z.eqb_eq, Z.bits_inj'. intros i Hi.
    rewrite Z.land_spec, Z.bits_0, Z.pow2_bits_eqb by lia.
    destruct (Z.eqb_spec k i) as [->|]; [by rewrite E | apply andb_false_r].
Qed.

(** The six compile-time assertions of lines 22-27 hold for the values of
    [winuser.h] transcribed in [Win32.v]: the translation unit is accepted. *)
Example bit_level_assumptions_hold : Forall (fun bound => 0 < bound) bit_level_assumptions.
Proof. repeat constructor. Qed.

(** [ABS] is the absolute value except at [LONG_MIN], where the negation
    wraps and the result is negative. *)
Lemma ABS_abs v : LONG_MIN < v <= LONG_MAX -> ABS v = Z.abs v.
Proof.
  unfold ABS, LONG_MIN, LONG_MAX. intros Hv. case_test; reflect_Z; [lia|].
  rewrite wrap_LONG_id by (unfold in_LONG, LONG_MIN, LONG_MAX; lia). lia.
Qed.

Lemma ABS_LONG_MIN : ABS LONG_MIN = LONG_MIN.
Proof. reflexivity. Qed.

(** The threshold test on a [LONG]: [ABS] is above the threshold for the
    values above 2 and for those below -2, [LONG_MIN] apart. *)
Lemma threshold_ABS v :
  in_LONG v -> (MOUSE_MOVE_THRESHOLD <? ABS v) = bool_decide (2 < v \/ LONG_MIN < v < -2).
Proof.
  intros Hv. destruct (decide (v = LONG_MIN)) as [->|Hne]; [done|].
  rewrite ABS_abs by (unfold in_LONG in Hv; lia). unfold MOUSE_MOVE_THRESHOLD.
  unfold in_LONG in Hv.
  case_bool_decide; destruct (Z.ltb_spec 2 (Z.abs v)); try done; lia.
Qed.

Lemma ABS_range v : in_LONG v -> in_LONG (ABS v).
Proof. unfold ABS. intros Hv. case_test; auto with mbc. Qed.

(** ** The handlers, run *)

Section handlers.
Context (hWnd : HWND) (os : OsAnswers) (s : WndStatics).

Lemma on_mouse_move_run :
  on_mouse_move hWnd os s =
    (tt, s,
     if (usMouseButtonsDown s =? 0) && fOkToClick s
     then [SetTimer hWnd TIMER_EVENT_ID (GetDoubleClickTime os)] else []).
Proof. run_wnd. by case_test. Qed.

Lemma on_button_or_wheel_run flags :
  on_button_or_wheel hWnd flags os s =
    (tt, reset_click (update_buttons flags s), [KillTimer hWnd TIMER_EVENT_ID]).
Proof. reflexivity. Qed.

Lemma on_relative_mouse_run m :
  on_relative_mouse hWnd m os s =
    if is_mouse_move (usButtonFlags m)
    then on_mouse_move hWnd os (update_deltas m s)
    else on_button_or_wheel hWnd (usButtonFlags m) os (update_deltas m s).
Proof.
  unfold on_relative_mouse. rewrite modify_bind. by case_test.
Qed.

Lemma on_WM_INPUT_run lParam :
  on_WM_INPUT hWnd lParam os s =
    match raw_mouse_of os lParam with
    | Some m => on_relative_mouse hWnd m os s
    | None => (tt, s, [])
    end.
Proof.
  unfold on_WM_INPUT, on_raw_input, raw_mouse_of. rewrite ask_bind. cbn zeta.
  case_bool_decide as Hd.
  - destruct Hd as (-> & -> & <- & -> & ->). by rewrite !Z.eqb_refl.
  - repeat case_test; reflect_Z; try done. destruct Hd. by repeat split.
Qed.

Lemma on_WM_TIMER_run :
  on_WM_TIMER hWnd os s =
    (tt, reset_click s, [KillTimer hWnd TIMER_EVENT_ID; SendInput pInputs]).
Proof. reflexivity. Qed.
End handlers.

(** The window procedure, case by case. *)
Section cases.
Context (hWnd : HWND) (wParam : WPARAM) (lParam : LPARAM).
Context (os : OsAnswers) (s : WndStatics).

Lemma WndProc_WM_INPUT :
  WndProc hWnd WM_INPUT wParam lParam os s =
    match raw_mouse_of os lParam with
    | Some m => (0, (on_relative_mouse hWnd m os s).1.2, (on_relative_mouse hWnd m os s).2)
    | None => (0, s, [])
    end.
Proof.
  unfold WndProc. rewrite Z.eqb_refl, bind_ret_const, on_WM_INPUT_run.
  by destruct (raw_mouse_of os lParam).
Qed.

Lemma WndProc_WM_TIMER :
  WndProc hWnd WM_TIMER wParam lParam os s =
    (0, reset_click s, [KillTimer hWnd TIMER_EVENT_ID; SendInput pInputs]).
Proof. reflexivity. Qed.

Lemma WndProc_WM_DESTROY :
  WndProc hWnd WM_DESTROY wParam lParam os s = (0, s, [PostQuitMessage 0]).
Proof. reflexivity. Qed.

Lemma WndProc_default message :
  message <> WM_INPUT -> message <> WM_TIMER -> message <> WM_DESTROY ->
  WndProc hWnd message wParam lParam os s =
    (DefWindowProc_result os hWnd message wParam lParam, s,
     [DefWindowProc hWnd message wParam lParam]).
Proof.
  intros H1 H2 H3. unfold WndProc.
  by rewrite (proj2 (Z.eqb_neq _ _) H1), (proj2 (Z.eqb_neq _ _) H2),
    (proj2 (Z.eqb_neq _ _) H3).
Qed.
End cases.

(** Every message falls in one of the four cases. *)
Lemma WndProc_cases hWnd message wParam lParam os s :
  (message = WM_INPUT /\
   WndProc hWnd message wParam lParam os s = WndProc hWnd WM_INPUT wParam lParam os s) \/
  (message = WM_TIMER /\
   WndProc hWnd message wParam lParam os s =
     (0, reset_click s, [KillTimer hWnd TIMER_EVENT_ID; SendInput pInputs])) \/
  (message = WM_DESTROY /\
   WndProc hWnd message wParam lParam os s = (0, s, [PostQuitMessage 0])) \/
  (message <> WM_INPUT /\ message <> WM_TIMER /\ message <> WM_DESTROY /\
   WndProc hWnd message wParam lParam os s =
     (DefWindowProc_result os hWnd message wParam lParam, s,
      [DefWindowProc hWnd message wParam lParam])).
Proof.
  destruct (decide (message = WM_INPUT)) as [->|H1]; [by left|].
  destruct (decide (message = WM_TIMER)) as [->|H2]; [by right; left|].
  destruct (decide (message = WM_DESTROY)) as [->|H3]; [by right; right; left|].
  right; right; right. by rewrite WndProc_default.
Qed.

(** The window procedure does one of seven things, by the message and
    the report: ignore the input, accumulate a move, accumulate a move and
    (re)set the click timer, cancel the timer and reset on a button or wheel
    report, click on a timer message, post the quit message, or pass the
    message to [DefWindowProc]. *)
Theorem WndProc_outcome hWnd message wParam lParam os s :
  Outcome hWnd wParam lParam os s message (WndProc hWnd message wParam lParam os s).
Proof.
  destruct (WndProc_cases hWnd message wParam lParam os s)
    as [[-> _]|[[-> ->]|[[-> ->]|(? & ? & ? & ->)]]]; [|by constructor..].
  rewrite WndProc_WM_INPUT. destruct (raw_mouse_of os lParam) as [m|] eqn:Hm;
    [|by econstructor].
  rewrite on_relative_mouse_run.
  destruct (is_mouse_move (usButtonFlags m)) eqn:Hmove.
  - rewrite on_mouse_move_run. cbn [fst snd usMouseButtonsDown update_deltas].
    destruct ((usMouseButtonsDown s =? 0) && _) eqn:Harm.
    + apply andb_prop in Harm as [?%Z.eqb_eq ?]. by eapply out_arm.
    + by eapply out_move.
  - rewrite on_button_or_wheel_run. by eapply out_reset.
Qed.

(** The outcome is unique. *)
Lemma Outcome_functional hWnd message wParam lParam os s r1 r2 :
  Outcome hWnd wParam lParam os s message r1 ->
  Outcome hWnd wParam lParam os s message r2 -> r1 = r2.
Proof.
  intros H1 H2. destruct H1; inversion H2; simplify_eq; try done;
    repeat match goal with
      | H : usMouseButtonsDown _ = 0 |- _ => rewrite H in *
      | H : fOkToClick (update_deltas _ _) = true |- _ => rewrite H in *
      end; by try congruence.
Qed.

(** C20. The relation [Outcome] and the function [WndProc] are the same
    thing: a result, a state and a list of calls are an outcome of a message
    exactly when they are what the window procedure computes.  The seven
    rules are complete and do not overlap. *)
Theorem Outcome_iff_WndProc hWnd message wParam lParam os s r :
  Outcome hWnd wParam lParam os s message r <->
  WndProc hWnd message wParam lParam os s = r.
Proof.
  split.
  - intros Ho. eapply Outcome_functional; [apply WndProc_outcome | exact Ho].
  - intros <-. apply WndProc_outcome.
Qed.

(** ** The statics stay well formed *)

Lemma RI_ALL_MOUSE_BUTTONS_DOWN_UINT : in_UINT RI_ALL_MOUSE_BUTTONS_DOWN.
Proof. done. Qed.

Lemma WndStatics_init_wf : WndStatics_wf WndStatics_init.
Proof. done. Qed.

Lemma update_deltas_wf m s : WndStatics_wf s -> WndStatics_wf (update_deltas m s).
Proof. intros (_ & _ & ?). split_wf; auto with mbc. Qed.

Lemma update_buttons_wf flags s : WndStatics_wf s -> WndStatics_wf (update_buttons flags s).
Proof. intros (? & ? & ?). split_wf; auto with mbc. Qed.

Lemma reset_click_wf s : WndStatics_wf s -> WndStatics_wf (reset_click s).
Proof. intros (_ & _ & ?). by split_wf. Qed.

#[export] Hint Resolve WndStatics_init_wf update_deltas_wf update_buttons_wf
  reset_click_wf : mbc.

Lemma on_relative_mouse_wf hWnd m os s :
  WndStatics_wf s -> WndStatics_wf (on_relative_mouse hWnd m os s).1.2.
Proof.
  intros Hs. rewrite on_relative_mouse_run. case_test.
  - rewrite on_mouse_move_run. cbn. auto with mbc.
  - rewrite on_button_or_wheel_run. cbn. auto with mbc.
Qed.

(** ** Invariants of the statics *)

(** The window procedure changes its statics through [update_deltas],
    [update_buttons] and [reset_click] alone: what the three keep, it
    keeps. *)
Lemma WndProc_invariant (P : WndStatics -> Prop) :
  (forall m s, P s -> P (update_deltas m s)) ->
  (forall flags s, P s -> P (update_buttons flags s)) ->
  (forall s, P s -> P (reset_click s)) ->
  forall hWnd message wParam lParam os s,
    P s -> P (final (WndProc hWnd message wParam lParam) os s).
Proof.
  intros Hd Hb Hr hWnd message wParam lParam os s Hs. unfold final.
  destruct (WndProc_cases hWnd message wParam lParam os s)
    as [[_ ->]|[[_ ->]|[[_ ->]|(_ & _ & _ & ->)]]]; cbn [fst snd]; auto.
  rewrite WndProc_WM_INPUT. destruct (raw_mouse_of os lParam); [|done].
  rewrite on_relative_mouse_run. case_test.
  - rewrite on_mouse_move_run. cbn [fst snd]. auto.
  - rewrite on_button_or_wheel_run. cbn [fst snd]. auto.
Qed.

(** C25. Whatever the message and whatever the system answers, [WndProc]
    leaves its statics well formed: both deltas in the range of [LONG], and
    no bit set in [usMouseButtonsDown] that is not a button's down-flag. *)
Theorem WndProc_preserves_wf hWnd message wParam lParam os s :
  WndStatics_wf s -> WndStatics_wf (final (WndProc hWnd message wParam lParam) os s).
Proof. apply (WndProc_invariant WndStatics_wf); auto with mbc. Qed.

Lemma within_threshold_spec v :
  in_LONG v -> (MOUSE_MOVE_THRESHOLD <? ABS v) = false -> within_threshold v.
Proof.
  intros Hv. rewrite threshold_ABS by done. intros Hb%bool_decide_eq_false.
  unfold within_threshold, MOUSE_MOVE_THRESHOLD, in_LONG in *. lia.
Qed.

(** Whatever the deltas were, after a report the flag tells them. *)
Lemma update_deltas_tracks m s : flag_tracks_deltas (update_deltas m s).
Proof.
  unfold flag_tracks_deltas. cbn [update_deltas fOkToClick lLastClickDeltaX lLastClickDeltaY].
  intros [_ [Hx Hy]%orb_false_elim]%orb_false_elim.
  split; apply within_threshold_spec; auto with mbc.
Qed.

Lemma reset_click_tracks s : flag_tracks_deltas (reset_click s).
Proof. intros _. split; left; cbn; unfold MOUSE_MOVE_THRESHOLD; lia. Qed.

Lemma WndProc_tracks hWnd message wParam lParam os s :
  flag_tracks_deltas s ->
  flag_tracks_deltas (final (WndProc hWnd message wParam lParam) os s).
Proof.
  apply (WndProc_invariant flag_tracks_deltas);
    auto using update_deltas_tracks, reset_click_tracks.
Qed.

(** ** Buttons *)

Lemma update_buttons_ldiff flags s :
  WndStatics_wf s ->
  usMouseButtonsDown (update_buttons flags s) =
    Z.ldiff (usMouseButtonsDown s .| (flags .& RI_ALL_MOUSE_BUTTONS_DOWN))
      ((flags .& RI_ALL_MOUSE_BUTTONS_UP) .>> 1).
Proof.
  intros (_ & _ & Hb). cbn. apply land_UINT_not.
  apply (bits_within_UINT _ RI_ALL_MOUSE_BUTTONS_DOWN); auto with mbc. done.
Qed.

(** [update_buttons], button by button: after a report, a button is
    recorded as held exactly when its up-flag is absent from the report and
    it was held before or its down-flag is present.  (When a report carries
    both flags of a button, the button ends up released.) *)
Lemma update_buttons_held b flags s :
  WndStatics_wf s ->
  button_held b (update_buttons flags s) =
    (button_held b s || has_flag flags (RI_MOUSE_BUTTON_DOWN b))
    && negb (has_flag flags (RI_MOUSE_BUTTON_UP b)).
Proof.
  intros Hs. unfold button_held. rewrite update_buttons_ldiff by done.
  pose proof (button_bit_nonneg b).
  rewrite RI_MOUSE_BUTTON_DOWN_bit, RI_MOUSE_BUTTON_UP_bit, !has_flag_testbit by lia.
  rewrite Z.ldiff_spec, Z.lor_spec, Z.shiftr_spec, !Z.land_spec by lia.
  by rewrite button_bit_DOWN, button_bit_UP, !andb_true_r.
Qed.

Lemma button_held_reset b s : button_held b (reset_click s) = button_held b s.
Proof. reflexivity. Qed.

Lemma button_held_update_deltas b m s : button_held b (update_deltas m s) = button_held b s.
Proof. reflexivity. Qed.

(** Every bit of a mask of down-flags is the down-flag of a button. *)
Lemma mask_bit a i :
  bits_within a RI_ALL_MOUSE_BUTTONS_DOWN -> 0 <= i -> Z.testbit a i = true ->
  exists b, i = button_bit b /\ has_flag a (RI_MOUSE_BUTTON_DOWN b) = true.
Proof.
  intros Hb Hi E.
  pose proof (proj1 (bits_within_spec _ _) Hb i Hi E) as Hm.
  assert (exists b, i = button_bit b) as [b ->].
  { assert (i < 9 \/ 9 <= i) as [?|?] by lia.
    - assert (i = 0 \/ i = 1 \/ i = 2 \/ i = 3 \/ i = 4 \/ i = 5 \/ i = 6 \/
              i = 7 \/ i = 8) as Hcases by lia.
      destruct Hcases as [->|[->|[->|[->|[->|[->|[->|[->| ->]]]]]]]];
        first [ discriminate Hm
              | by exists Button1 | by exists Button2 | by exists Button3
              | by exists Button4 | by exists Button5 ].
    - rewrite (Z.bits_above_log2 RI_ALL_MOUSE_BUTTONS_DOWN i) in Hm; [done..|].
      change (Z.log2 RI_ALL_MOUSE_BUTTONS_DOWN) with 8. lia. }
  exists b. by rewrite RI_MOUSE_BUTTON_DOWN_bit, has_flag_testbit.
Qed.

(** A mask of down-flags is determined by the down-flags it holds. *)
Lemma mask_ext a a' :
  bits_within a RI_ALL_MOUSE_BUTTONS_DOWN -> bits_within a' RI_ALL_MOUSE_BUTTONS_DOWN ->
  (forall b, has_flag a (RI_MOUSE_BUTTON_DOWN b) = has_flag a' (RI_MOUSE_BUTTON_DOWN b)) ->
  a = a'.
Proof.
  intros Ha Ha' Hall. apply Z.bits_inj'. intros i Hi.
  destruct (Z.testbit a i) eqn:E, (Z.testbit a' i) eqn:E'; try done.
  - destruct (mask_bit a i) as (b & -> & Hb); [done..|].
    rewrite Hall, RI_MOUSE_BUTTON_DOWN_bit, has_flag_testbit in Hb by done. congruence.
  - destruct (mask_bit a' i) as (b & -> & Hb); [done..|].
    rewrite <- Hall, RI_MOUSE_BUTTON_DOWN_bit, has_flag_testbit in Hb by done. congruence.
Qed.

(** No button is held exactly when [usMouseButtonsDown] is zero. *)
Lemma no_button_held s :
  WndStatics_wf s ->
  usMouseButtonsDown s = 0 <-> forall b, button_held b s = false.
Proof.
  intros (_ & _ & Hb). unfold button_held. split.
  - intros -> b. by destruct b.
  - intros Hall. apply mask_ext; [done..|]. intros b. rewrite Hall. by destruct b.
Qed.

(** ** Deltas and the threshold *)

(** Without overflow, [update_deltas] adds exactly and arms exactly when a
    delta exceeds the threshold. *)
Lemma update_deltas_exact m s :
  let x := lLastClickDeltaX s + lLastX m in
  let y := lLastClickDeltaY s + lLastY m in
  LONG_MIN < x <= LONG_MAX -> LONG_MIN < y <= LONG_MAX ->
  update_deltas m s =
    {| lLastClickDeltaX := x; lLastClickDeltaY := y;
       fOkToClick := fOkToClick s || exceeds_threshold x y;
       usMouseButtonsDown := usMouseButtonsDown s |}.
Proof.
  intros x y Hx Hy. unfold update_deltas, exceeds_threshold. fold x y.
  rewrite !wrap_LONG_id by (unfold in_LONG; lia). by rewrite !ABS_abs.
Qed.

(** Once enabled, clicking stays enabled until a reset. *)
Lemma update_deltas_monotone m s :
  fOkToClick s = true -> fOkToClick (update_deltas m s) = true.
Proof. cbn. by intros ->. Qed.

(** C9. The threshold is strict: from reset deltas, a report enables clicking
    exactly when it moves by more than [MOUSE_MOVE_THRESHOLD] (two units) on
    an axis, for every displacement but [LONG_MIN]. *)
Theorem threshold_is_strict m s :
  LONG_MIN < lLastX m <= LONG_MAX -> LONG_MIN < lLastY m <= LONG_MAX ->
  fOkToClick (update_deltas m (reset_click s)) =
    bool_decide (2 < Z.abs (lLastX m) \/ 2 < Z.abs (lLastY m)).
Proof.
  intros Hx Hy. rewrite update_deltas_exact by (cbn; lia). cbn.
  unfold exceeds_threshold, MOUSE_MOVE_THRESHOLD.
  case_bool_decide as Hd; repeat case_test; reflect_Z; try done; lia.
Qed.

(** At [LONG_MIN] the macro [ABS] overflows: a displacement of
    [LONG_MIN] on an axis, the largest there is, does not enable clicking. *)
Theorem threshold_missed_at_LONG_MIN m s :
  lLastX m = LONG_MIN -> lLastY m = 0 ->
  fOkToClick (update_deltas m (reset_click s)) = false.
Proof. intros Hx Hy. cbn. by rewrite Hx, Hy. Qed.

(** C21. The threshold test on every 32-bit value.  The deltas are [LONG]s
    and never reset while the mouse moves with a button held, so the additions
    can wrap, and so can the negation in [ABS]: after a report the deltas are
    the sums wrapped to 32 bits, and clicking is enabled, if it was not,
    exactly when a wrapped delta is above 2, or below -2 and not
    [LONG_MIN]. *)
Theorem arming_on_wrapped_deltas m s :
  let x := wrap_LONG (lLastClickDeltaX s + lLastX m) in
  let y := wrap_LONG (lLastClickDeltaY s + lLastY m) in
  lLastClickDeltaX (update_deltas m s) = x /\ lLastClickDeltaY (update_deltas m s) = y /\
  in_LONG x /\ in_LONG y /\
  fOkToClick (update_deltas m s) =
    fOkToClick s ||
    bool_decide ((2 < x \/ LONG_MIN < x < -2) \/ (2 < y \/ LONG_MIN < y < -2)).
Proof.
  intros x y. split_and!; [done|done|apply wrap_LONG_range..|].
  cbn [update_deltas fOkToClick]. fold x y.
  rewrite !threshold_ABS by apply wrap_LONG_range. f_equal.
  by repeat case_bool_decide; naive_solver.
Qed.

(** The sum wraps: with a delta of 1, a report of [LONG_MAX] units gives
    [LONG_MIN], which does not enable clicking; with a delta of 2 it gives
    [LONG_MIN + 1], which does. *)
Example deltas_wrap :
  let from x := {| lLastClickDeltaX := x; lLastClickDeltaY := 0;
                 fOkToClick := false; usMouseButtonsDown := 0 |} in
  let s1 := update_deltas (mouse (sample_report 0 0 LONG_MAX 0)) (from 1) in
  let s2 := update_deltas (mouse (sample_report 0 0 LONG_MAX 0)) (from 2) in
  lLastClickDeltaX s1 = LONG_MIN /\ fOkToClick s1 = false /\
  lLastClickDeltaX s2 = LONG_MIN + 1 /\ fOkToClick s2 = true.
Proof. by vm_compute. Qed.

(** ** Classification of reports *)

Lemma has_flag_land flags m1 m2 :
  has_flag flags (m1 .| m2) = has_flag flags m1 || has_flag flags m2.
Proof.
  unfold has_flag. rewrite Z.land_lor_distr_r, <- negb_andb. f_equal.
  destruct (Z.eqb_spec (flags .& m1 .| flags .& m2) 0) as [H0|Hne].
  - apply Z.lor_eq_0_iff in H0 as [-> ->]. done.
  - symmetry. apply andb_false_iff.
    destruct (Z.eqb_spec (flags .& m1) 0) as [E1|]; [|by left].
    destruct (Z.eqb_spec (flags .& m2) 0) as [E2|]; [|by right].
    by rewrite E1, E2 in Hne.
Qed.

Lemma has_flag_ALL_DOWN flags :
  has_flag flags RI_ALL_MOUSE_BUTTONS_DOWN = true <->
  exists b, has_flag flags (RI_MOUSE_BUTTON_DOWN b) = true.
Proof.
  unfold RI_ALL_MOUSE_BUTTONS_DOWN. rewrite !has_flag_land, !orb_true_iff. split.
  - intros [[[[?|?]|?]|?]|?]; eauto.
  - intros [[] ?]; tauto.
Qed.

Lemma has_flag_ALL_UP flags :
  has_flag flags RI_ALL_MOUSE_BUTTONS_UP = true <->
  exists b, has_flag flags (RI_MOUSE_BUTTON_UP b) = true.
Proof.
  unfold RI_ALL_MOUSE_BUTTONS_UP. rewrite !has_flag_land, !orb_true_iff. split.
  - intros [[[[?|?]|?]|?]|?]; eauto.
  - intros [[] ?]; tauto.
Qed.

(** A report is a plain move exactly when it carries no down-flag and no
    up-flag of any of the five buttons and not the (vertical) wheel flag. *)
Theorem is_mouse_move_spec flags :
  is_mouse_move flags = true <->
  (forall b, has_flag flags (RI_MOUSE_BUTTON_DOWN b) = false) /\
  (forall b, has_flag flags (RI_MOUSE_BUTTON_UP b) = false) /\
  has_flag flags RI_MOUSE_WHEEL = false.
Proof.
  unfold is_mouse_move.
  rewrite <- (negb_involutive (_ =? 0)), negb_true_iff.
  change (negb (?f .& ?m =? 0)) with (has_flag f m).
  rewrite !has_flag_land, !orb_false_iff.
  rewrite <- !not_true_iff_false, has_flag_ALL_DOWN, has_flag_ALL_UP.
  setoid_rewrite <- not_true_iff_false. naive_solver.
Qed.

(** C36. The horizontal wheel is not in the mask of line 81: a report whose
    only flag is [RI_MOUSE_HWHEEL] is handled as a move, and (re)sets the
    click timer when clicking is enabled and no button is held. *)
Theorem horizontal_wheel_is_a_move hWnd m os s :
  usButtonFlags m = RI_MOUSE_HWHEEL ->
  fOkToClick s = true -> usMouseButtonsDown s = 0 ->
  on_relative_mouse hWnd m os s =
    (tt, update_deltas m s, [SetTimer hWnd TIMER_EVENT_ID (GetDoubleClickTime os)]).
Proof.
  intros Hf Hok Hb. rewrite on_relative_mouse_run, Hf. cbn [is_mouse_move].
  rewrite on_mouse_move_run. cbn. by rewrite Hb, Hok.
Qed.


(** ** Results and dropped reports *)

(** The result of the window procedure: 0 for the three messages it
    handles, whatever happens while it handles them, and the result of
    [DefWindowProc] for every other message. *)
Theorem WndProc_result hWnd message wParam lParam os s :
  result (WndProc hWnd message wParam lParam) os s =
    if (message =? WM_INPUT) || (message =? WM_TIMER) || (message =? WM_DESTROY)
    then 0 else DefWindowProc_result os hWnd message wParam lParam.
Proof.
  unfold result.
  destruct (WndProc_cases hWnd message wParam lParam os s)
    as [[-> _]|[[-> ->]|[[-> ->]|(H1 & H2 & H3 & ->)]]].
  - rewrite WndProc_WM_INPUT. by destruct (raw_mouse_of os lParam).
  - done.
  - done.
  - by rewrite !(proj2 (Z.eqb_neq _ _)) by done.
Qed.

(** C37. Reports the program cannot use are dropped: when the size query of
    [GetRawInputData] fails, [_malloca] returns no memory, the read returns
    another size, the input is not of a mouse, or the device reports absolute
    coordinates, the window procedure returns 0 with the statics untouched
    and no call made. *)
Theorem WM_INPUT_dropped hWnd wParam lParam os s :
  let query := GetRawInputData_size os lParam in
  let read := GetRawInputData_data os lParam query.2 in
  query.1 <> 0 \/ malloca os query.2 = false \/ query.2 <> read.1 \/
  dwType (header read.2) <> RIM_TYPEMOUSE \/
  usFlags (mouse read.2) .& MOUSE_MOVE_ABSOLUTE <> 0 ->
  WndProc hWnd WM_INPUT wParam lParam os s = (0, s, []).
Proof.
  intros query read Hf. rewrite WndProc_WM_INPUT. unfold raw_mouse_of.
  fold query read. rewrite bool_decide_eq_false_2; [done|].
  intros (? & ? & ? & ? & ?). destruct Hf as [?|[?|[?|[?|?]]]]; congruence.
Qed.

(** ** Witnesses *)

Lemma WndProc_preserves_wf_witness :
  WndStatics_wf
    (final (WndProc 1001 WM_INPUT 0 77) (sample_os (sample_report 0 RI_MOUSE_BUTTON_1_DOWN 3 0))
       sample_statics).
Proof. apply WndProc_preserves_wf. by vm_compute. Defined.

Lemma update_buttons_held_witness :
  button_held Button2 (update_buttons RI_MOUSE_BUTTON_2_UP sample_statics) =
    (button_held Button2 sample_statics || has_flag RI_MOUSE_BUTTON_2_UP RI_MOUSE_BUTTON_2_DOWN)
    && negb (has_flag RI_MOUSE_BUTTON_2_UP RI_MOUSE_BUTTON_2_UP).
Proof. apply update_buttons_held. by vm_compute. Defined.

Lemma threshold_is_strict_witness :
  fOkToClick (update_deltas (mouse (sample_report 0 0 2 (-2))) (reset_click sample_statics)) =
    bool_decide (2 < Z.abs 2 \/ 2 < Z.abs (-2)).
Proof. apply (threshold_is_strict (mouse (sample_report 0 0 2 (-2)))); by vm_compute. Defined.

Lemma threshold_missed_at_LONG_MIN_witness :
  fOkToClick
    (update_deltas (mouse (sample_report 0 0 LONG_MIN 0)) (reset_click sample_statics)) = false.
Proof. by apply threshold_missed_at_LONG_MIN. Defined.

Lemma horizontal_wheel_is_a_move_witness :
  on_relative_mouse 1001 (mouse (sample_report 0 RI_MOUSE_HWHEEL 0 0))
    (sample_os (sample_report 0 RI_MOUSE_HWHEEL 0 0)) (update_buttons RI_MOUSE_BUTTON_2_UP sample_statics) =
    (tt, update_deltas (mouse (sample_report 0 RI_MOUSE_HWHEEL 0 0))
           (update_buttons RI_MOUSE_BUTTON_2_UP sample_statics),
     [SetTimer 1001 TIMER_EVENT_ID 500]).
Proof. by apply horizontal_wheel_is_a_move. Defined.

Lemma WM_INPUT_dropped_witness :
  WndProc 1001 WM_INPUT 0 77
    (sample_os (sample_report MOUSE_MOVE_ABSOLUTE 0 640 480)) sample_statics =
  (0, sample_statics, []).
Proof. apply WM_INPUT_dropped. do 4 right. by vm_compute. Defined.
