(* ===== verification/Interp.v ===== *)
(** * Interp: notation and tactics for interaction trees

    Two files write a function of the program as an interaction tree over
    the calls it makes and interpret the calls in a state: [Buffer] the
    window procedure, [Tree] the entry point.  This file holds what they
    share: the notation of sequencing, that a tree that never returns is not
    changed by what follows it, and the step of the symbolic runs. *)

From ITree Require Import ITree ITreeFacts Events.State Events.StateFacts.
From Paco Require Import paco.
From S2P Require Import Prelude.

Declare Scope tree_scope.
Delimit Scope tree_scope with tree.
Notation "x <- m ;; k" := (ITree.bind m (fun x => k))
  (at level 100, m at next level, right associativity) : tree_scope.
Notation "m ;; k" := (ITree.bind m (fun _ => k))
  (at level 100, right associativity) : tree_scope.

(** What follows a call that does not return is never run. *)
Lemma bind_spin {E R S} (k : R -> itree E S) : ITree.bind ITree.spin k ≅ ITree.spin.
Proof. pcofix CIH. pstep. red. cbn. constructor. right. apply CIH. Qed.

(** Interprets the next event of a tree. *)
Ltac tree_step :=
  first [ rewrite interp_state_bind | rewrite interp_state_trigger
        | rewrite interp_state_ret | rewrite bind_ret_l | rewrite bind_bind
        | rewrite interp_state_tau, tau_eutt | rewrite bind_spin ].
