(* ===== verification/System.v ===== *)
(** * System: the window procedure in its host

    The program runs inside a host, Windows, which delivers messages to
    [WndProc] and executes the calls it makes.  This file states what the
    program needs of the host as an interface ([Host], [HostLaws]), composes
    [WndProc] with any host that satisfies it ([deliver], [reachable]) and
    proves the safety properties of the composition: the click timer is
    pending only while clicking is enabled and no button is held, it is the
    only timer of the window, input is injected in complete down/up pairs,
    and there is at most one click per arming of the timer.  [Windows.v]
    gives the model of the host that discharges the interface. *)

From stdpp Require Import base numbers list.
From S2P Require Import Prelude Win32 WndProc.

#[local] Open Scope Z_scope.

(** ** The host interface *)

(** The operations of a host: how a call of the window procedure changes it
    (the flag says whether a [SetTimer] succeeds: the program discards the
    result, and the host may refuse), and what can be observed of it: the
    pending timers, the input synthesized so far, the exit code posted. *)
Class Host (H : Type) : Type := {
  host_init : H;
  host_apply : bool -> OsCall -> H -> H;
  timer_pending : HWND -> Z -> H -> bool;
  sent_input : H -> list INPUT;
  quit_code : H -> option Z
}.

(** A call that leaves the timers alone. *)
Definition not_timer_call (c : OsCall) : Prop :=
  match c with SetTimer _ _ _ | KillTimer _ _ => False | _ => True end.

(** What the program relies on.  A successful [SetTimer] makes that timer
    pending, replacing an earlier request for it; a failed one changes
    nothing; [KillTimer] cancels that timer and no other, whether it was
    pending or not; [SendInput] appends to the synthesized input; nothing else
    touches timers or input. *)
Class HostLaws (H : Type) `{Host H} : Prop := {
  pending_init h id : timer_pending h id host_init = false;
  sent_init : sent_input host_init = [];
  quit_init : quit_code host_init = None;
  pending_SetTimer ok h id e h' id' x :
    timer_pending h' id' (host_apply ok (SetTimer h id e) x) =
      (ok && bool_decide (h = h' /\ id = id')) || timer_pending h' id' x;
  pending_KillTimer ok h id h' id' x :
    timer_pending h' id' (host_apply ok (KillTimer h id) x) =
      negb (bool_decide (h = h' /\ id = id')) && timer_pending h' id' x;
  pending_other ok c h id x :
    not_timer_call c -> timer_pending h id (host_apply ok c x) = timer_pending h id x;
  sent_SendInput ok inputs x :
    sent_input (host_apply ok (SendInput inputs) x) = sent_input x ++ inputs;
  sent_other ok c x :
    (forall inputs, c <> SendInput inputs) ->
    sent_input (host_apply ok c x) = sent_input x;
  quit_PostQuitMessage ok n x :
    quit_code (host_apply ok (PostQuitMessage n) x) = Some n;
  quit_other ok c x :
    (forall n, c <> PostQuitMessage n) -> quit_code (host_apply ok c x) = quit_code x
}.

(** Rewrites the observations of a host after a call by the laws. *)
Ltac host_obs :=
  repeat first
    [ rewrite pending_SetTimer | rewrite pending_KillTimer
    | rewrite pending_other by done
    | rewrite sent_SendInput | rewrite sent_other by done
    | rewrite quit_PostQuitMessage | rewrite quit_other by done ].

(** ** The composition *)

(** One message on its way to the window procedure: the message, what the
    system will answer to the calls made while it is handled, and whether a
    [SetTimer] will succeed. *)
Record Delivery : Type := {
  msg : MSG.t;
  answers : OsAnswers;
  SetTimer_ok : bool
}.

(** The system: the statics of the window procedure and the host. *)
Record Sys (H : Type) : Type := {
  statics : WndStatics;
  host : H
}.
Arguments statics {H} _.
Arguments host {H} _.

Section system.
Context {H : Type} `{HostLaws H}.
(** The one window of the program (line 163). *)
Context (hwnd : HWND).

Definition sys_init : Sys H := {| statics := WndStatics_init; host := host_init |}.

(** The host executes the calls of one message, in order. *)
Definition host_apply_all (ok : bool) (cs : list OsCall) (x : H) : H :=
  foldl (fun x c => host_apply ok c x) x cs.

(** [DispatchMessage]: the window procedure runs on the message, then the
    host has executed its calls. *)
Definition deliver (d : Delivery) (s : Sys H) : Sys H :=
  let m := msg d in
  let r := WndProc (MSG.hwnd m) (MSG.message m) (MSG.wParam m) (MSG.lParam m)
             (answers d) (statics s) in
  {| statics := r.1.2; host := host_apply_all (SetTimer_ok d) r.2 (host s) |}.

(** The calls of that message. *)
Definition calls_of (d : Delivery) (s : Sys H) : list OsCall :=
  let m := msg d in
  (WndProc (MSG.hwnd m) (MSG.message m) (MSG.wParam m) (MSG.lParam m)
     (answers d) (statics s)).2.

(** What the host delivers: messages of the program's window, and [WM_TIMER]
    only for a timer of that window that is pending, named by [wParam]. *)
Definition deliverable (s : Sys H) (d : Delivery) : Prop :=
  MSG.hwnd (msg d) = hwnd /\
  (MSG.message (msg d) = WM_TIMER ->
   timer_pending hwnd (MSG.wParam (msg d)) (host s) = true).

(** The states the system can be in. *)
Inductive reachable : Sys H -> Prop :=
| reach_init : reachable sys_init
| reach_step s d : reachable s -> deliverable s d -> reachable (deliver d s).

(** Running a sequence of deliveries, and whether the host could have made
    it. *)
Fixpoint run (ds : list Delivery) (s : Sys H) : Sys H :=
  match ds with
  | [] => s
  | d :: ds => run ds (deliver d s)
  end.

Fixpoint valid_run (ds : list Delivery) (s : Sys H) : Prop :=
  match ds with
  | [] => True
  | d :: ds => deliverable s d /\ valid_run ds (deliver d s)
  end.

(** The click timer is pending. *)
Definition click_timer_pending (s : Sys H) : bool :=
  timer_pending hwnd TIMER_EVENT_ID (host s).

(** The delivery arms the click timer: it was not pending and is afterwards. *)
Definition arms (d : Delivery) (s : Sys H) : bool :=
  negb (click_timer_pending s) && click_timer_pending (deliver d s).

(** The delivery clicks: it injects input. *)
Definition clicks (d : Delivery) (s : Sys H) : bool :=
  bool_decide (SendInput pInputs ∈ calls_of d s).

(** How often a run arms the timer and how often it clicks. *)
Fixpoint count_in_run (f : Delivery -> Sys H -> bool) (ds : list Delivery) (s : Sys H)
  : nat :=
  match ds with
  | [] => 0
  | d :: ds => (if f d s then 1 else 0) + count_in_run f ds (deliver d s)
  end.

(** The invariant of the composition. *)
Definition sys_inv (s : Sys H) : Prop :=
  WndStatics_wf (statics s) /\
  (forall h id, timer_pending h id (host s) = true -> h = hwnd /\ id = TIMER_EVENT_ID) /\
  (click_timer_pending s = true ->
   usMouseButtonsDown (statics s) = 0 /\ fOkToClick (statics s) = true).

(** No quit message has been posted, or one with exit code 0. *)
Definition quit_code_ok (s : Sys H) : Prop :=
  quit_code (host s) = None \/ quit_code (host s) = Some 0.

#[export] Instance deliverable_dec s d : Decision (deliverable s d).
Proof. unfold deliverable. apply _. Defined.

#[export] Instance valid_run_dec ds : forall s, Decision (valid_run ds s).
Proof. induction ds as [|d ds IH]; intros s; cbn; apply _. Defined.

(** [d] delivers the plain move [m] to the engine, and a [SetTimer] made
    while it is handled succeeds. *)
Definition delivers_move (d : Delivery) (m : RAWMOUSE) : Prop :=
  MSG.hwnd (msg d) = hwnd /\ MSG.message (msg d) = WM_INPUT /\
  raw_mouse_of (answers d) (MSG.lParam (msg d)) = Some m /\
  is_mouse_move (usButtonFlags m) = true /\ SetTimer_ok d = true.

(** [d] is a report of a relative mouse: an input message that the window
    procedure hands to the engine. *)
Definition is_report (d : Delivery) : bool :=
  (MSG.message (msg d) =? WM_INPUT) &&
  bool_decide (is_Some (raw_mouse_of (answers d) (MSG.lParam (msg d)))).

(** [d] delivers a button or wheel report [m] to the engine. *)
Definition delivers_button_or_wheel (d : Delivery) (m : RAWMOUSE) : Prop :=
  MSG.hwnd (msg d) = hwnd /\ MSG.message (msg d) = WM_INPUT /\
  raw_mouse_of (answers d) (MSG.lParam (msg d)) = Some m /\
  is_mouse_move (usButtonFlags m) = false.

(** Starting from deltas [(x, y)], some prefix of the moves [ms] brings a
    delta beyond the threshold. *)
Fixpoint armed_by (x y : Z) (ms : list RAWMOUSE) : bool :=
  match ms with
  | [] => false
  | m :: ms =>
      exceeds_threshold (x + lLastX m) (y + lLastY m)
      || armed_by (x + lLastX m) (y + lLastY m) ms
  end.

(** No prefix of the moves overflows a delta (or reaches [LONG_MIN]). *)
Fixpoint no_overflow (x y : Z) (ms : list RAWMOUSE) : Prop :=
  match ms with
  | [] => True
  | m :: ms =>
      LONG_MIN < x + lLastX m <= LONG_MAX /\ LONG_MIN < y + lLastY m <= LONG_MAX /\
      no_overflow (x + lLastX m) (y + lLastY m) ms
  end.

(** ** Automation *)

(** Rewrites the observations of a host through the calls applied to it. *)
Ltac host_rw := unfold host_apply_all; cbn [foldl]; host_obs.

(** ** One delivery *)

(** A delivery, unfolded: the outcome of the window procedure decides the
    statics and the calls, and the host executes the calls. *)
Lemma deliver_unfold d s :
  exists r,
    Outcome (MSG.hwnd (msg d)) (MSG.wParam (msg d)) (MSG.lParam (msg d)) (answers d)
      (statics s) (MSG.message (msg d)) r /\
    statics (deliver d s) = r.1.2 /\
    host (deliver d s) = host_apply_all (SetTimer_ok d) r.2 (host s) /\
    calls_of d s = r.2.
Proof. eexists. split; [apply WndProc_outcome | done]. Qed.

(** Case analysis on what a delivery does: one goal per constructor of
    [Outcome], with the statics, the host and the calls of the delivery
    rewritten. *)
Ltac deliver_cases d s :=
  let r := fresh "r" in
  let Ho := fresh "Ho" in
  let Hs := fresh "Hs" in
  let Hh := fresh "Hh" in
  let Hc := fresh "Hc" in
  destruct (deliver_unfold d s) as (r & Ho & Hs & Hh & Hc);
  unfold click_timer_pending, clicks in *;
  inversion Ho; subst r; clear Ho; cbn [fst snd] in Hs, Hh, Hc;
  rewrite ?Hs, ?Hh, ?Hc; clear Hs Hh Hc.

Lemma deliver_wf d s : WndStatics_wf (statics s) -> WndStatics_wf (statics (deliver d s)).
Proof. intros Hwf. deliver_cases d s; auto with mbc. Qed.

(** A delivery leaves every timer but the click timer of its window alone. *)
Lemma deliver_other_timers d s h id :
  (h, id) <> (MSG.hwnd (msg d), TIMER_EVENT_ID) ->
  timer_pending h id (host (deliver d s)) = timer_pending h id (host s).
Proof.
  intros Hne. deliver_cases d s; host_rw; try done;
    rewrite bool_decide_eq_false_2 by naive_solver; by rewrite ?andb_false_r.
Qed.

(** The click timer is pending after a delivery exactly when the delivery set
    it with success, or it was pending and the delivery made no call. *)
Lemma deliver_click_timer d s :
  MSG.hwnd (msg d) = hwnd ->
  click_timer_pending (deliver d s) =
    match calls_of d s with
    | [SetTimer _ _ _] => SetTimer_ok d || click_timer_pending s
    | KillTimer _ _ :: _ => false
    | _ => click_timer_pending s
    end.
Proof.
  intros Hw. deliver_cases d s; host_rw; try done;
    rewrite Hw, bool_decide_eq_true_2 by done; by rewrite ?andb_true_r.
Qed.

(** ** The invariant *)

Lemma sys_init_inv : sys_inv sys_init.
Proof.
  split; [apply WndStatics_init_wf|]. unfold click_timer_pending. cbn.
  split; intros *; by rewrite pending_init.
Qed.

Lemma deliver_only_click_timer d s :
  deliverable s d ->
  (forall h id, timer_pending h id (host s) = true -> h = hwnd /\ id = TIMER_EVENT_ID) ->
  forall h id,
    timer_pending h id (host (deliver d s)) = true -> h = hwnd /\ id = TIMER_EVENT_ID.
Proof.
  intros [Hw _] Honly h id Hp.
  destruct (decide ((h, id) = (hwnd, TIMER_EVENT_ID))) as [[= -> ->]|Hne]; [done|].
  apply Honly. by rewrite deliver_other_timers in Hp by by rewrite Hw.
Qed.

Lemma deliver_idle d s :
  deliverable s d ->
  (click_timer_pending s = true ->
   usMouseButtonsDown (statics s) = 0 /\ fOkToClick (statics s) = true) ->
  click_timer_pending (deliver d s) = true ->
  usMouseButtonsDown (statics (deliver d s)) = 0 /\
  fOkToClick (statics (deliver d s)) = true.
Proof.
  intros [Hw _] Hidle. rewrite deliver_click_timer by done.
  deliver_cases d s; try done.
  intros [? ?]%Hidle. split; [done|]. by apply update_deltas_monotone.
Qed.

Lemma deliver_inv d s : sys_inv s -> deliverable s d -> sys_inv (deliver d s).
Proof.
  intros (Hwf & Honly & Hidle) Hd. split; [by apply deliver_wf|].
  split; [by apply deliver_only_click_timer | by apply deliver_idle].
Qed.

Lemma reachable_inv s : reachable s -> sys_inv s.
Proof. induction 1; [apply sys_init_inv | by apply deliver_inv]. Qed.

Lemma run_inv ds : forall s, sys_inv s -> valid_run ds s -> sys_inv (run ds s).
Proof.
  induction ds as [|d ds IH]; intros s Hs Hv; [done|].
  destruct Hv as [Hd Hv]. apply IH; [by apply deliver_inv | done].
Qed.

(** A state is reachable exactly when a valid run leads to it. *)
Lemma run_reachable ds : forall s, reachable s -> valid_run ds s -> reachable (run ds s).
Proof.
  induction ds as [|d ds IH]; intros s Hs Hv; [done|].
  destruct Hv as [Hd Hv]. apply IH; [by constructor | done].
Qed.

Lemma run_app ds1 ds2 s : run (ds1 ++ ds2) s = run ds2 (run ds1 s).
Proof. revert s. induction ds1 as [|d ds1 IH]; intros s; [done|]. apply IH. Qed.

Lemma valid_run_app ds1 ds2 s :
  valid_run (ds1 ++ ds2) s <-> valid_run ds1 s /\ valid_run ds2 (run ds1 s).
Proof.
  revert s. induction ds1 as [|d ds1 IH]; intros s; cbn; [tauto|].
  rewrite IH. tauto.
Qed.

Lemma reachable_run s :
  reachable s <-> exists ds, valid_run ds sys_init /\ s = run ds sys_init.
Proof.
  split.
  - induction 1 as [|s d _ (ds & Hv & ->) Hd]; [by exists []|].
    exists (ds ++ [d]). rewrite valid_run_app, run_app. by cbn.
  - intros (ds & Hv & ->). apply run_reachable; [constructor | done].
Qed.

(** C7. The click timer is pending only while clicking is enabled and no
    button is recorded as held: in no reachable state is a click scheduled
    while a button is down or before the mouse has moved beyond the
    threshold. *)
Theorem timer_implies_idle s :
  reachable s -> click_timer_pending s = true ->
  usMouseButtonsDown (statics s) = 0 /\ fOkToClick (statics s) = true.
Proof. intros (_ & _ & Hidle)%reachable_inv. exact Hidle. Qed.

(** The program never has more than one timer: whatever timer is pending
    in a reachable state is the click timer [TIMER_EVENT_ID] of the program's
    window.  Re-arming replaces the request, it does not add one. *)
Theorem only_click_timer s h id :
  reachable s -> timer_pending h id (host s) = true -> h = hwnd /\ id = TIMER_EVENT_ID.
Proof. intros (_ & Honly & _)%reachable_inv. apply Honly. Qed.

(** In every reachable state the statics are well formed. *)
Lemma reachable_wf s : reachable s -> WndStatics_wf (statics s).
Proof. by intros (? & _)%reachable_inv. Qed.

(** The flag tells the deltas after a delivery if it did before. *)
Lemma deliver_tracks d s :
  flag_tracks_deltas (statics s) -> flag_tracks_deltas (statics (deliver d s)).
Proof. apply WndProc_tracks. Qed.

(** C19. No excess is missed: after any sequence of messages whatsoever,
    delivered to the program from its start, while clicking is disabled both
    accumulated deltas are within the threshold of two units, or are
    [LONG_MIN], the one value whose excess [ABS] does not see. *)
Theorem unarmed_within_threshold ds :
  fOkToClick (statics (run ds sys_init)) = false ->
  within_threshold (lLastClickDeltaX (statics (run ds sys_init))) /\
  within_threshold (lLastClickDeltaY (statics (run ds sys_init))).
Proof.
  assert (forall s, flag_tracks_deltas (statics s) ->
                    flag_tracks_deltas (statics (run ds s))) as Hrun.
  { induction ds as [|d ds IH]; intros s Hs; [done|]. by apply IH, deliver_tracks. }
  apply Hrun, (reset_click_tracks WndStatics_init).
Qed.

(** ** Clicks *)

(** A delivery clicks exactly when its message is [WM_TIMER]. *)
Lemma clicks_WM_TIMER d s : clicks d s = bool_decide (MSG.message (msg d) = WM_TIMER).
Proof.
  pose proof WM_distinct as (? & ? & ?).
  deliver_cases d s;
    repeat (case_bool_decide; try done);
    repeat match goal with H : _ ∈ _ |- _ => inversion H; clear H; subst end;
    try congruence.
  exfalso. auto using list_elem_of_here, list_elem_of_further.
Qed.

(** What a click does to the system. *)
Lemma deliver_click d s :
  MSG.hwnd (msg d) = hwnd -> MSG.message (msg d) = WM_TIMER ->
  statics (deliver d s) = reset_click (statics s) /\
  click_timer_pending (deliver d s) = false /\
  sent_input (host (deliver d s)) = sent_input (host s) ++ pInputs.
Proof.
  intros Hw Hm. pose proof WM_distinct as (? & ? & ?).
  deliver_cases d s; try congruence. split; [done|].
  host_rw. by rewrite bool_decide_eq_true_2.
Qed.

(** C38. The window procedure trusts the host: a [WM_TIMER] handed to the
    window injects a click whatever the state is and whatever timer the
    message names: with a button held, with clicking disabled, with no timer
    pending.  The case of line 114 looks neither at [wParam] nor at the
    statics; the buttons recorded as held stay as they are. *)
Theorem WM_TIMER_always_clicks d s :
  MSG.hwnd (msg d) = hwnd -> MSG.message (msg d) = WM_TIMER ->
  clicks d s = true /\
  sent_input (host (deliver d s)) = sent_input (host s) ++ pInputs /\
  usMouseButtonsDown (statics (deliver d s)) = usMouseButtonsDown (statics s).
Proof.
  intros Hw Hm. rewrite clicks_WM_TIMER, bool_decide_eq_true_2 by done.
  destruct (deliver_click d s Hw Hm) as (-> & _ & ->). done.
Qed.

(** A delivery that does not click injects nothing. *)
Lemma deliver_no_click d s :
  MSG.message (msg d) <> WM_TIMER ->
  sent_input (host (deliver d s)) = sent_input (host s).
Proof. intros Hm. deliver_cases d s; by host_rw. Qed.

(** C24. Input is injected in complete clicks only: at every moment the
    synthesized input is a sequence of button-down/button-up pairs of the
    primary button, each pair handed to the system in one [SendInput]. *)
Theorem clicks_are_pairs s :
  reachable s -> exists n, sent_input (host s) = mjoin (replicate n pInputs).
Proof.
  induction 1 as [|s d _ [n IH] [Hw _]]; [exists 0%nat; apply sent_init|].
  destruct (decide (MSG.message (msg d) = WM_TIMER)) as [Hm|Hm].
  - exists (S n). destruct (deliver_click d s Hw Hm) as (_ & _ & ->).
    by rewrite IH, mjoin_replicate_snoc.
  - exists n. by rewrite deliver_no_click.
Qed.

(** C23. A click is injected only when clicking is enabled and no button is
    recorded as held. *)
Theorem click_only_when_idle s d :
  reachable s -> deliverable s d -> clicks d s = true ->
  usMouseButtonsDown (statics s) = 0 /\ fOkToClick (statics s) = true.
Proof.
  intros Hr [_ Ht]. rewrite clicks_WM_TIMER. intros Hm%bool_decide_eq_true.
  specialize (Ht Hm). destruct (reachable_inv s Hr) as (_ & Honly & Hidle).
  destruct (Honly _ _ Ht) as [_ Hid]. apply Hidle.
  unfold click_timer_pending. by rewrite <- Hid.
Qed.

(** One delivery clicks at most as often as the timer's state allows. *)
Lemma deliver_click_budget d s :
  sys_inv s -> deliverable s d ->
  ((if clicks d s then 1 else 0) + (if click_timer_pending (deliver d s) then 1 else 0)
   <= (if arms d s then 1 else 0) + (if click_timer_pending s then 1 else 0))%nat.
Proof.
  intros (_ & Honly & _) [Hw Ht]. rewrite clicks_WM_TIMER. unfold arms.
  case_bool_decide as Hm.
  - destruct (deliver_click d s Hw Hm) as (_ & -> & _).
    destruct (Honly _ _ (Ht Hm)) as [_ Hid]. specialize (Ht Hm). rewrite Hid in Ht.
    unfold click_timer_pending. rewrite Ht. cbn. lia.
  - destruct (click_timer_pending s), (click_timer_pending (deliver d s)); cbn; lia.
Qed.

(** C6. At most one click per arming of the timer: along any run of the
    system, the number of clicks plus a click still scheduled at the end is at
    most the number of times the timer went from idle to pending, plus a click
    scheduled at the start. *)
Theorem one_click_per_arm ds : forall s,
  sys_inv s -> valid_run ds s ->
  (count_in_run clicks ds s + (if click_timer_pending (run ds s) then 1 else 0)
   <= count_in_run arms ds s + (if click_timer_pending s then 1 else 0))%nat.
Proof.
  induction ds as [|d ds IH]; intros s Hs Hv; [cbn; lia|].
  destruct Hv as [Hd Hv]. cbn [count_in_run run].
  specialize (IH _ (deliver_inv _ _ Hs Hd) Hv).
  pose proof (deliver_click_budget d s Hs Hd). lia.
Qed.

(** C8. A button or wheel report resets the engine whatever its state: the
    click timer is cancelled, both deltas are zero and clicking is disabled.
    The report's own motion is discarded with the rest. *)
Theorem button_or_wheel_resets d m s :
  delivers_button_or_wheel d m ->
  click_timer_pending (deliver d s) = false /\
  lLastClickDeltaX (statics (deliver d s)) = 0 /\
  lLastClickDeltaY (statics (deliver d s)) = 0 /\
  fOkToClick (statics (deliver d s)) = false /\
  sent_input (host (deliver d s)) = sent_input (host s).
Proof.
  intros (Hw & Hm & Hraw & Hmove). pose proof WM_distinct as (? & ? & ?).
  deliver_cases d s; try congruence.
  host_rw. by rewrite bool_decide_eq_true_2.
Qed.

(** A button or wheel report, as a state update. *)
Lemma deliver_button_or_wheel d m s :
  delivers_button_or_wheel d m ->
  statics (deliver d s) =
    reset_click (update_buttons (usButtonFlags m) (update_deltas m (statics s))) /\
  click_timer_pending (deliver d s) = false.
Proof.
  intros (Hw & Hm & Hraw & Hmove). pose proof WM_distinct as (? & ? & ?).
  deliver_cases d s; try congruence.
  split; [congruence|]. host_rw. by rewrite bool_decide_eq_true_2.
Qed.

(** A message that is neither a report of a relative mouse nor a timer
    message changes nothing the engine observes. *)
Lemma deliver_other d s :
  MSG.message (msg d) <> WM_TIMER ->
  (MSG.message (msg d) = WM_INPUT ->
   raw_mouse_of (answers d) (MSG.lParam (msg d)) = None) ->
  statics (deliver d s) = statics s /\
  forall h id, timer_pending h id (host (deliver d s)) = timer_pending h id (host s).
Proof.
  intros Hm Hraw. deliver_cases d s; try done; try (split; [done|intros; by host_rw]);
    specialize (Hraw ltac:(done)); congruence.
Qed.

(** ** Moves *)

Lemma deliver_move d m s :
  delivers_move d m ->
  statics (deliver d s) = update_deltas m (statics s) /\
  click_timer_pending (deliver d s) =
    (usMouseButtonsDown (statics s) =? 0) && fOkToClick (update_deltas m (statics s))
    || click_timer_pending s.
Proof.
  intros (Hw & Hm & Hraw & Hmove & Hok). pose proof WM_distinct as (? & ? & ?).
  deliver_cases d s; try congruence;
    repeat match goal with
      | H1 : raw_mouse_of ?o ?l = Some _, H2 : raw_mouse_of ?o ?l = Some _ |- _ =>
          rewrite H1 in H2; injection H2 as <-
      end; host_rw; (split; [done|]).
  - by match goal with E : _ && _ = false |- _ => rewrite E end.
  - match goal with E : usMouseButtonsDown _ = 0 |- _ => rewrite E end.
    match goal with E : fOkToClick _ = true |- _ => rewrite E end.
    by rewrite Hok, bool_decide_eq_true_2.
Qed.

(** A run of moves while no button is held: clicking is enabled, and the
    timer pending, as soon as a prefix of the moves has exceeded the
    threshold. *)
Lemma run_moves ds ms : forall s,
  Forall2 delivers_move ds ms ->
  usMouseButtonsDown (statics s) = 0 ->
  (click_timer_pending s = true -> fOkToClick (statics s) = true) ->
  no_overflow (lLastClickDeltaX (statics s)) (lLastClickDeltaY (statics s)) ms ->
  let armed :=
    fOkToClick (statics s)
    || armed_by (lLastClickDeltaX (statics s)) (lLastClickDeltaY (statics s)) ms in
  fOkToClick (statics (run ds s)) = armed /\
  click_timer_pending (run ds s) =
    match ds with [] => click_timer_pending s | _ => armed end.
Proof.
  intros s Hall. revert s.
  induction Hall as [|d m ds ms Hd Hall IH]; intros s Hb Hp Hno; cbn zeta.
  { cbn. by rewrite orb_false_r. }
  destruct Hno as (Hx & Hy & Hno).
  destruct (deliver_move d m s Hd) as [Hs Ht].
  rewrite update_deltas_exact in Hs, Ht by done.
  rewrite Hb in Ht. cbn [fOkToClick andb] in Ht. change (0 =? 0) with true in Ht.
  cbn [andb] in Ht.
  assert (click_timer_pending (deliver d s) =
            fOkToClick (statics s)
            || exceeds_threshold (lLastClickDeltaX (statics s) + lLastX m)
                 (lLastClickDeltaY (statics s) + lLastY m)) as Ht'.
  { rewrite Ht. destruct (click_timer_pending s); [by rewrite Hp|]. by rewrite orb_false_r. }
  specialize (IH (deliver d s)). cbn zeta in IH. rewrite Hs in IH.
  cbn [lLastClickDeltaX lLastClickDeltaY fOkToClick usMouseButtonsDown] in IH.
  destruct IH as [IHs IHt]; [done | by rewrite Ht' | done |].
  cbn [run armed_by]. rewrite IHs, IHt, !orb_assoc. split; [done|].
  destruct ds; [|done]. inversion Hall; subst. cbn. by rewrite Ht', orb_false_r.
Qed.

(** C15. Monotonic arming: after a reset, with no button held, a sequence of
    plain moves leaves the click timer pending exactly when the accumulated
    motion has exceeded the threshold on an axis at some point of the
    sequence (while no delta overflows). *)
Theorem monotonic_arming ds ms s :
  Forall2 delivers_move ds ms ->
  lLastClickDeltaX (statics s) = 0 -> lLastClickDeltaY (statics s) = 0 ->
  fOkToClick (statics s) = false -> usMouseButtonsDown (statics s) = 0 ->
  click_timer_pending s = false ->
  no_overflow 0 0 ms ->
  click_timer_pending (run ds s) = armed_by 0 0 ms /\
  fOkToClick (statics (run ds s)) = armed_by 0 0 ms.
Proof.
  intros Hall Hx Hy Hok Hb Hp Hno.
  destruct (run_moves ds ms s Hall Hb) as [Hs Ht]; [congruence | by rewrite Hx, Hy |].
  rewrite Hx, Hy, Hok in Hs, Ht. cbn [orb] in Hs, Ht. split; [|done].
  rewrite Ht. destruct ds; [|done]. inversion Hall. by subst.
Qed.

(** ** The calls a host sees *)

(** A move that sets the timer hands the host one [SetTimer], with the
    double-click time. *)
Lemma deliver_arm_host d m s :
  delivers_move d m -> usMouseButtonsDown (statics s) = 0 ->
  fOkToClick (update_deltas m (statics s)) = true ->
  host (deliver d s) =
    host_apply true (SetTimer hwnd TIMER_EVENT_ID (GetDoubleClickTime (answers d)))
      (host s).
Proof.
  intros (Hw & Hm & Hraw & Hmove & Hok) Hb Harm. pose proof WM_distinct as (? & ? & ?).
  deliver_cases d s; try congruence;
    match goal with
    | Hr : raw_mouse_of _ _ = Some ?m' |- _ => assert (m' = m) as -> by congruence
    end.
  - by rewrite Hb, Harm in *.
  - by rewrite Hok, Hw.
Qed.

(** A timer message hands the host [KillTimer], then [SendInput]. *)
Lemma deliver_click_host d s :
  MSG.message (msg d) = WM_TIMER ->
  host (deliver d s) =
    host_apply (SetTimer_ok d) (SendInput pInputs)
      (host_apply (SetTimer_ok d) (KillTimer (MSG.hwnd (msg d)) TIMER_EVENT_ID) (host s)).
Proof.
  intros Hm. pose proof WM_distinct as (? & ? & ?).
  deliver_cases d s; try congruence. done.
Qed.

(** ** Input messages and the host *)

Lemma deliver_host d s :
  host (deliver d s) = host_apply_all (SetTimer_ok d) (calls_of d s) (host s).
Proof. reflexivity. Qed.

(** The calls of a message of the window that is not a timer message: none
    (and then, if the message is a report, no click timer is pending: a
    report that finds the timer pending sets it again or destroys it); the
    click timer set, by a report; the click timer destroyed; or one call that
    concerns neither timers nor input, by a message that is no report. *)
Lemma deliver_input_calls d s :
  sys_inv s -> MSG.hwnd (msg d) = hwnd -> MSG.message (msg d) <> WM_TIMER ->
  (calls_of d s = [] /\ (is_report d = true -> click_timer_pending s = false)) \/
  (calls_of d s = [SetTimer hwnd TIMER_EVENT_ID (GetDoubleClickTime (answers d))] /\
   is_report d = true) \/
  calls_of d s = [KillTimer hwnd TIMER_EVENT_ID] \/
  (exists c, calls_of d s = [c] /\ not_timer_call c /\ (forall i, c <> SendInput i) /\
             is_report d = false).
Proof.
  intros (_ & _ & Hidle) Hw Hm. pose proof WM_distinct as (? & ? & ?).
  unfold is_report. deliver_cases d s; rewrite ?Hw; try done.
  - left. split; [done|]. rewrite Z.eqb_refl. cbn [andb].
    intros [m Hs]%bool_decide_eq_true; congruence.
  - left. split; [done|]. intros _. apply not_true_is_false. intros [Hb Hok]%Hidle.
    by rewrite Hb, update_deltas_monotone in *.
  - right; left. split; [done|]. rewrite Z.eqb_refl. by apply bool_decide_eq_true_2.
  - by right; right; left.
  - right; right; right. by exists (PostQuitMessage 0).
  - right; right; right. eexists. split_and!; try done.
    by rewrite (proj2 (Z.eqb_neq _ _)).
Qed.

(** ** The exit code *)

(** Only [WM_DESTROY] posts a quit message, and its exit code is 0. *)
Lemma deliver_quit_code d s :
  quit_code (host (deliver d s)) =
    if MSG.message (msg d) =? WM_DESTROY then Some 0 else quit_code (host s).
Proof.
  deliver_cases d s; host_rw; try done.
  by rewrite (proj2 (Z.eqb_neq _ _)) by done.
Qed.

Lemma deliver_quit_code_ok d s : quit_code_ok s -> quit_code_ok (deliver d s).
Proof.
  unfold quit_code_ok. rewrite deliver_quit_code. case_test; [by right | done].
Qed.

Lemma run_quit_code_ok ds : forall s, quit_code_ok s -> quit_code_ok (run ds s).
Proof.
  induction ds as [|d ds IH]; intros s Hs; [done|].
  by apply IH, deliver_quit_code_ok.
Qed.

Lemma sys_init_quit_code_ok : quit_code_ok sys_init.
Proof. left. apply quit_init. Qed.

End system.
