(* ===== verification/Hosts.v ===== *)
(** * Hosts: the program behaves the same in every host

    The interface of [System.v] says what can be observed of a host (the
    pending timers, the input synthesized, the exit code posted) and how
    each call changes what is observed.  The laws determine the observations
    after a call from the observations before it, so two hosts that satisfy
    them cannot be told apart by the program: two states equal in all that
    is observed stay so along every run ([run_sys_eq]), and allow the same
    runs ([valid_run_sys_eq]).  [Timed.v] uses this to carry the theorems of
    the untimed system over to the timed host.

    On one host the relation is an equivalence that [deliver] and [run]
    respect; the instances below let a state be replaced by an equivalent
    one under them by rewriting. *)

From stdpp Require Import base numbers list.
From S2P Require Import Prelude Win32 WndProc System.

#[local] Open Scope Z_scope.

Section hosts.
Context {H1 H2 : Type} `{HostLaws H1} `{HostLaws H2}.

(** Two hosts are equal in what is observed of them. *)
Definition obs_eq (x1 : H1) (x2 : H2) : Prop :=
  (forall h id, timer_pending h id x1 = timer_pending h id x2) /\
  sent_input x1 = sent_input x2 /\
  quit_code x1 = quit_code x2.

(** Two systems are: the same statics, in hosts that are. *)
Definition sys_eq (s1 : Sys H1) (s2 : Sys H2) : Prop :=
  statics s1 = statics s2 /\ obs_eq (host s1) (host s2).

Lemma host_init_obs_eq : obs_eq host_init host_init.
Proof. split_and!; [intros h id|..]; by rewrite ?pending_init, ?sent_init, ?quit_init. Qed.

(** A call keeps two hosts equal. *)
Lemma host_apply_obs_eq ok c x1 x2 :
  obs_eq x1 x2 -> obs_eq (host_apply ok c x1) (host_apply ok c x2).
Proof.
  intros (Hp & Hs & Hq).
  destruct c; (split_and!; [intros h' id'|..]); host_obs; by rewrite ?Hp, ?Hs, ?Hq.
Qed.

Lemma host_apply_all_obs_eq ok cs : forall x1 x2,
  obs_eq x1 x2 -> obs_eq (host_apply_all ok cs x1) (host_apply_all ok cs x2).
Proof.
  induction cs as [|c cs IH]; intros x1 x2 Hx; [done|].
  by apply IH, host_apply_obs_eq.
Qed.

(** So does a delivery, and a run. *)
Lemma deliver_sys_eq d s1 s2 : sys_eq s1 s2 -> sys_eq (deliver d s1) (deliver d s2).
Proof.
  intros [Hs Hh]. unfold deliver. rewrite Hs. split; [done|].
  by apply host_apply_all_obs_eq.
Qed.

Lemma run_sys_eq ds : forall s1 s2, sys_eq s1 s2 -> sys_eq (run ds s1) (run ds s2).
Proof.
  induction ds as [|d ds IH]; intros s1 s2 Hs; [done|]. by apply IH, deliver_sys_eq.
Qed.

(** The deliveries one host may make, the other may make. *)
Lemma deliverable_sys_eq hwnd d s1 s2 :
  sys_eq s1 s2 -> deliverable hwnd s1 d <-> deliverable hwnd s2 d.
Proof. intros [_ (Hp & _)]. unfold deliverable. by rewrite Hp. Qed.

Lemma valid_run_sys_eq hwnd ds : forall s1 s2,
  sys_eq s1 s2 -> valid_run hwnd ds s1 <-> valid_run hwnd ds s2.
Proof.
  induction ds as [|d ds IH]; intros s1 s2 Hs; [done|]. cbn.
  by rewrite (deliverable_sys_eq hwnd d s1 s2), (IH _ _ (deliver_sys_eq d s1 s2 Hs)).
Qed.

End hosts.

(** The relation composes across hosts. *)
Lemma sys_eq_trans {H1 H2 H3 : Type} `{HostLaws H1} `{HostLaws H2} `{HostLaws H3}
    (s1 : Sys H1) (s2 : Sys H2) (s3 : Sys H3) :
  sys_eq s1 s2 -> sys_eq s2 s3 -> sys_eq s1 s3.
Proof.
  unfold sys_eq, obs_eq. intros (Hs & Hp & Hi & Hq) (Hs' & Hp' & Hi' & Hq').
  split_and!; [congruence|intros h id; by rewrite Hp|congruence..].
Qed.

Lemma sys_eq_sym {H1 H2 : Type} `{HostLaws H1} `{HostLaws H2} (s1 : Sys H1) (s2 : Sys H2) :
  sys_eq s1 s2 -> sys_eq s2 s1.
Proof.
  unfold sys_eq, obs_eq. intros (Hs & Hp & Hi & Hq).
  split_and!; [done|intros h id; by rewrite Hp|done..].
Qed.

(** ** On one host *)

Section one_host.
Context {H : Type} `{HostLaws H}.

#[export] Instance sys_eq_equivalence : Equivalence (sys_eq (H1:=H) (H2:=H)).
Proof.
  split.
  - by intros s.
  - intros s1 s2. apply sys_eq_sym.
  - intros s1 s2 s3. apply sys_eq_trans.
Qed.

#[export] Instance deliver_proper d : Proper (sys_eq ==> sys_eq) (deliver (H:=H) d).
Proof. intros s1 s2. apply deliver_sys_eq. Qed.

#[export] Instance run_proper ds : Proper (sys_eq ==> sys_eq) (run (H:=H) ds).
Proof. intros s1 s2. apply run_sys_eq. Qed.

#[export] Instance valid_run_proper hwnd ds :
  Proper (sys_eq ==> iff) (valid_run (H:=H) hwnd ds).
Proof. intros s1 s2. apply valid_run_sys_eq. Qed.

End one_host.
