(* ===== verification/Refinement.v ===== *)
(** * Refinement: the window procedure implements the abstract engine

    [Debounce.v] is the engine of the specification; [WndProc.v] is the code.
    This file relates them.  The abstraction [abs] reads a debounce state off
    the statics and the host: the deltas, the threshold flag, the set of
    buttons whose down-flag is set in [usMouseButtonsDown], and whether the
    click timer is pending.  [event_of] reads the event off a message the way
    the code classifies it.  [deliver_refines] is the simulation: one
    delivery is one step of the abstract machine, clicks included, as long as
    the deltas do not overflow and [SetTimer] succeeds; [deliver_stutters]
    covers the messages that are no event; [run_refines] extends both to
    runs.  The abstraction loses nothing of the statics: [statics_of] reads
    them back off the abstract state, with [mask_of] as the inverse of the
    passage from bit masks to sets of buttons; [press_release_roundtrip]
    is what this means for the code: a release undoes a press, bit for
    bit. *)

From stdpp Require Import base numbers list finite gmap.
From S2P Require Import Prelude Win32 Debounce WndProc System.

#[local] Open Scope Z_scope.
#[local] Open Scope mbc_scope.

(** ** Bit masks as sets of buttons *)

(** The buttons that satisfy [p]. *)
Definition button_set (p : MouseButton -> bool) : gset MouseButton :=
  list_to_set (filter (fun b => p b = true) (enum MouseButton)).

(** The buttons recorded as held. *)
Definition held_buttons (s : WndStatics) : gset MouseButton :=
  button_set (fun b => button_held b s).

(** The buttons a report says went down, and up. *)
Definition down_mask (flags : Z) : gset MouseButton :=
  button_set (fun b => has_flag flags (RI_MOUSE_BUTTON_DOWN b)).

Definition up_mask (flags : Z) : gset MouseButton :=
  button_set (fun b => has_flag flags (RI_MOUSE_BUTTON_UP b)).

(** The bit mask of a set of buttons: the down-flags of its members. *)
Definition mask_of (bs : gset MouseButton) : Z :=
  foldr (fun b m => if bool_decide (b ∈ bs) then RI_MOUSE_BUTTON_DOWN b .| m else m) 0
    (enum MouseButton).

(** The up-flags of a set of buttons: a report that releases them. *)
Definition up_flags_of (bs : gset MouseButton) : Z := Z.shiftl (mask_of bs) 1.

(** The statics an abstract state stands for. *)
Definition statics_of (a : Debounce.State) : WndStatics :=
  {| lLastClickDeltaX := Debounce.accumDeltaX a;
     lLastClickDeltaY := Debounce.accumDeltaY a;
     fOkToClick := Debounce.motionArmed a;
     usMouseButtonsDown := mask_of (Debounce.buttonsDown a) |}.

(** ** Sets of buttons *)

Lemma elem_of_button_set p b : b ∈ button_set p <-> p b = true.
Proof.
  unfold button_set. rewrite elem_of_list_to_set, list_elem_of_filter.
  pose proof (elem_of_enum b). naive_solver.
Qed.

(** The held buttons depend on [usMouseButtonsDown] alone. *)
Lemma held_buttons_ext s s' :
  usMouseButtonsDown s = usMouseButtonsDown s' -> held_buttons s = held_buttons s'.
Proof. unfold held_buttons, button_held. by intros ->. Qed.

(** Lines 96-97 on sets: the buttons that went down are added, then the
    ones that went up are removed. *)
Lemma held_buttons_update_buttons flags s :
  WndStatics_wf s ->
  held_buttons (update_buttons flags s) =
    (held_buttons s ∪ down_mask flags) ∖ up_mask flags.
Proof.
  intros Hs. apply set_eq. intros b. unfold held_buttons, down_mask, up_mask.
  rewrite elem_of_difference, elem_of_union, !elem_of_button_set.
  rewrite update_buttons_held, andb_true_iff, orb_true_iff, negb_true_iff by done.
  by destruct (has_flag flags (RI_MOUSE_BUTTON_UP b)); naive_solver.
Qed.

(** No button is held exactly when [usMouseButtonsDown] is zero. *)
Lemma held_buttons_empty_iff s :
  WndStatics_wf s -> held_buttons s = ∅ <-> usMouseButtonsDown s = 0.
Proof.
  intros Hs. rewrite no_button_held by done. unfold held_buttons. split.
  - intros He b. apply not_true_is_false.
    rewrite <- (elem_of_button_set (fun b => button_held b s)), He.
    apply not_elem_of_empty.
  - intros Hall. apply set_eq. intros b.
    rewrite elem_of_button_set, Hall. set_solver.
Qed.

Lemma held_buttons_empty s :
  WndStatics_wf s ->
  bool_decide (held_buttons s = ∅) = (usMouseButtonsDown s =? 0).
Proof.
  intros Hs. destruct (Z.eqb_spec (usMouseButtonsDown s) 0) as [E|E].
  - by apply bool_decide_eq_true_2, held_buttons_empty_iff.
  - apply bool_decide_eq_false_2. by rewrite held_buttons_empty_iff.
Qed.

(** ** Masks and sets *)

Lemma has_flag_mask_of bs b :
  has_flag (mask_of bs) (RI_MOUSE_BUTTON_DOWN b) = bool_decide (b ∈ bs).
Proof.
  unfold mask_of. cbn [foldr enum MouseButton_finite].
  by destruct b; repeat case_bool_decide.
Qed.

Lemma mask_of_within bs : bits_within (mask_of bs) RI_ALL_MOUSE_BUTTONS_DOWN.
Proof.
  unfold mask_of. cbn [foldr enum MouseButton_finite].
  by repeat case_bool_decide.
Qed.

Lemma has_flag_land_DOWN m b :
  has_flag (m .& RI_ALL_MOUSE_BUTTONS_DOWN) (RI_MOUSE_BUTTON_DOWN b) =
    has_flag m (RI_MOUSE_BUTTON_DOWN b).
Proof. unfold has_flag. rewrite <- Z.land_assoc. by destruct b. Qed.

(** The set of a mask's buttons and the mask of a set's buttons are inverse
    to each other, on the masks that hold down-flags only. *)
Lemma down_mask_mask_of bs : down_mask (mask_of bs) = bs.
Proof.
  apply set_eq. intros b. unfold down_mask.
  by rewrite elem_of_button_set, has_flag_mask_of, bool_decide_eq_true.
Qed.

Lemma mask_of_down_mask m : mask_of (down_mask m) = m .& RI_ALL_MOUSE_BUTTONS_DOWN.
Proof.
  apply mask_ext; [apply mask_of_within|apply bits_within_land|]. intros b.
  rewrite has_flag_mask_of, has_flag_land_DOWN. unfold down_mask.
  destruct (has_flag m (RI_MOUSE_BUTTON_DOWN b)) eqn:E.
  - by apply bool_decide_eq_true_2, elem_of_button_set.
  - apply bool_decide_eq_false_2. rewrite elem_of_button_set. congruence.
Qed.


Lemma mask_of_held_buttons s :
  WndStatics_wf s -> mask_of (held_buttons s) = usMouseButtonsDown s.
Proof.
  intros (_ & _ & Hb).
  change (held_buttons s) with (down_mask (usMouseButtonsDown s)).
  by rewrite mask_of_down_mask.
Qed.

(** The flags of a report that presses, or releases, the buttons of a
    set. *)
Lemma up_mask_mask_of bs : up_mask (mask_of bs) = ∅.
Proof.
  apply set_eq. intros b. unfold up_mask, mask_of.
  rewrite elem_of_button_set. cbn [foldr enum MouseButton_finite].
  split; [|set_solver]. by destruct b; repeat case_bool_decide.
Qed.

Lemma down_mask_up_flags_of bs : down_mask (up_flags_of bs) = ∅.
Proof.
  apply set_eq. intros b. unfold down_mask, up_flags_of, mask_of.
  rewrite elem_of_button_set. cbn [foldr enum MouseButton_finite].
  split; [|set_solver]. by destruct b; repeat case_bool_decide.
Qed.

Lemma up_mask_up_flags_of bs : up_mask (up_flags_of bs) = bs.
Proof.
  apply set_eq. intros b. unfold up_mask, up_flags_of, mask_of.
  rewrite elem_of_button_set. cbn [foldr enum MouseButton_finite].
  by destruct b; repeat case_bool_decide.
Qed.

Section refinement.
Context {H : Type} `{HostLaws H}.
Context (hwnd : HWND).

(** ** Press and release *)

(** What a button or wheel report does to the buttons recorded as held. *)
Lemma deliver_buttons d m s :
  WndStatics_wf (statics s) -> delivers_button_or_wheel hwnd d m ->
  WndStatics_wf (statics (deliver d s)) /\
  held_buttons (statics (deliver d s)) =
    (held_buttons (statics s) ∪ down_mask (usButtonFlags m)) ∖ up_mask (usButtonFlags m).
Proof.
  intros Hs Hd. destruct (deliver_button_or_wheel hwnd d m s Hd) as [-> _].
  pose proof (update_deltas_wf m _ Hs) as Hs'.
  split; [by apply reset_click_wf, update_buttons_wf|].
  rewrite (held_buttons_ext _ (update_buttons (usButtonFlags m) (update_deltas m (statics s))))
    by done.
  rewrite held_buttons_update_buttons by done.
  by rewrite (held_buttons_ext (update_deltas m (statics s)) (statics s)).
Qed.

(** C33. Press and release.  A report that carries the down-flags of a set
    of buttons of which none is held records exactly these buttons as held
    beside those that were; when a report then carries their up-flags,
    [usMouseButtonsDown] has the value it had before, bit for bit, whatever
    the two reports say of motion and whatever the window procedure was
    doing: what lines 96-97 add for a button that goes down they remove
    when it goes up, and they touch no other button. *)
Theorem press_release_roundtrip d1 d2 m1 m2 bs s :
  WndStatics_wf (statics s) -> held_buttons (statics s) ## bs ->
  delivers_button_or_wheel hwnd d1 m1 -> usButtonFlags m1 = mask_of bs ->
  delivers_button_or_wheel hwnd d2 m2 -> usButtonFlags m2 = up_flags_of bs ->
  held_buttons (statics (deliver d1 s)) = held_buttons (statics s) ∪ bs /\
  usMouseButtonsDown (statics (deliver d2 (deliver d1 s))) = usMouseButtonsDown (statics s).
Proof.
  intros Hs Hdisj Hd1 Hf1 Hd2 Hf2.
  destruct (deliver_buttons d1 m1 s Hs Hd1) as [Hs1 Hh1].
  destruct (deliver_buttons d2 m2 _ Hs1 Hd2) as [Hs2 Hh2].
  rewrite Hf1, down_mask_mask_of, up_mask_mask_of in Hh1.
  rewrite Hf2, down_mask_up_flags_of, up_mask_up_flags_of, Hh1 in Hh2.
  split; [set_solver|].
  rewrite <- (mask_of_held_buttons (statics s)), <- mask_of_held_buttons by done.
  f_equal. set_solver.
Qed.

(** ** The abstraction *)

Definition abs (s : Sys H) : Debounce.State :=
  {| Debounce.accumDeltaX := lLastClickDeltaX (statics s);
     Debounce.accumDeltaY := lLastClickDeltaY (statics s);
     Debounce.motionArmed := fOkToClick (statics s);
     Debounce.buttonsDown := held_buttons (statics s);
     Debounce.pendingTimer := click_timer_pending hwnd s |}.

(** The event a message is, if it is one: a report of a relative mouse is a
    motion or a button/wheel event by the test of line 81, a timer message is
    a timer fire. *)
Definition event_of (d : Delivery) : option Debounce.Event :=
  if MSG.message (msg d) =? WM_INPUT then
    match raw_mouse_of (answers d) (MSG.lParam (msg d)) with
    | Some m =>
        Some (if is_mouse_move (usButtonFlags m)
              then Debounce.Motion (lLastX m) (lLastY m)
              else Debounce.ButtonOrWheel (down_mask (usButtonFlags m))
                     (up_mask (usButtonFlags m))
                     (has_flag (usButtonFlags m) RI_MOUSE_WHEEL))
    | None => None
    end
  else if MSG.message (msg d) =? WM_TIMER then Some Debounce.TimerFire
  else None.

(** The event keeps the deltas within the range of [LONG], [LONG_MIN]
    excluded. *)
Definition fits (e : Debounce.Event) (st : Debounce.State) : Prop :=
  match e with
  | Debounce.Motion dx dy =>
      LONG_MIN < Debounce.accumDeltaX st + dx <= LONG_MAX /\
      LONG_MIN < Debounce.accumDeltaY st + dy <= LONG_MAX
  | _ => True
  end.

(** The events of a run, and whether each of them fits and is delivered to
    the window with a [SetTimer] that succeeds. *)
Fixpoint events_of (ds : list Delivery) : list Debounce.Event :=
  match ds with
  | [] => []
  | d :: ds => from_option (fun e => [e]) [] (event_of d) ++ events_of ds
  end.

Fixpoint smooth (ds : list Delivery) (s : Sys H) : Prop :=
  match ds with
  | [] => True
  | d :: ds =>
      MSG.hwnd (msg d) = hwnd /\ SetTimer_ok d = true /\
      from_option (fun e => fits e (abs s)) True (event_of d) /\
      smooth ds (deliver d s)
  end.

#[export] Instance fits_dec e st : Decision (fits e st).
Proof. destruct e; cbn; apply _. Defined.

#[export] Instance smooth_dec ds : forall s, Decision (smooth ds s).
Proof.
  induction ds as [|d ds IH]; intros s; cbn; [apply _|].
  destruct (event_of d); cbn; apply _.
Defined.

(** ** One delivery *)

(** Reduces the projections of the records of both levels. *)
Ltac proj_simpl :=
  cbn [Debounce.accumDeltaX Debounce.accumDeltaY Debounce.motionArmed
       Debounce.buttonsDown Debounce.pendingTimer
       lLastClickDeltaX lLastClickDeltaY fOkToClick usMouseButtonsDown].

(** What a message is, by the event it carries. *)
Lemma event_of_cases d :
  match event_of d with
  | Some (Debounce.Motion dx dy) =>
      exists m, MSG.message (msg d) = WM_INPUT /\
        raw_mouse_of (answers d) (MSG.lParam (msg d)) = Some m /\
        is_mouse_move (usButtonFlags m) = true /\ lLastX m = dx /\ lLastY m = dy
  | Some (Debounce.ButtonOrWheel down up w) =>
      exists m, MSG.message (msg d) = WM_INPUT /\
        raw_mouse_of (answers d) (MSG.lParam (msg d)) = Some m /\
        is_mouse_move (usButtonFlags m) = false /\
        down = down_mask (usButtonFlags m) /\ up = up_mask (usButtonFlags m)
  | Some Debounce.TimerFire => MSG.message (msg d) = WM_TIMER
  | None =>
      MSG.message (msg d) <> WM_TIMER /\
      (MSG.message (msg d) = WM_INPUT ->
       raw_mouse_of (answers d) (MSG.lParam (msg d)) = None)
  end.
Proof.
  unfold event_of. pose proof WM_distinct as (? & ? & ?).
  destruct (Z.eqb_spec (MSG.message (msg d)) WM_INPUT) as [Ei|Ei].
  - destruct (raw_mouse_of _ _) as [m|] eqn:Hraw; [|split; congruence].
    destruct (is_mouse_move _) eqn:Hmove; by exists m.
  - by destruct (Z.eqb_spec (MSG.message (msg d)) WM_TIMER).
Qed.

Lemma event_of_Motion d dx dy :
  MSG.hwnd (msg d) = hwnd -> SetTimer_ok d = true ->
  event_of d = Some (Debounce.Motion dx dy) ->
  exists m, delivers_move hwnd d m /\ lLastX m = dx /\ lLastY m = dy.
Proof.
  intros Hw Hok He. pose proof (event_of_cases d) as Hc. rewrite He in Hc.
  destruct Hc as (m & ? & ? & ? & ? & ?). by exists m.
Qed.

Lemma event_of_ButtonOrWheel d down up w :
  MSG.hwnd (msg d) = hwnd ->
  event_of d = Some (Debounce.ButtonOrWheel down up w) ->
  exists m, delivers_button_or_wheel hwnd d m /\
            down = down_mask (usButtonFlags m) /\ up = up_mask (usButtonFlags m).
Proof.
  intros Hw He. pose proof (event_of_cases d) as Hc. rewrite He in Hc.
  destruct Hc as (m & ? & ? & ? & ? & ?). by exists m.
Qed.

Lemma event_of_TimerFire d :
  event_of d = Some Debounce.TimerFire -> MSG.message (msg d) = WM_TIMER.
Proof. intros He. pose proof (event_of_cases d) as Hc. by rewrite He in Hc. Qed.

Lemma event_of_None d :
  event_of d = None ->
  MSG.message (msg d) <> WM_TIMER /\
  (MSG.message (msg d) = WM_INPUT ->
   raw_mouse_of (answers d) (MSG.lParam (msg d)) = None).
Proof. intros He. pose proof (event_of_cases d) as Hc. by rewrite He in Hc. Qed.

(** A motion event is [onMotion]. *)
Lemma deliver_Motion d m s :
  sys_inv hwnd s -> delivers_move hwnd d m ->
  fits (Debounce.Motion (lLastX m) (lLastY m)) (abs s) ->
  abs (deliver d s) = Debounce.onMotion (lLastX m) (lLastY m) (abs s).
Proof.
  intros (Hwf & _ & _) Hd [Hx Hy]. cbn in Hx, Hy.
  destruct (deliver_move hwnd d m s Hd) as [Hs Hp].
  unfold abs, Debounce.onMotion. rewrite Hp, Hs, update_deltas_exact by done.
  proj_simpl. rewrite held_buttons_empty by done.
  rewrite (held_buttons_ext _ (statics s)) by done. f_equal. apply orb_comm.
Qed.

(** A button or wheel event is [onButtonOrWheelEvent]. *)
Lemma deliver_ButtonOrWheel d m s w :
  sys_inv hwnd s -> delivers_button_or_wheel hwnd d m ->
  abs (deliver d s) =
    Debounce.onButtonOrWheelEvent (down_mask (usButtonFlags m))
      (up_mask (usButtonFlags m)) w (abs s).
Proof.
  intros (Hwf & _ & _) Hd.
  destruct (deliver_button_or_wheel hwnd d m s Hd) as [Hs Hp].
  unfold abs, Debounce.onButtonOrWheelEvent, Debounce.reset. rewrite Hp, Hs.
  proj_simpl. rewrite <- held_buttons_update_buttons by done.
  by rewrite (held_buttons_ext _ (update_buttons (usButtonFlags m) (statics s))).
Qed.

(** A timer message is [onTimerFire]. *)
Lemma deliver_TimerFire d s :
  MSG.hwnd (msg d) = hwnd -> MSG.message (msg d) = WM_TIMER ->
  abs (deliver d s) = Debounce.onTimerFire (abs s).
Proof.
  intros Hw Hm. destruct (deliver_click hwnd d s Hw Hm) as (Hs & Hp & _).
  unfold abs, Debounce.onTimerFire, Debounce.reset. rewrite Hp, Hs. proj_simpl.
  by rewrite (held_buttons_ext _ (statics s)).
Qed.

(** Simulation: a delivery that carries an event is one step of the
    abstract engine.  In a state that satisfies the invariant, when the
    message is for the window, [SetTimer] succeeds and the motion does not
    overflow a delta, the debounce state after [WndProc] has handled the
    message is the state after the operation of the specification, and
    exactly the clicks the specification emits are injected. *)
Lemma deliver_refines d e s :
  sys_inv hwnd s -> MSG.hwnd (msg d) = hwnd -> SetTimer_ok d = true ->
  event_of d = Some e -> fits e (abs s) ->
  abs (deliver d s) = (Debounce.step e (abs s)).1 /\
  sent_input (host (deliver d s)) =
    sent_input (host s) ++ mjoin (replicate (Debounce.step e (abs s)).2 pInputs).
Proof.
  intros Hinv Hw Hok He Hfit. pose proof WM_distinct as (? & ? & ?).
  destruct e as [dx dy|down up w|]; cbn [Debounce.step fst snd].
  - destruct (event_of_Motion d dx dy Hw Hok He) as (m & Hd & <- & <-).
    split; [by apply deliver_Motion|].
    rewrite deliver_no_click; [by rewrite app_nil_r|]. by destruct Hd as (_ & -> & _).
  - destruct (event_of_ButtonOrWheel d down up w Hw He) as (m & Hd & -> & ->).
    split; [by apply deliver_ButtonOrWheel|].
    rewrite deliver_no_click; [by rewrite app_nil_r|]. by destruct Hd as (_ & -> & _).
  - apply event_of_TimerFire in He.
    split; [by apply deliver_TimerFire|].
    by destruct (deliver_click hwnd d s Hw He) as (_ & _ & ->).
Qed.

(** Stuttering: a message that is no event (a report that is not read,
    not of a mouse or of a device with absolute coordinates, the close
    message, any message left to [DefWindowProc]) leaves the debounce state
    as it is and injects nothing. *)
Lemma deliver_stutters d s :
  event_of d = None ->
  abs (deliver d s) = abs s /\ sent_input (host (deliver d s)) = sent_input (host s).
Proof.
  intros [Hm Hraw]%event_of_None.
  destruct (deliver_other d s Hm Hraw) as [Hs Hp].
  split; [|by apply deliver_no_click].
  unfold abs, click_timer_pending. by rewrite Hs, Hp.
Qed.

(** ** Runs *)

(** The abstraction loses nothing of the program's state: the statics are
    read back off the abstract state, the bit mask of the held buttons from
    their set. *)
Lemma statics_of_abs s :
  WndStatics_wf (statics s) -> statics_of (abs s) = statics s.
Proof.
  intros Hs. unfold statics_of, abs. proj_simpl.
  rewrite mask_of_held_buttons by done. by destruct (statics s).
Qed.

(** Along a run the abstraction follows the abstract engine, clicks
    included. *)
Lemma run_abs ds : forall s,
  sys_inv hwnd s -> valid_run hwnd ds s -> smooth ds s ->
  abs (run ds s) = (Debounce.steps (events_of ds) (abs s)).1 /\
  sent_input (host (run ds s)) =
    sent_input (host s) ++
    mjoin (replicate (Debounce.steps (events_of ds) (abs s)).2 pInputs).
Proof.
  induction ds as [|d ds IH]; intros s Hinv Hv Hsm; [by rewrite app_nil_r|].
  destruct Hv as [Hd Hv]. destruct Hsm as (Hw & Hok & Hfit & Hsm).
  destruct (IH _ (deliver_inv hwnd d s Hinv Hd) Hv Hsm) as [IHs IHc].
  cbn [run events_of]. rewrite IHs, IHc. clear IH IHs IHc.
  destruct (event_of d) as [e|] eqn:He; cbn [from_option app Debounce.steps fst snd].
  - destruct (deliver_refines d e s Hinv Hw Hok He Hfit) as [-> ->].
    by rewrite replicate_add, join_app, app_assoc.
  - by destruct (deliver_stutters d s He) as [-> ->].
Qed.

(** C1. Refinement of runs: along any run whose deliveries are for the
    window, with [SetTimer] succeeding and no overflow, the program goes
    through the states of the abstract engine on the events of the run: the
    abstraction of its state is the engine's state, its statics are the ones
    that state stands for, and it has injected as many clicks as the engine
    emitted. *)
Theorem run_refines ds s :
  sys_inv hwnd s -> valid_run hwnd ds s -> smooth ds s ->
  let r := Debounce.steps (events_of ds) (abs s) in
  abs (run ds s) = r.1 /\ statics (run ds s) = statics_of r.1 /\
  sent_input (host (run ds s)) = sent_input (host s) ++ mjoin (replicate r.2 pInputs).
Proof.
  intros Hinv Hv Hsm r. destruct (run_abs ds s Hinv Hv Hsm) as [Ha Hc].
  split_and!; [done| |done]. subst r. rewrite <- Ha. symmetry.
  apply statics_of_abs. by destruct (run_inv hwnd ds s Hinv Hv) as [? _].
Qed.

(** The invariant of the abstract engine is kept by the program. *)
Lemma deliver_abs_inv d s :
  sys_inv hwnd s -> MSG.hwnd (msg d) = hwnd -> SetTimer_ok d = true ->
  from_option (fun e => fits e (abs s)) True (event_of d) ->
  Debounce.inv (abs s) -> Debounce.inv (abs (deliver d s)).
Proof.
  intros Hinv Hw Hok Hfit Hst. destruct (event_of d) as [e|] eqn:He.
  - destruct (deliver_refines d e s Hinv Hw Hok He Hfit) as [-> _].
    by apply Debounce.step_inv.
  - by destruct (deliver_stutters d s He) as [-> _].
Qed.

(** C18. The state machine of the specification, on the code: in a state
    that satisfies the invariants, a message that carries an event takes the
    program from its phase ([IDLE], [ACCUMULATING] or [BUTTON_HELD]) to the
    phase the state-machine view gives for that event, and to no other. *)
Theorem deliver_transition d e s p :
  sys_inv hwnd s -> Debounce.inv (abs s) ->
  MSG.hwnd (msg d) = hwnd -> SetTimer_ok d = true ->
  event_of d = Some e -> fits e (abs s) ->
  Debounce.transition (abs s) e p <-> Debounce.phase (abs (deliver d s)) = p.
Proof.
  intros Hinv Hst Hw Hok He Hfit.
  destruct (deliver_refines d e s Hinv Hw Hok He Hfit) as [-> _]. split.
  - by apply Debounce.transition_phase.
  - intros <-. by apply Debounce.step_transition.
Qed.

(** C17. No arming is lost: along any run from the start in which
    [SetTimer] succeeds and no delta overflows, the click timer is pending
    exactly when no button is recorded as held and the motion threshold has
    been exceeded since the last reset.  Whenever the user has moved the
    mouse and let go of the buttons, a click is on its way. *)
Theorem armed_implies_timer ds : forall s,
  sys_inv hwnd s -> Debounce.inv (abs s) -> valid_run hwnd ds s -> smooth ds s ->
  click_timer_pending hwnd (run ds s) =
    (usMouseButtonsDown (statics (run ds s)) =? 0) && fOkToClick (statics (run ds s)).
Proof.
  induction ds as [|d ds IH]; intros s Hinv Hst Hv Hsm.
  - cbn. rewrite <- held_buttons_empty by apply Hinv. exact Hst.
  - destruct Hv as [Hd Hv]. destruct Hsm as (Hw & Hok & Hfit & Hsm).
    apply IH; [by apply deliver_inv | by apply deliver_abs_inv | done..].
Qed.

End refinement.
