(* ===== verification/WinMain.v ===== *)
(** * WinMain: start-up, the message loop and the exit code

    [_tWinMain] (lines 144-197 of [MouseButtonClicker.cpp]) creates the named
    mutex that keeps a second instance from running, registers the window
    class, creates the message-only window, registers for raw mouse input and
    pumps messages until [GetMessage] retrieves [WM_QUIT]; when a step after
    the mutex fails it shows the last error code in a message box.  It
    returns 0 on every path but the one out of the loop, which returns the
    [wParam] of the quit message.

    The function is a computation of the prelude's monad: the environment is
    what the system answers to each call ([BootAnswers], with the messages the
    system sends and posts), the state is the state of the composition of
    [System.v], the log holds the start-up calls.  [message_loop] is proved to
    run exactly the deliveries of [System.v], which brings every invariant of
    that file to the program as a whole. *)

From Stdlib Require Import Ascii.
From stdpp Require Import base numbers list strings.
From S2P Require Import Prelude Format Win32 WndProc System.

#[local] Open Scope Z_scope.
#[local] Open Scope mbc_scope.

(** ** Calls and answers *)

(** The type of [WndProc]: what [WNDCLASS.lpfnWndProc] holds. *)
Definition WNDPROC : Type := HWND -> UINT -> WPARAM -> LPARAM -> Wnd LRESULT.

(** The calls of [_tWinMain] that change the system, with their arguments.
    An array passed with its length is a list. *)
Inductive BootCall : Type :=
| CreateMutex (lpMutexAttributes : Z) (bInitialOwner : Z) (lpName : string)
| RegisterClass (lpWndClass : WNDCLASS WNDPROC)
| CreateWindow (lpClassName lpWindowName : string) (dwStyle : DWORD)
    (x y nWidth nHeight : Z) (hWndParent : HWND) (hMenu : HANDLE)
    (hInst : HANDLE) (lpParam : Z)
| RegisterRawInputDevices (pRawInputDevices : list RAWINPUTDEVICE)
| MessageBox (hWnd : HWND) (lpText : TSTR) (lpCaption : string) (uType : UINT).

(** What one call of [GetMessage] does.  Messages sent to a window of the
    thread are handled inside the call, before it returns; then it returns
    nonzero with a posted message in [msg], or 0 with [WM_QUIT] in [msg], or
    -1 and leaves [msg] as it was. *)
Inductive Pumped : Type :=
| sent (d : Delivery)
| posted (d : Delivery)
| quit (m : MSG.t)
| failed (a : OsAnswers) (ok : bool).

(** The answers of the system to the calls of [_tWinMain], in the order of
    the calls: the mutex handle and the error code that comes with it, the
    class atom, the window handle and the messages [CreateWindow] sends to the
    window procedure before it returns, the result of the registration, the
    error code read on the failure path, the events of the message loop. *)
Record BootAnswers : Type := {
  CreateMutex_result : HANDLE;
  CreateMutex_error : DWORD;
  RegisterClass_result : Z;
  CreateWindow_result : HWND;
  CreateWindow_sent : list Delivery;
  RegisterRawInputDevices_result : Z;
  failure_error : DWORD;
  GetMessage_events : list Pumped
}.

(** How [_tWinMain] ends: it returns a code, or it waits in [GetMessage] for
    an event past the ones of the environment. *)
Inductive Exit : Set :=
| Returned (code : Z)
| Pumping.

#[export] Instance Exit_eq_dec : EqDecision Exit.
Proof. solve_decision. Defined.

(** ** The diagnostic message (lines 186-192) *)

(** [TCHAR szMessage[64]]: the buffer's length in characters. *)
Definition szMessage_size : Z := 64.

Definition CRLF : TSTR := [ascii_of_nat 13; ascii_of_nat 10].

(** [TEXT("Initialization failure. GetLastError=%d\r\n")]. *)
Definition diagnostic_format : TSTR :=
  TEXT "Initialization failure. GetLastError=%d" ++ CRLF.

(** Its expansion for an error code. *)
Definition diagnostic_text (err : DWORD) : TSTR :=
  TEXT "Initialization failure. GetLastError=" ++ format_d err ++ CRLF.

(** ** The window class and the device (lines 156-159, 167-171) *)

(** [WNDCLASS wc = {0}] with the three assignments. *)
Definition wc (hInst : HANDLE) : WNDCLASS WNDPROC :=
  {| style := 0; lpfnWndProc := Some WndProc; cbClsExtra := 0; cbWndExtra := 0;
     hInstance := hInst; hIcon := NULL; hCursor := NULL; hbrBackground := NULL;
     lpszMenuName := None; lpszClassName := Some APPLICATION_NAME |}.

(** [RAWINPUTDEVICE rid = {0}] with the four assignments: the system mouse
    (usage page 1, usage 2), also while in the background, to [hWnd]. *)
Definition rid (hWnd : HWND) : RAWINPUTDEVICE :=
  {| usUsagePage := 1; usUsage := 2; rid_dwFlags := RIDEV_INPUTSINK;
     hwndTarget := hWnd |}.

(** [MSG msg = {0}] (line 175). *)
Definition msg_zero : MSG.t :=
  {| MSG.hwnd := 0; MSG.message := 0; MSG.wParam := 0; MSG.lParam := 0;
     MSG.time := 0; MSG.pt := (0, 0) |}.

Section program.
Context {H : Type} `{HostLaws H}.

#[local] Abbreviation Boot := (Act BootAnswers (Sys H) BootCall).

(** [DispatchMessage]: a message of the program's window goes to [WndProc];
    a message of another window of the thread, or of no window, does not
    reach the program. *)
Definition dispatch (hWnd : HWND) (d : Delivery) (s : Sys H) : Sys H :=
  if bool_decide (MSG.hwnd (msg d) = hWnd) then deliver d s else s.

(** Lines 175-182: the loop runs while [GetMessage] returns nonzero, and
    dispatches [msg] each time, also when the call failed and [msg] still
    holds the message before; [TranslateMessage] does nothing for the messages
    of a window without keyboard input.  On [WM_QUIT] the function returns
    [static_cast<int>(msg.wParam)]. *)
Fixpoint message_loop (hWnd : HWND) (q : list Pumped) (cur : MSG.t) (s : Sys H)
  : Exit * Sys H :=
  match q with
  | [] => (Pumping, s)
  | sent d :: q => message_loop hWnd q cur (dispatch hWnd d s)
  | posted d :: q => message_loop hWnd q (msg d) (dispatch hWnd d s)
  | quit m :: _ => (Returned (wrap_LONG (MSG.wParam m)), s)
  | failed a ok :: q =>
      message_loop hWnd q cur
        (dispatch hWnd {| msg := cur; answers := a; SetTimer_ok := ok |} s)
  end.

Definition pump (hWnd : HWND) : Boot Exit :=
  a <- ask ;;
  s <- get ;;
  let r := message_loop hWnd (GetMessage_events a) msg_zero s in
  put r.2 ;;
  act_ret r.1.

(** Lines 186-192: format the error code; show it if formatting succeeded. *)
Definition report_failure : Boot unit :=
  a <- ask ;;
  match StringCchPrintf szMessage_size diagnostic_format [failure_error a] with
  | Some szMessage =>
      call (MessageBox NULL szMessage APPLICATION_NAME (MB_OK .| MB_ICONERROR))
  | None => act_ret tt
  end.

(** Lines 155-184: the three steps of the initialization, each inside the
    success branch of the one before, and the loop inside the last.  The
    result is how the function ended inside, if it did; [None] falls through
    to the diagnostic. *)
Definition initialize_and_pump (hInst : HANDLE) : Boot (option Exit) :=
  a <- ask ;;
  call (RegisterClass (wc hInst)) ;;
  if negb (RegisterClass_result a =? 0) then
    call (CreateWindow APPLICATION_NAME APPLICATION_NAME 0
            CW_USEDEFAULT CW_USEDEFAULT CW_USEDEFAULT CW_USEDEFAULT
            HWND_MESSAGE NULL hInst NULL) ;;
    modify (run (CreateWindow_sent a)) ;;
    let hWnd := CreateWindow_result a in
    if negb (hWnd =? NULL) then
      call (RegisterRawInputDevices [rid hWnd]) ;;
      if negb (RegisterRawInputDevices_result a =? 0) then
        e <- pump hWnd ;; act_ret (Some e)
      else act_ret None
    else act_ret None
  else act_ret None.

(** Lines 144-197.  Of the parameters only [hInstance] is used; the other
    three are marked unreferenced (lines 147-149). *)
Definition WinMain (hInst : HANDLE) : Boot Exit :=
  a <- ask ;;
  call (CreateMutex NULL FALSE APPLICATION_NAME) ;;
  if negb (CreateMutex_result a =? NULL) &&
     negb (CreateMutex_error a =? ERROR_ALREADY_EXISTS)
  then
    r <- initialize_and_pump hInst ;;
    match r with
    | Some e => act_ret e
    | None => report_failure ;; act_ret (Returned 0)
    end
  else act_ret (Returned 0).

(** ** Vocabulary of the theorems *)

(** The first instance: the mutex was created and did not exist before. *)
Definition first_instance (a : BootAnswers) : bool :=
  negb (CreateMutex_result a =? NULL) &&
  negb (CreateMutex_error a =? ERROR_ALREADY_EXISTS).

(** The window class was registered, so that [CreateWindow] is called. *)
Definition class_registered (a : BootAnswers) : bool :=
  negb (RegisterClass_result a =? 0).

(** Every step of the initialization succeeded. *)
Definition initialized (a : BootAnswers) : bool :=
  class_registered a && negb (CreateWindow_result a =? NULL) &&
  negb (RegisterRawInputDevices_result a =? 0).

(** The delivery, if it is for the window. *)
Definition to_window (hWnd : HWND) (d : Delivery) : list Delivery :=
  if bool_decide (MSG.hwnd (msg d) = hWnd) then [d] else [].

(** The deliveries the loop makes to the window procedure, in order. *)
Fixpoint dispatched (hWnd : HWND) (q : list Pumped) (cur : MSG.t) : list Delivery :=
  match q with
  | [] => []
  | sent d :: q => to_window hWnd d ++ dispatched hWnd q cur
  | posted d :: q => to_window hWnd d ++ dispatched hWnd q (msg d)
  | quit _ :: _ => []
  | failed a ok :: q =>
      to_window hWnd {| msg := cur; answers := a; SetTimer_ok := ok |}
      ++ dispatched hWnd q cur
  end.

(** Every delivery of a run of the program: those of [CreateWindow], then
    those of the loop. *)
Definition deliveries (a : BootAnswers) : list Delivery :=
  if first_instance a && class_registered a then
    CreateWindow_sent a ++
    (if initialized a
     then dispatched (CreateWindow_result a) (GetMessage_events a) msg_zero
     else [])
  else [].

(** [GetMessage] retrieves [WM_QUIT] only when a quit message was posted,
    and with the exit code that was posted. *)
Fixpoint quit_posted (hWnd : HWND) (q : list Pumped) (cur : MSG.t) (s : Sys H) : Prop :=
  match q with
  | [] => True
  | sent d :: q => quit_posted hWnd q cur (dispatch hWnd d s)
  | posted d :: q => quit_posted hWnd q (msg d) (dispatch hWnd d s)
  | quit m :: _ => quit_code (host s) = Some (MSG.wParam m)
  | failed a ok :: q =>
      quit_posted hWnd q cur
        (dispatch hWnd {| msg := cur; answers := a; SetTimer_ok := ok |} s)
  end.

Definition returned (e : Exit) : bool :=
  match e with Returned _ => true | Pumping => false end.

Definition is_quit (e : Pumped) : bool :=
  match e with quit _ => true | _ => false end.

(** The calls of a start that succeeds, with their arguments written out:
    the mutex named after the program; a class of that name whose procedure
    is [WndProc], all other fields zero; a message-only window of that class
    with no style; one device, the system mouse (usage page 1, usage 2),
    whose input goes to the window also in the background. *)
Definition start_calls (hInst : HANDLE) (hWnd : HWND) : list BootCall :=
  [CreateMutex 0 0 "MouseButtonClicker";
   RegisterClass
     {| style := 0; lpfnWndProc := Some WndProc; cbClsExtra := 0; cbWndExtra := 0;
        hInstance := hInst; hIcon := 0; hCursor := 0; hbrBackground := 0;
        lpszMenuName := None; lpszClassName := Some "MouseButtonClicker"%string |};
   CreateWindow "MouseButtonClicker" "MouseButtonClicker" 0
     (- 2 ^ 31) (- 2 ^ 31) (- 2 ^ 31) (- 2 ^ 31) (-3) 0 hInst 0;
   RegisterRawInputDevices
     [{| usUsagePage := 1; usUsage := 2; rid_dwFlags := 0x100; hwndTarget := hWnd |}]].

(** The number the diagnostic shows: the text between the 37 characters
    before the conversion and the two after it, read as a decimal. *)
Definition shown_error_code (text : TSTR) : Z :=
  parse_d (take (length text - 37 - 2) (drop 37 text)).

(** The message box of the failure path. *)
Definition failure_box (a : BootAnswers) : BootCall :=
  MessageBox NULL (diagnostic_text (failure_error a)) APPLICATION_NAME 0x10.

(** ** The diagnostic message *)

Lemma diagnostic_text_length err : (length (diagnostic_text err) <= 50)%nat.
Proof.
  unfold diagnostic_text. rewrite !length_app.
  pose proof (format_d_length err). cbn. lia.
Qed.

(** The format of the program expands to the text with the error code. *)
Lemma diagnostic_expand err : expand diagnostic_format [err] = Some (diagnostic_text err).
Proof.
  unfold diagnostic_format, diagnostic_text.
  change (TEXT "Initialization failure. GetLastError=%d")
    with (TEXT "Initialization failure. GetLastError=" ++ TEXT "%d").
  rewrite <- app_assoc, expand_app by (apply (bool_decide_unpack _); by vm_compute).
  done.
Qed.

Lemma StringCchPrintf_diagnostic err :
  StringCchPrintf szMessage_size diagnostic_format [err] = Some (diagnostic_text err).
Proof.
  apply StringCchPrintf_fits; [apply diagnostic_expand|]. pose proof (diagnostic_text_length err).
  unfold szMessage_size. lia.
Qed.

(** C31. The diagnostic message always fits its buffer: for every error code
    the expansion of the format of line 189 is the text with the code in
    decimal, at most 50 characters long, so that [StringCchPrintf] succeeds
    on the 64 characters of [szMessage], the text is not cut, and the message
    box is shown. *)
Theorem diagnostic_fits a s :
  expand diagnostic_format [failure_error a] = Some (diagnostic_text (failure_error a)) /\
  (length (diagnostic_text (failure_error a)) < Z.to_nat szMessage_size)%nat /\
  report_failure a s = (tt, s, [failure_box a]).
Proof.
  split_and!; [apply diagnostic_expand| |].
  { pose proof (diagnostic_text_length (failure_error a)).
    change (Z.to_nat szMessage_size) with 64%nat. lia. }
  unfold report_failure. run_act. by rewrite StringCchPrintf_diagnostic.
Qed.

Lemma report_failure_run a s : report_failure a s = (tt, s, [failure_box a]).
Proof.
  unfold report_failure. run_act. by rewrite StringCchPrintf_diagnostic.
Qed.

(** C32. The message box shows the error code: on the failure path the
    program makes one call, the message box with the error icon and the name
    of the program as its caption, and the text it shows is
    "Initialization failure. GetLastError=", then a number, then a line end;
    the number, read as a decimal, is the value of [GetLastError] as a signed
    32-bit integer, as [%d] prints a [DWORD] (a code from 2^31 on shows as a
    negative number). *)
Theorem diagnostic_shows_error_code a s :
  exists text : TSTR,
    calls report_failure a s =
      [MessageBox NULL text APPLICATION_NAME (MB_OK .| MB_ICONERROR)] /\
    take 37 text = TEXT "Initialization failure. GetLastError=" /\
    drop (length text - 2) text = CRLF /\
    shown_error_code text = wrap_LONG (failure_error a).
Proof.
  exists (diagnostic_text (failure_error a)). unfold calls.
  rewrite report_failure_run. split_and!; [done|done| |].
  - unfold diagnostic_text. rewrite app_assoc, length_app.
    by rewrite drop_app_length' by (cbn; lia).
  - unfold shown_error_code, diagnostic_text. rewrite !length_app.
    rewrite drop_app_length' by done.
    rewrite take_app_length' by (cbn; lia). apply parse_format_d.
Qed.

(** ** The message loop *)

Lemma dispatch_run hWnd d s : dispatch hWnd d s = run (to_window hWnd d) s.
Proof. unfold dispatch, to_window. by case_bool_decide. Qed.

(** The loop is a run of the system: its final state is the state after the
    deliveries it makes to the window. *)
Lemma message_loop_run hWnd q : forall cur s,
  (message_loop hWnd q cur s).2 = run (dispatched hWnd q cur) s.
Proof.
  induction q as [|[d|d|m|a ok] q IH]; intros cur s; cbn [message_loop dispatched];
    rewrite ?run_app, ?IH, <- ?dispatch_run; done.
Qed.

Lemma message_loop_pumping hWnd q : forall cur s,
  existsb is_quit q = false -> (message_loop hWnd q cur s).1 = Pumping.
Proof.
  induction q as [|[d|d|m|a ok] q IH]; intros cur s Hq; cbn in *;
    try done; by apply IH.
Qed.

Lemma message_loop_quit hWnd q1 m q2 : forall cur s,
  existsb is_quit q1 = false ->
  (message_loop hWnd (q1 ++ quit m :: q2) cur s).1 = Returned (wrap_LONG (MSG.wParam m)).
Proof.
  induction q1 as [|[d|d|m'|a ok] q1 IH]; intros cur s Hq; cbn in *;
    try done; by apply IH.
Qed.

(** A loop that waits after more events waited before them. *)
Lemma message_loop_app_pumping hWnd q1 q2 : forall cur s,
  (message_loop hWnd (q1 ++ q2) cur s).1 = Pumping ->
  (message_loop hWnd q1 cur s).1 = Pumping.
Proof.
  induction q1 as [|[d|d|m|a ok] q1 IH]; intros cur s; cbn; by try apply IH.
Qed.

(** The exit code of the loop is the one that was posted. *)
Lemma message_loop_code hWnd q : forall cur s c,
  quit_code_ok s -> quit_posted hWnd q cur s ->
  (message_loop hWnd q cur s).1 = Returned c -> c = 0.
Proof.
  induction q as [|[d|d|m|a ok] q IH]; intros cur s c Hs Hq Hr;
    cbn [message_loop quit_posted] in *; try done.
  1,2,4: eapply IH; [|done..]; rewrite dispatch_run; by apply run_quit_code_ok.
  destruct Hs as [Hs|Hs]; rewrite Hs in Hq; [done|].
  injection Hq as Hq. rewrite <- Hq in Hr. by injection Hr as <-.
Qed.

(** ** The function *)

Lemma pump_run hWnd a s :
  pump hWnd a s =
    let r := message_loop hWnd (GetMessage_events a) msg_zero s in (r.1, r.2, []).
Proof. unfold pump. rewrite ask_bind, get_bind. by apply run_put. Qed.

(** Runs [_tWinMain] symbolically, one call at a time. *)
Ltac step_boot :=
  first
    [ rewrite ask_bind
    | apply run_call
    | apply run_modify
    | eapply run_bind; [apply pump_run || apply report_failure_run|]
    | reflexivity ].

(** Evaluates [_tWinMain] on every branch. *)
Ltac run_boot :=
  unfold WinMain, initialize_and_pump, first_instance, initialized,
    class_registered, deliveries, start_calls in *;
  repeat first [ step_boot | case_test; try done ].

(** The initialization, branch by branch. *)
Lemma initialize_and_pump_run hInst a s :
  initialize_and_pump hInst a s =
    let hWnd := CreateWindow_result a in
    let s' := run (CreateWindow_sent a) s in
    let r := message_loop hWnd (GetMessage_events a) msg_zero s' in
    if class_registered a then
      if negb (hWnd =? NULL) then
        if negb (RegisterRawInputDevices_result a =? 0)
        then (Some r.1, r.2, tail (start_calls hInst hWnd))
        else (None, s', tail (start_calls hInst hWnd))
      else (None, s', take 2 (tail (start_calls hInst hWnd)))
    else (None, s, [RegisterClass (wc hInst)]).
Proof. cbn zeta. by run_boot. Qed.

(** The whole function, branch by branch. *)
Lemma WinMain_run hInst a s :
  WinMain hInst a s =
    let hWnd := CreateWindow_result a in
    let s' := run (CreateWindow_sent a) s in
    let r := message_loop hWnd (GetMessage_events a) msg_zero s' in
    if first_instance a then
      if class_registered a then
        if initialized a then (r.1, r.2, start_calls hInst hWnd)
        else (Returned 0, s',
              take (if CreateWindow_result a =? NULL then 3%nat else 4%nat)
                (start_calls hInst hWnd) ++ [failure_box a])
      else (Returned 0, s, take 2 (start_calls hInst hWnd) ++ [failure_box a])
    else (Returned 0, s, [CreateMutex NULL FALSE APPLICATION_NAME]).
Proof.
  unfold WinMain. rewrite ask_bind, call_bind. fold (first_instance a).
  destruct (first_instance a); [|done].
  unfold act_bind. rewrite initialize_and_pump_run. unfold initialized. cbn zeta.
  repeat (case_test; cbn [fst snd app andb negb]; rewrite ?report_failure_run; try done).
Qed.

Ltac boot_cases :=
  unfold result, calls, final; rewrite !WinMain_run;
  unfold deliveries, initialized in *; cbn zeta;
  repeat (case_test; cbn [fst snd app andb negb] in *; try done).

(** The function is in its loop only as the first instance, after an
    initialization that succeeded. *)
Lemma WinMain_pumping hInst a s :
  result (WinMain hInst) a s = Pumping <->
  first_instance a = true /\ initialized a = true /\
  (message_loop (CreateWindow_result a) (GetMessage_events a) msg_zero
     (run (CreateWindow_sent a) s)).1 = Pumping.
Proof. boot_cases; naive_solver. Qed.

Lemma WinMain_pumps hInst a s :
  first_instance a = true -> initialized a = true ->
  existsb is_quit (GetMessage_events a) = false ->
  result (WinMain hInst) a s = Pumping.
Proof. intros Hf Hi Hq. apply WinMain_pumping. by rewrite message_loop_pumping. Qed.

(** A second instance does nothing: when the mutex cannot be created,
    or exists already, [_tWinMain] returns 0 having made no call but
    [CreateMutex]; it registers no class, creates no window, shows no message
    and handles no message. *)
Lemma WinMain_second_instance hInst a s :
  first_instance a = false ->
  WinMain hInst a s = (Returned 0, s, [CreateMutex NULL FALSE APPLICATION_NAME]).
Proof. intros Hf. by boot_cases. Qed.

(** C29. A failed initialization is reported: when the program is the first
    instance and registering the class, creating the window or registering
    for raw input fails, [_tWinMain] returns 0 and its last call is the
    message box with the error code, whatever the code is. *)
Theorem WinMain_failure_reported hInst a s :
  first_instance a = true -> initialized a = false ->
  result (WinMain hInst) a s = Returned 0 /\
  last (calls (WinMain hInst) a s) = Some (failure_box a).
Proof. intros Hf Hi. by boot_cases. Qed.

(** C30. A successful start makes the four calls in order, with the class
    that names [WndProc] and the device that names the new window, and then
    runs the message loop from the state [CreateWindow] left; it shows no
    message box. *)
Theorem WinMain_started hInst a s :
  first_instance a = true -> initialized a = true ->
  let hWnd := CreateWindow_result a in
  let r := message_loop hWnd (GetMessage_events a) msg_zero (run (CreateWindow_sent a) s) in
  WinMain hInst a s = (r.1, r.2, start_calls hInst hWnd).
Proof. intros Hf Hi. by boot_cases. Qed.

(** The program is a run of the system: the state in which [_tWinMain] ends
    is the state after delivering, one by one, the messages [CreateWindow]
    sent and the messages the loop dispatched to the window. *)
Lemma WinMain_final hInst a s : final (WinMain hInst) a s = run (deliveries a) s.
Proof.
  boot_cases; rewrite ?run_app, ?app_nil_r; try done.
  apply message_loop_run.
Qed.

(** C16. The program refines the system: when the host delivers only what it
    may (messages of the window, and [WM_TIMER] only for a pending timer),
    the state in which [_tWinMain] ends, or waits, is a reachable state of
    the step relation of the composition, reached by the deliveries of
    [CreateWindow] and of the message loop in their order. *)
Theorem WinMain_reachable hInst a :
  valid_run (CreateWindow_result a) (deliveries a) sys_init ->
  final (WinMain hInst) a sys_init = run (deliveries a) sys_init /\
  reachable (CreateWindow_result a) (final (WinMain hInst) a sys_init).
Proof.
  intros Hv. rewrite WinMain_final. split; [done|].
  apply run_reachable; [constructor | done].
Qed.

(** C13. Every state of the program satisfies the invariant of the system:
    when the host delivers only what it may (messages of the window, and
    [WM_TIMER] only for a pending timer), then after any number of the
    deliveries of [_tWinMain] the statics are well formed, the click timer is
    the only timer, and it is pending only while clicking is enabled and no
    button is held. *)
Theorem WinMain_invariant hInst a ds1 ds2 :
  valid_run (CreateWindow_result a) (deliveries a) sys_init ->
  deliveries a = ds1 ++ ds2 ->
  sys_inv (CreateWindow_result a) (run ds1 sys_init) /\
  final (WinMain hInst) a sys_init = run ds2 (run ds1 sys_init).
Proof.
  intros Hv Hds. rewrite WinMain_final, Hds, run_app. split; [|done].
  rewrite Hds in Hv. apply valid_run_app in Hv as [Hv _].
  by apply run_inv; [apply sys_init_inv|].
Qed.

(** C14. The exit code is 0: when [GetMessage] retrieves [WM_QUIT] only for
    a quit message the program posted, [_tWinMain] returns 0 whenever it
    returns, on the failure paths and out of the loop alike. *)
Theorem WinMain_exit_code hInst a c :
  quit_posted (CreateWindow_result a) (GetMessage_events a) msg_zero
    (run (CreateWindow_sent a) sys_init) ->
  result (WinMain hInst) a sys_init = Returned c -> c = 0.
Proof.
  intros Hq. boot_cases; try by intros [= <-].
  apply message_loop_code; [|done]. apply run_quit_code_ok, sys_init_quit_code_ok.
Qed.

(** The loop ends exactly when [GetMessage] retrieves [WM_QUIT]. *)
Lemma message_loop_returns hWnd q cur s :
  returned (message_loop hWnd q cur s).1 = existsb is_quit q.
Proof.
  revert cur s. induction q as [|[d|d|m|a ok] q IH]; intros cur s; cbn; by try apply IH.
Qed.

(** A failed [GetMessage] dispatches the message before it again: the
    loop treats the result -1 as a message, and [msg] still holds the last
    one retrieved. *)
Lemma failed_GetMessage_redispatches hWnd d a ok q cur s :
  message_loop hWnd (posted d :: failed a ok :: q) cur s =
  message_loop hWnd
    (posted d :: posted {| msg := msg d; answers := a; SetTimer_ok := ok |} :: q) cur s.
Proof. cbn [message_loop]. done. Qed.

End program.
