(* ===== verification/Session.v ===== *)
(** * Session: several instances of the program

    [_tWinMain] begins by creating a mutex with a fixed name and goes on only
    if the mutex did not exist (lines 152-153); it never releases the mutex,
    and relies on Windows to do so when the process ends (line 196).  This
    file models what those lines are for.  A session is a list of processes,
    each an instance of the program with the answers the system has given it
    so far; the named mutex exists as long as a process that holds a handle
    of it has not ended.  A process has not ended while it is in its message
    loop, and while the message box of a failed start (line 191) is open:
    [MessageBox] returns when the user closes the box.  Processes are
    launched, fed messages and have their boxes closed in any order.

    The theorems: at most one instance is ever running, in its loop or
    before its message box; a launch meanwhile does nothing but call
    [CreateMutex]; once the instance has ended, the next launch runs. *)

From stdpp Require Import base numbers list strings.
From S2P Require Import Prelude Format Win32 WndProc System WinMain.

#[local] Open Scope Z_scope.

(** ** Processes *)

(** An instance of the program: its instance handle, what the system has
    answered to its calls so far, and whether the user has closed its
    message box, if it shows one. *)
Record Process : Type := {
  hinst : HANDLE;
  seen : BootAnswers;
  box_closed : bool
}.

(** The answers [a], with the events [q] after the ones [GetMessage] has
    produced so far. *)
Definition feed (q : list Pumped) (a : BootAnswers) : BootAnswers :=
  {| CreateMutex_result := CreateMutex_result a;
     CreateMutex_error := CreateMutex_error a;
     RegisterClass_result := RegisterClass_result a;
     CreateWindow_result := CreateWindow_result a;
     CreateWindow_sent := CreateWindow_sent a;
     RegisterRawInputDevices_result := RegisterRawInputDevices_result a;
     failure_error := failure_error a;
     GetMessage_events := GetMessage_events a ++ q |}.

Definition feed_process (q : list Pumped) (p : Process) : Process :=
  {| hinst := hinst p; seen := feed q (seen p); box_closed := box_closed p |}.

(** The user closes the message box of the process. *)
Definition close_process (p : Process) : Process :=
  {| hinst := hinst p; seen := seen p; box_closed := true |}.

(** What happens in a session: a process is launched, the process at
    position [i] retrieves more messages, or its message box is closed. *)
Inductive SessionEvent : Type :=
| launch (p : Process)
| messages (i : nat) (q : list Pumped)
| close_box (i : nat).

(** How far a process has come: it has ended, it is in its message loop, or
    it waits in [MessageBox]. *)
Inductive Stage : Set :=
| ended (code : Z)
| in_loop
| in_box.

#[export] Instance Stage_eq_dec : EqDecision Stage.
Proof. solve_decision. Defined.

(** The processes of [ps] for which [f] holds, counted. *)
Definition count (f : Process -> bool) (ps : list Process) : nat :=
  sum_list_with (fun p => if f p then 1%nat else 0%nat) ps.

Section session.
Context {H : Type} `{HostLaws H}.

(** What [_tWinMain] has done in the process: it has returned, or it is in
    its loop. *)
Definition status (p : Process) : Exit :=
  result (WinMain (H:=H) (hinst p)) (seen p) sys_init.

Definition alive (p : Process) : bool := bool_decide (status p = Pumping).

(** The process waits in the [MessageBox] of line 191: it is the first
    instance, its initialization failed, and the box is still open. *)
Definition showing (p : Process) : bool :=
  first_instance (seen p) && negb (initialized (seen p)) && negb (box_closed p).

(** The process has not ended. *)
Definition live (p : Process) : bool := alive p || showing p.

Definition stage (p : Process) : Stage :=
  if showing p then in_box
  else match status p with Returned code => ended code | Pumping => in_loop end.

(** The process holds a handle of the mutex: [CreateMutex] gave it one, and
    it has not ended; Windows closes the handles of a process that ends. *)
Definition holds_mutex (p : Process) : bool :=
  negb (CreateMutex_result (seen p) =? NULL) && live p.

(** The named mutex exists while some process holds a handle of it. *)
Definition mutex_exists (ps : list Process) : bool := existsb holds_mutex ps.

(** The number of instances in their message loop, and of those that have
    not ended. *)
Definition running (ps : list Process) : nat := count alive ps.

Definition instances (ps : list Process) : nat := count live ps.

(** [CreateMutex] in a new process: if it returns a handle, the last error
    is [ERROR_ALREADY_EXISTS] exactly when the mutex exists. *)
Definition launch_ok (ps : list Process) (p : Process) : Prop :=
  CreateMutex_result (seen p) <> NULL ->
  (CreateMutex_error (seen p) = ERROR_ALREADY_EXISTS <-> mutex_exists ps = true).

(** A launch appends a process whose box, if it comes to show one, is open;
    messages go to a process that is in its loop; a box that is closed is
    one that is shown. *)
Inductive session_step : list Process -> SessionEvent -> list Process -> Prop :=
| step_launch ps p :
    launch_ok ps p -> box_closed p = false ->
    session_step ps (launch p) (ps ++ [p])
| step_messages ps i p q :
    ps !! i = Some p -> alive p = true ->
    session_step ps (messages i q) (<[i := feed_process q p]> ps)
| step_close ps i p :
    ps !! i = Some p -> showing p = true ->
    session_step ps (close_box i) (<[i := close_process p]> ps).

Inductive valid_session : list Process -> Prop :=
| session_start : valid_session []
| session_next ps e ps' :
    valid_session ps -> session_step ps e ps' -> valid_session ps'.

(** The executable form: the event is applied if it is allowed. *)
#[export] Instance launch_ok_dec ps p : Decision (launch_ok ps p).
Proof. unfold launch_ok. apply _. Defined.

Definition apply_event (ps : list Process) (e : SessionEvent) : option (list Process) :=
  match e with
  | launch p =>
      if decide (launch_ok ps p)
      then if box_closed p then None else Some (ps ++ [p])
      else None
  | messages i q =>
      match ps !! i with
      | Some p => if alive p then Some (<[i := feed_process q p]> ps) else None
      | None => None
      end
  | close_box i =>
      match ps !! i with
      | Some p => if showing p then Some (<[i := close_process p]> ps) else None
      | None => None
      end
  end.

Fixpoint apply_events (ps : list Process) (es : list SessionEvent) : option (list Process) :=
  match es with
  | [] => Some ps
  | e :: es =>
      match apply_event ps e with
      | Some ps' => apply_events ps' es
      | None => None
      end
  end.

(** ** Counting *)

Lemma count_app f ps1 ps2 : count f (ps1 ++ ps2) = (count f ps1 + count f ps2)%nat.
Proof. apply sum_list_with_app. Qed.

Lemma count_cons f p ps : count f (p :: ps) = ((if f p then 1 else 0) + count f ps)%nat.
Proof. done. Qed.

Lemma count_snoc f ps p : count f (ps ++ [p]) = (count f ps + if f p then 1 else 0)%nat.
Proof. rewrite count_app. unfold count. cbn [sum_list_with]. lia. Qed.

(** Replacing a process by one that [f] holds of only if it held of the
    first does not raise the count. *)
Lemma count_insert f ps i p p' :
  ps !! i = Some p -> (f p' = true -> f p = true) ->
  (count f (<[i := p']> ps) <= count f ps)%nat.
Proof.
  intros Hi Ha. rewrite <- (take_drop_middle ps i p Hi) at 2.
  rewrite insert_take_drop by by eapply lookup_lt_Some.
  rewrite !count_app, !count_cons.
  destruct (f p'); [rewrite Ha by done|]; lia.
Qed.

Lemma count_le f g ps :
  (forall p, f p = true -> g p = true) -> (count f ps <= count g ps)%nat.
Proof.
  intros Hfg. induction ps as [|p ps IH]; [done|]. rewrite !count_cons.
  destruct (f p) eqn:Hf; [rewrite (Hfg p Hf)|destruct (g p)]; lia.
Qed.

(** ** Processes and the mutex *)

Lemma alive_spec p : alive p = true <-> status p = Pumping.
Proof. unfold alive. by rewrite bool_decide_eq_true. Qed.

(** A process in its loop created the mutex. *)
Lemma alive_first p :
  alive p = true -> first_instance (seen p) = true /\ initialized (seen p) = true.
Proof. rewrite alive_spec. unfold status. rewrite WinMain_pumping. naive_solver. Qed.

(** A process that shows the box has made the call: [_tWinMain] has come to
    its last call, the [MessageBox] with the error code, and returns 0 when
    the box is closed. *)
Lemma showing_spec p :
  showing p = true ->
  box_closed p = false /\ status p = Returned 0 /\
  last (calls (WinMain (H:=H) (hinst p)) (seen p) sys_init) = Some (failure_box (seen p)).
Proof.
  unfold showing, status, result, calls. rewrite WinMain_run. cbn zeta.
  intros [[-> ->%negb_true_iff]%andb_prop ->%negb_true_iff]%andb_prop.
  destruct (class_registered _); cbn [fst snd]; by rewrite last_snoc.
Qed.

(** A process that has not ended created the mutex. *)
Lemma live_first p : live p = true -> first_instance (seen p) = true.
Proof.
  unfold live, showing. intros [[? _]%alive_first|Hs]%orb_prop; [done|].
  by apply andb_prop in Hs as [[? _]%andb_prop _].
Qed.

Lemma alive_live p : alive p = true -> live p = true.
Proof. unfold live. by intros ->. Qed.

Lemma holds_mutex_live p : holds_mutex p = live p.
Proof.
  unfold holds_mutex. destruct (live p) eqn:Ha; [|apply andb_false_r].
  apply live_first in Ha. unfold first_instance in Ha.
  apply andb_prop in Ha as [-> _]. done.
Qed.

(** The mutex exists exactly while an instance has not ended. *)
Lemma mutex_exists_instances ps : mutex_exists ps = true <-> (0 < instances ps)%nat.
Proof.
  unfold instances. induction ps as [|p ps IH]; [cbn; split; [done|lia]|].
  rewrite count_cons. cbn [mutex_exists existsb].
  rewrite orb_true_iff, holds_mutex_live. fold (mutex_exists ps). rewrite IH.
  destruct (live p); [split; [lia|by left] | split; [intros [?|?]; [done|lia]|by right]].
Qed.

(** A process launched while the mutex exists is not the first instance;
    one that gets a handle while it does not exist is. *)
Lemma launch_second ps p :
  launch_ok ps p -> mutex_exists ps = true -> first_instance (seen p) = false.
Proof.
  unfold launch_ok, first_instance. intros Hok He.
  destruct (Z.eqb_spec (CreateMutex_result (seen p)) NULL) as [|Hh]; [done|].
  by rewrite (proj2 (Hok Hh) He), Z.eqb_refl.
Qed.

Lemma launch_first ps p :
  launch_ok ps p -> mutex_exists ps = false -> CreateMutex_result (seen p) <> NULL ->
  first_instance (seen p) = true.
Proof.
  unfold launch_ok, first_instance. intros Hok He Hh.
  rewrite (proj2 (Z.eqb_neq _ _) Hh). cbn [negb andb]. apply negb_true_iff, Z.eqb_neq.
  intros Herr. apply (Hok Hh) in Herr. congruence.
Qed.

(** More messages do not bring a process back, and neither does closing its
    box. *)
Lemma alive_feed q p : alive (feed_process q p) = true -> alive p = true.
Proof.
  rewrite !alive_spec. unfold status. rewrite !WinMain_pumping.
  intros (Hf & Hi & Hl). split_and!; [done..|].
  exact (message_loop_app_pumping _ _ q _ _ Hl).
Qed.

Lemma live_feed q p : live (feed_process q p) = true -> live p = true.
Proof.
  unfold live. intros [Ha|Hs]%orb_prop; [by rewrite (alive_feed q p Ha)|].
  apply orb_true_iff. by right.
Qed.

Lemma live_close p : live (close_process p) = true -> live p = true.
Proof.
  unfold live, showing. cbn [close_process box_closed seen negb].
  rewrite andb_false_r, orb_false_r. intros Ha. apply orb_true_iff. by left.
Qed.

(** ** The session *)

(** C27. Mutual exclusion: in every session, however launches, messages and
    the closing of message boxes interleave, at most one process of the
    program has not ended, in its message loop or before the message box of
    a failed start; so at most one instance is in its message loop, and
    every other process has returned. *)
Theorem one_instance_pumps ps :
  valid_session ps -> (running ps <= instances ps <= 1)%nat.
Proof.
  intros Hs. split; [apply count_le, alive_live|].
  induction Hs as [|ps e ps' _ IH Hstep]; [cbn; lia|].
  unfold instances in *. destruct Hstep as [ps p Hok _|ps i p q Hi Ha|ps i p Hi Ha].
  - rewrite count_snoc. destruct (live p) eqn:Hp; [|lia].
    destruct (mutex_exists ps) eqn:He.
    + apply live_first in Hp. by rewrite (launch_second ps p) in Hp.
    + assert (~ (0 < instances ps)%nat) by (rewrite <- mutex_exists_instances; congruence).
      unfold instances in *. lia.
  - etrans; [|exact IH]. eapply count_insert; [done|apply live_feed].
  - etrans; [|exact IH]. eapply count_insert; [done|apply live_close].
Qed.

(** C26. A second instance does nothing: a process launched while an
    instance has not ended (it is in its loop, or its message box is open)
    returns 0 having made no call but [CreateMutex]; it registers no class,
    creates no window, never reads input and never clicks; whatever the state
    of the system [s] it is started in, that of the first instance included,
    it leaves it as it is, and the instance that runs goes on alone. *)
Theorem second_launch_exits ps p s :
  (0 < instances ps)%nat -> launch_ok ps p ->
  WinMain (H:=H) (hinst p) (seen p) s =
    (Returned 0, s, [CreateMutex NULL FALSE APPLICATION_NAME]) /\
  live p = false /\ instances (ps ++ [p]) = instances ps.
Proof.
  intros Hrun Hok. apply mutex_exists_instances in Hrun.
  pose proof (launch_second ps p Hok Hrun) as Hf.
  assert (live p = false) as Hp.
  { apply not_true_is_false. intros ?%live_first. congruence. }
  split; [by apply WinMain_second_instance|]. split; [done|].
  unfold instances. rewrite count_snoc, Hp. lia.
Qed.

(** C28. The mutex is released when the instance ends: in a session in
    which every instance has ended (none was launched, the one that ran has
    returned, or the message box of the one that failed was closed), a
    process that is launched, gets a handle of the mutex and initializes with
    success runs the message loop. *)
Theorem relaunch_after_exit ps p :
  instances ps = 0%nat -> launch_ok ps p ->
  CreateMutex_result (seen p) <> NULL -> initialized (seen p) = true ->
  existsb is_quit (GetMessage_events (seen p)) = false ->
  alive p = true /\ running (ps ++ [p]) = 1%nat.
Proof.
  intros Hrun Hok Hh Hi Hq.
  assert (mutex_exists ps = false) as He.
  { apply not_true_is_false. rewrite mutex_exists_instances. lia. }
  assert (alive p = true) as Hp.
  { apply alive_spec. unfold status.
    apply WinMain_pumps; [exact (launch_first ps p Hok He Hh)|exact Hi|exact Hq]. }
  split; [done|]. unfold running. rewrite count_snoc, Hp.
  pose proof (count_le alive live ps alive_live). unfold instances in Hrun. lia.
Qed.

(** A list of events that [apply_events] accepts is a session. *)
Lemma apply_events_session es : forall ps ps',
  valid_session ps -> apply_events ps es = Some ps' -> valid_session ps'.
Proof.
  induction es as [|e es IH]; intros ps ps' Hs; cbn; [by intros [= <-]|].
  destruct (apply_event ps e) as [ps1|] eqn:He; [|done].
  apply IH. econstructor; [exact Hs|].
  destruct e as [p|i q|i]; cbn in He.
  - case_decide; [|done]. destruct (box_closed p) eqn:Hb; [done|].
    injection He as <-. by constructor.
  - destruct (ps !! i) as [p|] eqn:Hi; [|done].
    destruct (alive p) eqn:Ha; [|done]. injection He as <-. by constructor.
  - destruct (ps !! i) as [p|] eqn:Hi; [|done].
    destruct (showing p) eqn:Ha; [|done]. injection He as <-. by constructor.
Qed.

End session.
