(* ===== verification/Windows.v ===== *)
(** * Windows: a model of the host

    The part of Windows the program acts on: the table of timers, keyed by
    window and timer identifier, the stream of synthesized input and the
    posted quit message.  [win_host_laws] shows that this model satisfies the
    interface of [System.v], so every theorem proved there holds of the
    program running in it.  The rest of the file runs the program in the
    model: the scenarios of the specification, a whole session of
    [_tWinMain], three processes launched one after the other, and the
    instances of the theorems of [System.v], [Refinement.v], [WinMain.v] and
    [Session.v] at concrete runs. *)

From stdpp Require Import base numbers list strings gmap.
From S2P Require Import Prelude Format Win32 Debounce WndProc System Refinement.
From S2P Require Import WinMain Session.

#[local] Open Scope Z_scope.
#[local] Open Scope mbc_scope.

(** ** The host's state and how calls change it *)

Record WinHost : Type := {
  timers : gmap (Z * Z) Z;        (* (window, timer id) to its period *)
  input_stream : list INPUT;      (* input synthesized by SendInput, oldest first *)
  quit_message : option Z         (* the exit code of a posted WM_QUIT *)
}.

Definition WinHost_init : WinHost :=
  {| timers := ∅; input_stream := []; quit_message := None |}.

(** [SetTimer] creates the timer or, if the window already has a timer with
    that identifier, replaces it; when it fails nothing changes. *)
Definition win_SetTimer (ok : bool) (h id e : Z) (x : WinHost) : WinHost :=
  if ok
  then {| timers := <[(h, id) := e]> (timers x); input_stream := input_stream x;
          quit_message := quit_message x |}
  else x.

(** [KillTimer] destroys the timer if there is one. *)
Definition win_KillTimer (h id : Z) (x : WinHost) : WinHost :=
  {| timers := delete (h, id) (timers x); input_stream := input_stream x;
     quit_message := quit_message x |}.

(** [SendInput] inserts the events serially into the input stream. *)
Definition win_SendInput (inputs : list INPUT) (x : WinHost) : WinHost :=
  {| timers := timers x; input_stream := input_stream x ++ inputs;
     quit_message := quit_message x |}.

(** [PostQuitMessage] posts [WM_QUIT] with the exit code. *)
Definition win_PostQuitMessage (n : Z) (x : WinHost) : WinHost :=
  {| timers := timers x; input_stream := input_stream x; quit_message := Some n |}.

Definition win_apply (ok : bool) (c : OsCall) (x : WinHost) : WinHost :=
  match c with
  | SetTimer h id e => win_SetTimer ok h id e x
  | KillTimer h id => win_KillTimer h id x
  | SendInput inputs => win_SendInput inputs x
  | PostQuitMessage n => win_PostQuitMessage n x
  | DefWindowProc _ _ _ _ => x
  end.

Definition win_timer_pending (h id : Z) (x : WinHost) : bool :=
  bool_decide (is_Some (timers x !! (h, id))).

#[export] Instance win_host : Host WinHost := {|
  host_init := WinHost_init;
  host_apply := win_apply;
  timer_pending := win_timer_pending;
  sent_input := input_stream;
  quit_code := quit_message
|}.

(** ** Sample deliveries (used by the scenarios and the witnesses) *)

(** The program's window in the samples. *)
Definition sample_hwnd : HWND := 1001.

Definition sample_msg (message : UINT) (wp lp : Z) : MSG.t :=
  {| MSG.hwnd := sample_hwnd; MSG.message := message; MSG.wParam := wp; MSG.lParam := lp;
     MSG.time := 0; MSG.pt := (0, 0) |}.

(** A raw-input message carrying a relative mouse report. *)
Definition input_delivery (buttons : USHORT) (dx dy : LONG) : Delivery :=
  {| msg := sample_msg WM_INPUT 0 77;
     answers := sample_os (sample_report 0 buttons dx dy);
     SetTimer_ok := true |}.

(** The click timer's message. *)
Definition timer_delivery : Delivery :=
  {| msg := sample_msg WM_TIMER TIMER_EVENT_ID 0;
     answers := sample_os (sample_report 0 0 0 0);
     SetTimer_ok := true |}.

(** ** The model satisfies the interface *)

Lemma win_timer_pending_insert {V} (h id h' id' : Z) (e : V) (m : gmap (Z * Z) V) :
  bool_decide (is_Some (<[(h, id) := e]> m !! (h', id'))) =
    bool_decide (h = h' /\ id = id') || bool_decide (is_Some (m !! (h', id'))).
Proof.
  destruct (decide ((h, id) = (h', id'))) as [[= <- <-]|Hne].
  - rewrite lookup_insert_eq, (bool_decide_eq_true_2 (h = h /\ id = id)) by done.
    by apply bool_decide_eq_true_2.
  - rewrite lookup_insert_ne by done.
    by rewrite (bool_decide_eq_false_2 (h = h' /\ id = id')) by naive_solver.
Qed.

Lemma win_timer_pending_delete {V} (h id h' id' : Z) (m : gmap (Z * Z) V) :
  bool_decide (is_Some (delete (h, id) m !! (h', id'))) =
    negb (bool_decide (h = h' /\ id = id')) && bool_decide (is_Some (m !! (h', id'))).
Proof.
  destruct (decide ((h, id) = (h', id'))) as [[= <- <-]|Hne].
  - rewrite lookup_delete_eq, (bool_decide_eq_true_2 (h = h /\ id = id)) by done.
    cbn [negb andb]. apply bool_decide_eq_false_2. by intros [? ?].
  - rewrite lookup_delete_ne by done.
    by rewrite (bool_decide_eq_false_2 (h = h' /\ id = id')) by naive_solver.
Qed.

#[export] Instance win_host_laws : HostLaws WinHost.
Proof.
  split; try done.
  - intros [] h id e h' id' x; cbn; unfold win_timer_pending; cbn; [|done].
    apply win_timer_pending_insert.
  - intros ok h id h' id' x. apply win_timer_pending_delete.
  - by intros ok [] h id x.
  - intros ok [h id e| | l | |] x Hc; try done; [by destruct ok | by destruct (Hc l)].
  - intros ok [h id e| | | n |] x Hc; try done; [by destruct ok | by destruct (Hc n)].
Qed.

(** ** Timers of the model *)

(** Arming twice keeps one timer, with the later period. *)
Lemma win_SetTimer_replaces h id e1 e2 x :
  win_SetTimer true h id e2 (win_SetTimer true h id e1 x) = win_SetTimer true h id e2 x.
Proof. unfold win_SetTimer. cbn. by rewrite insert_insert_eq. Qed.

(** Cancelling a timer that is not pending changes nothing. *)
Lemma win_KillTimer_idle h id x :
  win_timer_pending h id x = false -> win_KillTimer h id x = x.
Proof.
  unfold win_timer_pending, win_KillTimer. intros Hp%bool_decide_eq_false.
  destruct x as [t i q]. cbn in *. f_equal. apply delete_id.
  by apply eq_None_not_Some.
Qed.

Lemma win_KillTimer_idemp h id x :
  win_KillTimer h id (win_KillTimer h id x) = win_KillTimer h id x.
Proof.
  apply win_KillTimer_idle. unfold win_timer_pending, win_KillTimer. cbn.
  rewrite lookup_delete_eq. apply bool_decide_eq_false_2. by intros [? ?].
Qed.

(** Never two timers: in every reachable state of the program in this
    host the timer table is empty or holds exactly the click timer of the
    program's window.  Re-scheduling replaces the outstanding request. *)
Theorem at_most_one_timer hwnd (s : Sys WinHost) :
  reachable hwnd s ->
  timers (host s) = ∅ \/ exists e, timers (host s) = {[ (hwnd, TIMER_EVENT_ID) := e ]}.
Proof.
  intros (_ & Honly & _)%reachable_inv.
  destruct (timers (host s) !! (hwnd, TIMER_EVENT_ID)) as [e|] eqn:He.
  - right. exists e. apply map_eq. intros [h id].
    destruct (decide ((hwnd, TIMER_EVENT_ID) = (h, id))) as [<-|Hne].
    + by rewrite lookup_singleton_eq.
    + rewrite lookup_singleton_ne by done.
      destruct (timers (host s) !! (h, id)) eqn:Hl; [|done].
      destruct (Honly h id); [|congruence].
      cbn. unfold win_timer_pending. rewrite Hl. by apply bool_decide_eq_true_2.
  - left. apply map_empty. intros [h id].
    destruct (timers (host s) !! (h, id)) eqn:Hl; [|done].
    destruct (Honly h id) as [-> ->]; [|congruence].
    cbn. unfold win_timer_pending. rewrite Hl. by apply bool_decide_eq_true_2.
Qed.

(** ** Scenarios *)

(** A run that passes the executable validity check leads to a reachable
    state. *)
Lemma checked_run_reachable hwnd ds :
  bool_decide (valid_run hwnd ds (sys_init (H:=WinHost))) = true ->
  reachable hwnd (run ds sys_init).
Proof. intros Hv%bool_decide_eq_true. apply run_reachable; [constructor | done]. Qed.

(** The five scenarios of the specification, run on the model.
    (1) A move of (3, 0) with no button held schedules the timer with the
    double-click time.  (2) Two moves of (1, 0) reach the threshold without
    exceeding it: no timer; a third one exceeds it: timer.  (3) The timer is
    scheduled, then button 1 goes down: the timer is cancelled, the
    accumulation reset, and nothing is injected.  (4) The timer is scheduled
    and fires: exactly one down/up pair is injected and the engine is reset.
    (5) Button 1 down then up with no motion: nothing is accumulated and no
    timer is scheduled although no button is held any more. *)
Example spec_scenarios :
  let go ds := run ds (sys_init (H:=WinHost)) in
  let s1 := go [input_delivery 0 3 0] in
  let s2 := go [input_delivery 0 1 0; input_delivery 0 1 0] in
  let s2' := deliver (input_delivery 0 1 0) s2 in
  let s3 := go [input_delivery 0 3 0; input_delivery RI_MOUSE_BUTTON_1_DOWN 0 0] in
  let s4 := go [input_delivery 0 3 0; timer_delivery] in
  let s5 := go [input_delivery RI_MOUSE_BUTTON_1_DOWN 0 0;
                input_delivery RI_MOUSE_BUTTON_1_UP 0 0] in
  (timers (host s1) !! (sample_hwnd, TIMER_EVENT_ID) = Some 500 /\
   fOkToClick (statics s1) = true) /\
  (lLastClickDeltaX (statics s2) = 2 /\ click_timer_pending sample_hwnd s2 = false /\
   lLastClickDeltaX (statics s2') = 3 /\ click_timer_pending sample_hwnd s2' = true) /\
  (timers (host s3) = ∅ /\
   statics s3 = update_buttons RI_MOUSE_BUTTON_1_DOWN WndStatics_init /\
   input_stream (host s3) = []) /\
  (input_stream (host s4) = pInputs /\ statics s4 = WndStatics_init /\
   timers (host s4) = ∅) /\
  (statics s5 = WndStatics_init /\ timers (host s5) = ∅).
Proof. by vm_compute. Qed.

(** ** Witnesses of the system's theorems, in this host *)

(** A run that arms the timer, and one that clicks. *)
Definition armed_run : list Delivery := [input_delivery 0 3 0].
Definition click_run : list Delivery :=
  [input_delivery 0 3 0; timer_delivery; input_delivery 0 0 (-4); timer_delivery].

Lemma timer_implies_idle_witness :
  usMouseButtonsDown (statics (run armed_run (sys_init (H:=WinHost)))) = 0 /\
  fOkToClick (statics (run armed_run (sys_init (H:=WinHost)))) = true.
Proof.
  apply (timer_implies_idle sample_hwnd); [apply checked_run_reachable; by vm_compute | by vm_compute].
Defined.

Lemma only_click_timer_witness : sample_hwnd = sample_hwnd /\ 1 = TIMER_EVENT_ID.
Proof.
  apply (only_click_timer sample_hwnd (run armed_run (sys_init (H:=WinHost))));
    [apply checked_run_reachable; by vm_compute | by vm_compute].
Defined.

Lemma unarmed_within_threshold_witness :
  let s := run [input_delivery 0 1 0; input_delivery 0 1 (-2)] (sys_init (H:=WinHost)) in
  within_threshold (lLastClickDeltaX (statics s)) /\
  within_threshold (lLastClickDeltaY (statics s)).
Proof.
  apply (unarmed_within_threshold (H:=WinHost)
           [input_delivery 0 1 0; input_delivery 0 1 (-2)]).
  by vm_compute.
Defined.

Lemma reachable_wf_witness : WndStatics_wf (statics (run click_run (sys_init (H:=WinHost)))).
Proof. apply (reachable_wf sample_hwnd). apply checked_run_reachable; by vm_compute. Defined.

Lemma clicks_are_pairs_witness :
  exists n, sent_input (host (run click_run (sys_init (H:=WinHost)))) =
            mjoin (replicate n pInputs).
Proof. apply (clicks_are_pairs sample_hwnd). apply checked_run_reachable; by vm_compute. Defined.

Lemma click_only_when_idle_witness :
  usMouseButtonsDown (statics (run armed_run (sys_init (H:=WinHost)))) = 0 /\
  fOkToClick (statics (run armed_run (sys_init (H:=WinHost)))) = true.
Proof.
  apply (click_only_when_idle sample_hwnd _ timer_delivery);
    [apply checked_run_reachable; by vm_compute | apply (bool_decide_unpack _); by vm_compute | by vm_compute].
Defined.

Lemma one_click_per_arm_witness :
  (count_in_run clicks click_run (sys_init (H:=WinHost))
   + (if click_timer_pending sample_hwnd (run click_run sys_init) then 1 else 0)
   <= count_in_run (arms sample_hwnd) click_run sys_init
      + (if click_timer_pending sample_hwnd (sys_init (H:=WinHost)) then 1 else 0))%nat.
Proof.
  apply (one_click_per_arm sample_hwnd); [apply sys_init_inv | apply (bool_decide_unpack _); by vm_compute].
Defined.

Lemma at_most_one_timer_witness :
  timers (host (run armed_run (sys_init (H:=WinHost)))) = ∅ \/
  exists e, timers (host (run armed_run (sys_init (H:=WinHost)))) =
            {[ (sample_hwnd, TIMER_EVENT_ID) := e ]}.
Proof. apply at_most_one_timer. apply checked_run_reachable; by vm_compute. Defined.

Lemma button_or_wheel_resets_witness :
  let s := run armed_run (sys_init (H:=WinHost)) in
  let d := input_delivery RI_MOUSE_WHEEL 5 5 in
  click_timer_pending sample_hwnd (deliver d s) = false /\
  lLastClickDeltaX (statics (deliver d s)) = 0 /\
  lLastClickDeltaY (statics (deliver d s)) = 0 /\
  fOkToClick (statics (deliver d s)) = false /\
  sent_input (host (deliver d s)) = sent_input (host s).
Proof.
  apply (button_or_wheel_resets sample_hwnd _
           (mouse (sample_report 0 RI_MOUSE_WHEEL 5 5))).
  by vm_compute.
Defined.

Lemma monotonic_arming_witness :
  let ds := [input_delivery 0 1 0; input_delivery 0 1 0; input_delivery 0 1 0] in
  let ms := mouse <$> [sample_report 0 0 1 0; sample_report 0 0 1 0; sample_report 0 0 1 0] in
  click_timer_pending sample_hwnd (run ds (sys_init (H:=WinHost))) = armed_by 0 0 ms /\
  fOkToClick (statics (run ds (sys_init (H:=WinHost)))) = armed_by 0 0 ms.
Proof.
  apply (monotonic_arming sample_hwnd); [repeat constructor | by vm_compute..].
Defined.

(** ** The program in this host *)

(** A message of the window with default handling, as [CreateWindow] sends
    them ([WM_NCCREATE] is 0x81, [WM_CREATE] is 0x01). *)
Definition plain_delivery (message : UINT) : Delivery :=
  {| msg := sample_msg message 0 0;
     answers := sample_os (sample_report 0 0 0 0);
     SetTimer_ok := true |}.

(** The answers of a system on which every step of the start succeeds,
    followed by the events [q] of the message loop. *)
Definition sample_boot (q : list Pumped) : BootAnswers :=
  {| CreateMutex_result := 0x1F4; CreateMutex_error := 0;
     RegisterClass_result := 0xC1A5;
     CreateWindow_result := sample_hwnd;
     CreateWindow_sent := [plain_delivery 0x81; plain_delivery 0x01];
     RegisterRawInputDevices_result := 1;
     failure_error := 0;
     GetMessage_events := q |}.

(** The mutex exists already. *)
Definition second_boot : BootAnswers :=
  {| CreateMutex_result := 0x1F8; CreateMutex_error := ERROR_ALREADY_EXISTS;
     RegisterClass_result := 0xC1A5;
     CreateWindow_result := sample_hwnd; CreateWindow_sent := [];
     RegisterRawInputDevices_result := 1; failure_error := 0;
     GetMessage_events := [] |}.

(** The class cannot be registered; the error code is 1410
    ([ERROR_CLASS_ALREADY_EXISTS]). *)
Definition failing_boot : BootAnswers :=
  {| CreateMutex_result := 0x1F4; CreateMutex_error := 0;
     RegisterClass_result := 0;
     CreateWindow_result := 0; CreateWindow_sent := [];
     RegisterRawInputDevices_result := 0; failure_error := 1410;
     GetMessage_events := [] |}.

(** A session: the mouse moves, the click is injected, a message of another
    window passes by, the window is destroyed, the loop ends. *)
Definition session : list Pumped :=
  [posted (input_delivery 0 3 0); posted timer_delivery;
   posted {| msg := {| MSG.hwnd := 2002; MSG.message := WM_TIMER; MSG.wParam := 9;
                       MSG.lParam := 0; MSG.time := 0; MSG.pt := (0, 0) |};
             answers := sample_os (sample_report 0 0 0 0); SetTimer_ok := true |};
   sent (plain_delivery WM_DESTROY);
   quit (sample_msg WM_QUIT 0 0)].

(** The session from start to end: the program returns 0 having injected one
    click, made four calls at the start and left no timer behind. *)
Example scenario_session :
  let r := WinMain (H:=WinHost) 0x400000 (sample_boot session) sys_init in
  r.1.1 = Returned 0 /\ input_stream (host r.1.2) = pInputs /\
  timers (host r.1.2) = ∅ /\ quit_message (host r.1.2) = Some 0 /\
  length r.2 = 4%nat.
Proof. by vm_compute. Qed.

(** The failure path shows the error code in decimal. *)
Example scenario_failure :
  let r := WinMain (H:=WinHost) 0x400000 failing_boot sys_init in
  r.1.1 = Returned 0 /\
  last r.2 = Some (MessageBox NULL
                     (TEXT "Initialization failure. GetLastError=1410" ++ CRLF)
                     APPLICATION_NAME 0x10).
Proof. by vm_compute. Qed.

(** One arming, two clicks: when [GetMessage] fails right after the timer
    message, the loop dispatches the timer message again and the window
    procedure clicks again, although no timer is pending. *)
Example failed_GetMessage_clicks_twice :
  let q := [posted (input_delivery 0 3 0); posted timer_delivery;
            failed (sample_os (sample_report 0 0 0 0)) true] in
  let r := WinMain (H:=WinHost) 0x400000 (sample_boot q) sys_init in
  r.1.1 = Pumping /\ input_stream (host r.1.2) = pInputs ++ pInputs /\
  count_in_run (arms sample_hwnd) (deliveries (sample_boot q)) (sys_init (H:=WinHost)) = 1%nat.
Proof. by vm_compute. Qed.

(** ** Several instances *)

(** Four processes: the first starts and reads a move; the second is
    launched while the first runs; the first then clicks, is closed and
    returns; the third cannot register its class and shows the message box;
    the second is launched again while the box is open; the box is closed;
    the fourth is launched after that. *)
Definition first_process : Process :=
  {| hinst := 0x400000; seen := sample_boot [posted (input_delivery 0 3 0)];
     box_closed := false |}.

Definition second_process : Process :=
  {| hinst := 0x410000; seen := second_boot; box_closed := false |}.

Definition failing_process : Process :=
  {| hinst := 0x430000; seen := failing_boot; box_closed := false |}.

Definition third_process : Process :=
  {| hinst := 0x420000; seen := sample_boot []; box_closed := false |}.

Definition closing : list Pumped :=
  [posted timer_delivery; sent (plain_delivery WM_DESTROY); quit (sample_msg WM_QUIT 0 0)].

Definition sample_events : list SessionEvent :=
  [launch first_process; launch second_process; messages 0 closing;
   launch failing_process; launch second_process; close_box 2;
   launch third_process].

Definition sample_processes : list Process :=
  [feed_process closing first_process; second_process;
   close_process failing_process; second_process; third_process].

Lemma sample_session : valid_session (H:=WinHost) sample_processes.
Proof. apply (apply_events_session sample_events [] _ session_start). by vm_compute. Qed.

(** The processes, one after the other: while the first runs the second
    returns at once; the failing one waits before its message box, and holds
    the mutex while it does; in the end all have ended but the last, which
    runs; a process that would run beside the first, or while the box is
    open, is not an event of any session, and neither is the closing of a
    box that is not shown. *)
Example scenario_instances :
  stage (H:=WinHost) <$> [first_process; second_process; failing_process] =
    [in_loop; ended 0; in_box] /\
  mutex_exists (H:=WinHost) [failing_process] = true /\
  mutex_exists (H:=WinHost) [close_process failing_process] = false /\
  stage (H:=WinHost) <$> sample_processes = [ended 0; ended 0; ended 0; ended 0; in_loop] /\
  apply_events (H:=WinHost) [] [launch first_process; launch third_process] = None /\
  apply_events (H:=WinHost) [] [launch failing_process; launch third_process] = None /\
  apply_events (H:=WinHost) [] [launch first_process; close_box 0] = None.
Proof. split_and!; by vm_compute. Qed.

Lemma one_instance_pumps_witness :
  (running (H:=WinHost) sample_processes <= instances (H:=WinHost) sample_processes <= 1)%nat.
Proof. apply one_instance_pumps, sample_session. Defined.

Lemma second_launch_exits_witness :
  let s := final (WinMain (H:=WinHost) (hinst first_process)) (seen first_process) sys_init in
  (WinMain (H:=WinHost) (hinst second_process) (seen second_process) s =
     (Returned 0, s, [CreateMutex NULL FALSE APPLICATION_NAME]) /\
   live (H:=WinHost) second_process = false /\
   instances (H:=WinHost) ([first_process] ++ [second_process]) =
     instances (H:=WinHost) [first_process]) /\
  instances (H:=WinHost) ([failing_process] ++ [second_process]) =
    instances (H:=WinHost) [failing_process].
Proof.
  split.
  - apply (second_launch_exits [first_process] second_process).
    + vm_compute. lia.
    + by apply (bool_decide_unpack (launch_ok _ _)); vm_compute.
  - apply (second_launch_exits [failing_process] second_process sys_init).
    + vm_compute. lia.
    + by apply (bool_decide_unpack (launch_ok _ _)); vm_compute.
Defined.

Lemma relaunch_after_exit_witness :
  alive (H:=WinHost) third_process = true /\
  running (H:=WinHost)
    ([feed_process closing first_process; second_process; close_process failing_process]
     ++ [third_process]) = 1%nat.
Proof.
  apply relaunch_after_exit; [by vm_compute| |done|by vm_compute..].
  by apply (bool_decide_unpack (launch_ok _ _)); vm_compute.
Defined.

Lemma WinMain_failure_reported_witness :
  result (WinMain (H:=WinHost) 0x400000) failing_boot sys_init = Returned 0 /\
  last (calls (WinMain (H:=WinHost) 0x400000) failing_boot sys_init) =
    Some (failure_box failing_boot).
Proof. apply WinMain_failure_reported; by vm_compute. Defined.

Lemma WinMain_started_witness :
  let r := message_loop sample_hwnd session msg_zero
             (run (CreateWindow_sent (sample_boot session)) (sys_init (H:=WinHost))) in
  WinMain 0x400000 (sample_boot session) sys_init =
    (r.1, r.2, start_calls 0x400000 sample_hwnd).
Proof. apply (WinMain_started (H:=WinHost)); by vm_compute. Defined.

Lemma WinMain_invariant_witness :
  sys_inv sample_hwnd (run (take 3 (deliveries (sample_boot session))) (sys_init (H:=WinHost))) /\
  final (WinMain 0x400000) (sample_boot session) sys_init =
    run (drop 3 (deliveries (sample_boot session)))
      (run (take 3 (deliveries (sample_boot session))) sys_init).
Proof.
  apply (WinMain_invariant (H:=WinHost) 0x400000 (sample_boot session)
           (take 3 (deliveries (sample_boot session)))
           (drop 3 (deliveries (sample_boot session))));
    [apply (bool_decide_unpack _); by vm_compute | by rewrite take_drop].
Defined.

Lemma WinMain_exit_code_witness : 0 = 0.
Proof.
  apply (WinMain_exit_code (H:=WinHost) 0x400000 (sample_boot session) 0); by vm_compute.
Defined.

Lemma WinMain_reachable_witness :
  final (WinMain 0x400000) (sample_boot session) sys_init =
    run (deliveries (sample_boot session)) (sys_init (H:=WinHost)) /\
  reachable sample_hwnd (final (WinMain 0x400000) (sample_boot session) (sys_init (H:=WinHost))).
Proof.
  apply (WinMain_reachable (H:=WinHost) 0x400000 (sample_boot session)).
  apply (bool_decide_unpack _); by vm_compute.
Defined.

(** ** The abstract engine on the sample run *)

(** The events of [click_run]: a motion, a timer fire, a motion, a timer
    fire; the engine emits two clicks. *)
Example click_run_events :
  events_of click_run =
    [Debounce.Motion 3 0; Debounce.TimerFire; Debounce.Motion 0 (-4); Debounce.TimerFire] /\
  (Debounce.steps (events_of click_run) Debounce.init).2 = 2%nat.
Proof. by vm_compute. Qed.

Lemma run_refines_witness :
  let r := Debounce.steps (events_of click_run) (abs sample_hwnd sys_init) in
  abs sample_hwnd (run click_run (sys_init (H:=WinHost))) = r.1 /\
  statics (run click_run (sys_init (H:=WinHost))) = statics_of r.1 /\
  sent_input (host (run click_run (sys_init (H:=WinHost)))) =
    sent_input (host (sys_init (H:=WinHost))) ++ mjoin (replicate r.2 pInputs).
Proof.
  apply (run_refines (H:=WinHost) sample_hwnd click_run sys_init);
    [apply sys_init_inv | apply (bool_decide_unpack _); by vm_compute..].
Defined.

Lemma press_release_roundtrip_witness :
  let s := run [input_delivery RI_MOUSE_BUTTON_2_DOWN 0 0] (sys_init (H:=WinHost)) in
  let d1 := input_delivery (RI_MOUSE_BUTTON_1_DOWN .| RI_MOUSE_BUTTON_3_DOWN) 4 0 in
  let d2 := input_delivery (RI_MOUSE_BUTTON_1_UP .| RI_MOUSE_BUTTON_3_UP) 0 1 in
  held_buttons (statics (deliver d1 s)) = held_buttons (statics s) ∪ {[Button1; Button3]} /\
  usMouseButtonsDown (statics (deliver d2 (deliver d1 s))) = RI_MOUSE_BUTTON_2_DOWN.
Proof.
  apply (press_release_roundtrip sample_hwnd _ _
           (mouse (sample_report 0 (RI_MOUSE_BUTTON_1_DOWN .| RI_MOUSE_BUTTON_3_DOWN) 4 0))
           (mouse (sample_report 0 (RI_MOUSE_BUTTON_1_UP .| RI_MOUSE_BUTTON_3_UP) 0 1))
           {[Button1; Button3]});
    try (by vm_compute); by apply (bool_decide_unpack _); vm_compute.
Defined.

Lemma deliver_transition_witness :
  Debounce.transition (abs sample_hwnd (sys_init (H:=WinHost))) (Debounce.Motion 3 0)
    Debounce.ACCUMULATING <->
  Debounce.phase (abs sample_hwnd (deliver (input_delivery 0 3 0) (sys_init (H:=WinHost)))) =
    Debounce.ACCUMULATING.
Proof.
  apply (deliver_transition (H:=WinHost) sample_hwnd (input_delivery 0 3 0));
    [apply sys_init_inv | by vm_compute..].
Defined.

(** The transitions the specification leaves out: a wheel event while
    accumulating leads to [IDLE]; a report with the down-flag and the up-flag
    of the same button leaves it released. *)
Example unlisted_transitions :
  let s := run armed_run (sys_init (H:=WinHost)) in
  let wheel := deliver (input_delivery RI_MOUSE_WHEEL 0 0) s in
  let both := deliver (input_delivery (RI_MOUSE_BUTTON_1_DOWN .| RI_MOUSE_BUTTON_1_UP) 0 0) s in
  Debounce.phase (abs sample_hwnd s) = Debounce.ACCUMULATING /\
  Debounce.phase (abs sample_hwnd wheel) = Debounce.IDLE /\
  Debounce.phase (abs sample_hwnd both) = Debounce.IDLE.
Proof. split_and!; by vm_compute. Qed.

Lemma armed_implies_timer_witness :
  click_timer_pending sample_hwnd (run armed_run (sys_init (H:=WinHost))) =
    (usMouseButtonsDown (statics (run armed_run (sys_init (H:=WinHost)))) =? 0)
    && fOkToClick (statics (run armed_run (sys_init (H:=WinHost)))).
Proof.
  apply (armed_implies_timer (H:=WinHost) sample_hwnd armed_run sys_init);
    [apply sys_init_inv | by vm_compute | apply (bool_decide_unpack _); by vm_compute..].
Defined.

(** ** What the assumption on timer messages is for *)

(** A timer message for a timer that is not pending (one posted by another
    program, say), while button 1 is held. *)
Definition stray_run : list Delivery :=
  [input_delivery RI_MOUSE_BUTTON_1_DOWN 0 0; timer_delivery].

(** The window procedure clicks on every [WM_TIMER] it is handed.  A timer
    message that arrives while a button is held and no timer is pending is
    not a delivery the host may make, and it injects a click in the middle of
    the drag. *)
Example stray_timer_clicks_during_drag :
  let s := run stray_run (sys_init (H:=WinHost)) in
  bool_decide (valid_run sample_hwnd stray_run (sys_init (H:=WinHost))) = false /\
  button_held Button1 (statics s) = true /\
  input_stream (host s) = pInputs.
Proof. by vm_compute. Qed.

Lemma WM_TIMER_always_clicks_witness :
  let s := run [input_delivery RI_MOUSE_BUTTON_1_DOWN 0 0] (sys_init (H:=WinHost)) in
  clicks (H:=WinHost) timer_delivery s = true /\
  sent_input (host (deliver timer_delivery s)) = sent_input (host s) ++ pInputs /\
  usMouseButtonsDown (statics (deliver timer_delivery s)) = usMouseButtonsDown (statics s).
Proof. by apply (WM_TIMER_always_clicks sample_hwnd). Defined.

(** ** A [SetTimer] that fails *)

(** The move of (3, 0) exceeds the threshold but [SetTimer] fails: clicking
    is enabled, no button is held and no timer is pending, a state that is
    none of the three states of the specification's machine.  The next
    report, a move of (0, 0), sets the timer. *)
Example failed_SetTimer_retried :
  let failing := {| msg := sample_msg WM_INPUT 0 77;
                    answers := sample_os (sample_report 0 0 3 0);
                    SetTimer_ok := false |} in
  let s1 := deliver failing (sys_init (H:=WinHost)) in
  let s2 := deliver (input_delivery 0 0 0) s1 in
  fOkToClick (statics s1) = true /\ usMouseButtonsDown (statics s1) = 0 /\
  click_timer_pending sample_hwnd s1 = false /\
  ~ Debounce.inv (abs sample_hwnd s1) /\
  click_timer_pending sample_hwnd s2 = true.
Proof. split_and!; by vm_compute. Qed.

(** ** A report that is dropped *)

(** Button 1 goes down; the report of its release is dropped, because
    [_malloca] has no memory for it; the mouse then moves by (3, 0) and
    rests.  The button is still recorded as held, no timer is set, and no
    click comes until the button is released again. *)
Example dropped_release_blocks_clicks :
  let no_memory :=
    {| GetRawInputData_size := fun _ => (0, 48); malloca := fun _ => false;
       GetRawInputData_data := fun _ n => (n, sample_report 0 RI_MOUSE_BUTTON_1_UP 0 0);
       GetDoubleClickTime := 500; DefWindowProc_result := fun _ _ _ _ => 0 |} in
  let dropped := {| msg := sample_msg WM_INPUT 0 77; answers := no_memory;
                    SetTimer_ok := true |} in
  let s := run [input_delivery RI_MOUSE_BUTTON_1_DOWN 0 0; dropped; input_delivery 0 3 0]
             (sys_init (H:=WinHost)) in
  button_held Button1 (statics s) = true /\ fOkToClick (statics s) = true /\
  click_timer_pending sample_hwnd s = false /\
  click_timer_pending sample_hwnd
    (run [input_delivery RI_MOUSE_BUTTON_1_UP 0 0; input_delivery 0 3 0] s) = true.
Proof. split_and!; by vm_compute. Qed.
