(* ===== verification/Buffer.v ===== *)
(** * Buffer: the window procedure and the memory it uses

    [WndProc.v] models [WndProc] by what it computes from the answers of the
    system: the report [GetRawInputData] yields, if it yields one.  The code
    gets the report through a buffer (lines 50-110): it asks for the size,
    allocates with [_malloca], has [GetRawInputData] fill the buffer, reads
    the report from it, and frees it with [_freea] on every path on which it
    was allocated.  This file writes [WndProc] as an interaction tree over
    all the calls it makes, these included, and interprets them on a memory
    of buffers, which records a fault when a call writes outside
    a buffer, when the program reads a buffer that was not filled, and when
    it frees what is not allocated.

    [WndProc_tree_run] shows that the tree computes what the function of
    [WndProc.v] computes (result, statics, calls in order), that no fault
    occurs, and that the memory after the call is the memory before it: the
    buffer is released on every path.  [run_tree_run] is the same for
    every sequence of messages: a run of the program, however long, leaves no
    buffer behind. *)

From ITree Require Import ITree ITreeFacts Events.State Events.StateFacts.
From stdpp Require Import base numbers list gmap.
From S2P Require Import Prelude Win32 WndProc Interp System Windows.

#[local] Open Scope Z_scope.
#[local] Open Scope tree_scope.

Abbreviation LPVOID := Z (only parsing).

(** ** The calls of the window procedure *)

(** [GetRawInputData(hRawInput, uiCommand, pData, &cbSize, ...)] answers
    with its return value and what it leaves in [cbSize]; [ReadBuffer] is the
    program reading the report through [pRawInput]; the calls that change the
    system are those of [OsCall]. *)
Variant wndE : Type -> Type :=
| GetRawInputData (hRawInput : LPARAM) (uiCommand : UINT) (pData : LPVOID) (cbSize : UINT)
  : wndE (UINT * UINT)
| _malloca (size : UINT) : wndE LPVOID
| ReadBuffer (pRawInput : LPVOID) : wndE RAWINPUT
| _freea (pData : LPVOID) : wndE unit
| DoubleClickTime : wndE UINT
| Os (c : OsCall) : wndE LRESULT.

(** ** The window procedure *)

(** Lines 83-88. *)
Definition on_mouse_move_tree (hWnd : HWND) (s : WndStatics) : itree wndE WndStatics :=
  if (usMouseButtonsDown s =? 0) && fOkToClick s then
    uElapse <- ITree.trigger DoubleClickTime ;;
    ITree.trigger (Os (SetTimer hWnd TIMER_EVENT_ID uElapse)) ;;
    Ret s
  else Ret s.

(** Lines 92-102. *)
Definition on_button_or_wheel_tree (hWnd : HWND) (usButtonFlags : UINT) (s : WndStatics)
  : itree wndE WndStatics :=
  ITree.trigger (Os (KillTimer hWnd TIMER_EVENT_ID)) ;;
  Ret (reset_click (update_buttons usButtonFlags s)).

(** Lines 69-103. *)
Definition on_relative_mouse_tree (hWnd : HWND) (m : RAWMOUSE) (s : WndStatics)
  : itree wndE WndStatics :=
  let s := update_deltas m s in
  if is_mouse_move (usButtonFlags m)
  then on_mouse_move_tree hWnd s
  else on_button_or_wheel_tree hWnd (usButtonFlags m) s.

(** Lines 61-105: the report is read from the buffer. *)
Definition on_raw_input_tree (hWnd : HWND) (pData : LPVOID) (s : WndStatics)
  : itree wndE WndStatics :=
  r <- ITree.trigger (ReadBuffer pData) ;;
  if dwType (header r) =? RIM_TYPEMOUSE then
    if (usFlags (mouse r) .& MOUSE_MOVE_ABSOLUTE)%mbc =? 0
    then on_relative_mouse_tree hWnd (mouse r) s
    else Ret s
  else Ret s.

(** Lines 48-112.  The comparison of line 59 is evaluated from left to
    right: [cbSize] is what the size query left in it. *)
Definition on_WM_INPUT_tree (hWnd : HWND) (lParam : LPARAM) (s : WndStatics)
  : itree wndE WndStatics :=
  query <- ITree.trigger (GetRawInputData lParam RID_INPUT NULL 0) ;;
  let cbSize := query.2 in
  if query.1 =? 0 then
    pData <- ITree.trigger (_malloca cbSize) ;;
    if negb (pData =? NULL) then
      read <- ITree.trigger (GetRawInputData lParam RID_INPUT pData cbSize) ;;
      s' <- (if cbSize =? read.1 then on_raw_input_tree hWnd pData s else Ret s) ;;
      ITree.trigger (_freea pData) ;;
      Ret s'
    else Ret s
  else Ret s.

(** Lines 114-130. *)
Definition on_WM_TIMER_tree (hWnd : HWND) (s : WndStatics) : itree wndE WndStatics :=
  ITree.trigger (Os (KillTimer hWnd TIMER_EVENT_ID)) ;;
  ITree.trigger (Os (SendInput pInputs)) ;;
  Ret (reset_click s).

(** Lines 38-141: the result and the statics after the call. *)
Definition WndProc_tree (hWnd : HWND) (message : UINT) (wParam : WPARAM) (lParam : LPARAM)
    (s : WndStatics) : itree wndE (LRESULT * WndStatics) :=
  if message =? WM_INPUT then s' <- on_WM_INPUT_tree hWnd lParam s ;; Ret (0, s')
  else if message =? WM_TIMER then s' <- on_WM_TIMER_tree hWnd s ;; Ret (0, s')
  else if message =? WM_DESTROY then ITree.trigger (Os (PostQuitMessage 0)) ;; Ret (0, s)
  else
    r <- ITree.trigger (Os (DefWindowProc hWnd message wParam lParam)) ;;
    Ret (r, s).

(** ** The memory *)

(** A buffer: its size, and the report in it once it was filled. *)
Record Block : Set := {
  size : UINT;
  content : option RAWINPUT
}.

Inductive Fault : Set :=
| write_outside (pData : LPVOID) (cbSize : UINT)
| read_unfilled (pRawInput : LPVOID)
| free_unallocated (pData : LPVOID).

#[export] Instance Fault_eq_dec : EqDecision Fault.
Proof. solve_decision. Defined.

(** The buffers that are allocated, the faults so far, and the calls that
    changed the system, in order. *)
Record Memory : Type := {
  buffers : gmap Z Block;
  faults : list Fault;
  oscalls : list OsCall
}.

(** The address of the next buffer: not [NULL], and not one in use. *)
Definition fresh_pointer (m : Memory) : LPVOID := fresh ({[NULL]} ∪ dom (buffers m)).

Definition fault (f : Fault) (m : Memory) : Memory :=
  {| buffers := buffers m; faults := faults m ++ [f]; oscalls := oscalls m |}.

Definition store (p : LPVOID) (b : Block) (m : Memory) : Memory :=
  {| buffers := <[p := b]> (buffers m); faults := faults m; oscalls := oscalls m |}.

(** [_malloca(n)] that succeeds. *)
Definition allocate (n : UINT) (m : Memory) : Memory :=
  store (fresh_pointer m) {| size := n; content := None |} m.

(** [GetRawInputData] writes at most [n] bytes at [p]: the buffer must be
    allocated and hold [n] bytes; it then holds the report [c], if the call
    delivered one. *)
Definition fill (p : LPVOID) (n : UINT) (c : option RAWINPUT) (m : Memory) : Memory :=
  match buffers m !! p with
  | Some b =>
      if n <=? size b then store p {| size := size b; content := c |} m
      else fault (write_outside p n) m
  | None => fault (write_outside p n) m
  end.

(** The report in the buffer at [p]; a report of zeros stands for what is
    read from a buffer that was not filled. *)
Definition null_report : RAWINPUT :=
  {| header := {| dwType := 0; dwSize := 0; hDevice := 0; wParam := 0 |};
     mouse := {| usFlags := 0; usButtonFlags := 0; usButtonData := 0; ulRawButtons := 0;
                 lLastX := 0; lLastY := 0; ulExtraInformation := 0 |} |}.

Definition read_buffer (p : LPVOID) (m : Memory) : Memory * RAWINPUT :=
  match buffers m !! p with
  | Some {| content := Some r |} => (m, r)
  | _ => (fault (read_unfilled p) m, null_report)
  end.

(** [_freea(p)]: nothing for [NULL]; the buffer must be allocated. *)
Definition release (p : LPVOID) (m : Memory) : Memory :=
  if p =? NULL then m
  else match buffers m !! p with
       | Some _ => {| buffers := delete p (buffers m); faults := faults m;
                      oscalls := oscalls m |}
       | None => fault (free_unallocated p) m
       end.

(** The calls [cs] were made. *)
Definition after (cs : list OsCall) (m : Memory) : Memory :=
  {| buffers := buffers m; faults := faults m; oscalls := oscalls m ++ cs |}.

(** The meaning of the calls, over the answers of the system.  The
    answers are those to the command [RID_INPUT]; another command is an
    error here.  With [pData = NULL] [GetRawInputData] is the size query;
    otherwise it fills the buffer, with a report when it returns the size it
    was asked for.  Of the calls that change the system only [DefWindowProc]
    has a result the program uses. *)
Definition wnd_handle (os : OsAnswers) : wndE ~> Monads.stateT Memory (itree void1) :=
  fun _ e m =>
    match e with
    | GetRawInputData h uiCommand pData n =>
        if negb (uiCommand =? RID_INPUT) then Ret (m, (UINT_MAX, n))
        else if pData =? NULL then Ret (m, GetRawInputData_size os h)
        else
          let r := GetRawInputData_data os h n in
          Ret (fill pData n (if n =? r.1 then Some r.2 else None) m, (r.1, n))
    | _malloca n =>
        if malloca os n then Ret (allocate n m, fresh_pointer m) else Ret (m, NULL)
    | ReadBuffer p => Ret (read_buffer p m)
    | _freea p => Ret (release p m, tt)
    | DoubleClickTime => Ret (m, GetDoubleClickTime os)
    | Os c =>
        Ret (after [c] m,
             match c with
             | DefWindowProc hWnd Msg wParam lParam =>
                 DefWindowProc_result os hWnd Msg wParam lParam
             | _ => 0
             end)
    end.

(** ** The buffer *)

Lemma fresh_pointer_spec m :
  fresh_pointer m <> NULL /\ buffers m !! fresh_pointer m = None.
Proof.
  pose proof (is_fresh ({[NULL]} ∪ dom (buffers m))) as Hf. fold (fresh_pointer m) in Hf.
  split; [set_solver|]. apply not_elem_of_dom. set_solver.
Qed.

(** A buffer that was allocated can be filled within its size. *)
Lemma fill_store p n c b m :
  n <= size b ->
  fill p n c (store p b m) = store p {| size := size b; content := c |} (store p b m).
Proof.
  intros Hn. unfold fill. cbn [store buffers]. rewrite lookup_insert_eq.
  by rewrite (proj2 (Z.leb_le _ _) Hn).
Qed.

(** A buffer that was filled with a report is read without fault. *)
Lemma read_buffer_store p n r m :
  read_buffer p (store p {| size := n; content := Some r |} m) =
    (store p {| size := n; content := Some r |} m, r).
Proof. unfold read_buffer. cbn [store buffers]. by rewrite lookup_insert_eq. Qed.

(** Calls that change the system leave the buffers alone. *)
Lemma after_nil m : after [] m = m.
Proof. unfold after. rewrite app_nil_r. by destruct m. Qed.

Lemma after_after cs1 cs2 m : after cs2 (after cs1 m) = after (cs1 ++ cs2) m.
Proof. unfold after. cbn. by rewrite app_assoc. Qed.

(** Releasing the buffer that was allocated last gives the memory back,
    whatever calls were made meanwhile. *)
Lemma release_buffer cs b1 b2 m :
  let p := fresh_pointer m in
  release p (after cs (store p b2 (store p b1 m))) = after cs m.
Proof.
  cbn zeta. destruct (fresh_pointer_spec m) as [Hp Hm]. unfold release.
  rewrite (proj2 (Z.eqb_neq _ _) Hp). cbn [after store buffers faults oscalls].
  by rewrite lookup_insert_eq, !delete_insert_eq, delete_id.
Qed.

Lemma release_store b1 b2 m :
  let p := fresh_pointer m in release p (store p b2 (store p b1 m)) = m.
Proof. cbn zeta. rewrite <- (after_nil (store _ _ _)), release_buffer. apply after_nil. Qed.

(** ** The window procedure *)

(** Interprets the events of the tree up to the next choice. *)
Ltac tree_run :=
  repeat first
    [ tree_step
    | rewrite after_after
    | rewrite Z.eqb_refl
    | rewrite read_buffer_store
    | rewrite release_buffer
    | rewrite release_store
    | progress cbn [wnd_handle fst snd negb app] ].

(** The function made no call on this path. *)
Ltac tree_end := tree_run; unfold act_ret; cbn [fst snd]; rewrite ?after_nil; reflexivity.

Section handlers.
Context (hWnd : HWND) (os : OsAnswers).

(** A report of a relative mouse, in the tree and in the function. *)
Lemma on_relative_mouse_tree_run mo s m :
  interp_state (wnd_handle os) (on_relative_mouse_tree hWnd mo s) m ≈
  Ret (after (on_relative_mouse hWnd mo os s).2 m, (on_relative_mouse hWnd mo os s).1.2).
Proof.
  rewrite on_relative_mouse_run. unfold on_relative_mouse_tree. cbn zeta.
  destruct (is_mouse_move _).
  - rewrite on_mouse_move_run. unfold on_mouse_move_tree.
    destruct (_ && _); tree_run; by rewrite ?after_nil.
  - rewrite on_button_or_wheel_run. unfold on_button_or_wheel_tree. by tree_run.
Qed.

(** The buffer from [_malloca] to [_freea]: the report is handled as the
    function handles it, and the memory is what it was. *)
Lemma on_WM_INPUT_tree_run lParam s m :
  interp_state (wnd_handle os) (on_WM_INPUT_tree hWnd lParam s) m ≈
  Ret (after (on_WM_INPUT hWnd lParam os s).2 m, (on_WM_INPUT hWnd lParam os s).1.2).
Proof.
  unfold on_WM_INPUT_tree, on_WM_INPUT, on_raw_input. rewrite ask_bind. cbn zeta.
  destruct (fresh_pointer_spec m) as [Hp%Z.eqb_neq _].
  tree_run. destruct (_ =? 0); [|tree_end].
  tree_run. destruct (malloca os _); [|tree_end].
  tree_run. rewrite Hp. tree_run. rewrite Hp. unfold allocate. rewrite fill_store by done.
  clear Hp. cbn [size]. tree_run. destruct (_ =? _); [|tree_end].
  unfold on_raw_input_tree. tree_run.
  destruct (dwType _ =? _); [|tree_end].
  destruct (_ =? 0); [|tree_end].
  rewrite on_relative_mouse_tree_run. tree_run. reflexivity.
Qed.

End handlers.

(** The window procedure with its buffer: the tree returns what the
    function computes, with its calls, without a fault and on the memory it
    started on. *)
Lemma WndProc_tree_run hWnd message wParam lParam os s m :
  interp_state (wnd_handle os) (WndProc_tree hWnd message wParam lParam s) m ≈
  Ret ({| buffers := buffers m; faults := faults m;
          oscalls := oscalls m ++ calls (WndProc hWnd message wParam lParam) os s |},
       (result (WndProc hWnd message wParam lParam) os s,
        final (WndProc hWnd message wParam lParam) os s)).
Proof.
  unfold result, final, calls. fold (after (WndProc hWnd message wParam lParam os s).2 m).
  unfold WndProc_tree, WndProc.
  destruct (message =? WM_INPUT);
    [rewrite bind_ret_const; tree_run; rewrite on_WM_INPUT_tree_run; tree_end|].
  destruct (message =? WM_TIMER); [unfold on_WM_TIMER_tree; tree_end|].
  destruct (message =? WM_DESTROY); tree_end.
Qed.

(** ** Every message *)

(** The messages of a run, one after the other, each with the answers of
    the system while it is handled, on the memory the one before left. *)
Fixpoint run_tree (ds : list Delivery) (s : WndStatics) (m : Memory)
  : itree void1 (Memory * WndStatics) :=
  match ds with
  | [] => Ret (m, s)
  | d :: ds =>
      r <- interp_state (wnd_handle (answers d))
             (WndProc_tree (MSG.hwnd (msg d)) (MSG.message (msg d))
                (MSG.wParam (msg d)) (MSG.lParam (msg d)) s) m ;;
      run_tree ds r.2.2 r.1
  end.

Section runs.
Context {H : Type} `{HostLaws H}.

(** The calls of a run of the system, in order. *)
Fixpoint run_calls (ds : list Delivery) (s : Sys H) : list OsCall :=
  match ds with
  | [] => []
  | d :: ds => calls_of d s ++ run_calls ds (deliver d s)
  end.

(** C11. The program's use of memory, along every run.  Whatever messages
    are dispatched to the window procedure, in whatever state, and whatever
    the system answers to its calls (sizes, failed queries, allocations that
    fail, reads that come short), every call of [WndProc] returns; no fault
    occurs: [GetRawInputData] writes within the buffer [_malloca] returned,
    a report is read only from a buffer that was filled with the size asked
    for, and only that buffer is freed; after the run the buffers allocated
    are those allocated before it, so that no buffer is leaked however long
    the program runs; and the statics and the calls that change the system
    are those of the run of the composition of [System.v]. *)
Theorem run_tree_run ds : forall (s : Sys H) m,
  run_tree ds (statics s) m ≈
  Ret ({| buffers := buffers m; faults := faults m;
          oscalls := oscalls m ++ run_calls ds s |},
       statics (run ds s)).
Proof.
  induction ds as [|d ds IH]; intros s m; cbn [run_tree run run_calls].
  - rewrite app_nil_r. by destruct m.
  - rewrite WndProc_tree_run, bind_ret_l. cbn [fst snd].
    rewrite (IH (deliver d s)). cbn [buffers faults oscalls].
    by rewrite app_assoc.
Qed.

End runs.

(** ** An instance *)

Definition sample_memory : Memory :=
  {| buffers := {[ 1 := {| size := 16; content := None |} ]}; faults := []; oscalls := [] |}.

(** The memory tells a program that misuses it: a free of what is not
    allocated, a read of a buffer that was not filled, and a write of more
    bytes than the buffer holds are faults. *)
Example faults_recorded :
  faults (release 5 sample_memory) = [free_unallocated 5] /\
  faults (read_buffer 1 sample_memory).1 = [read_unfilled 1] /\
  faults (fill 1 48 None sample_memory) = [write_outside 1 48] /\
  faults (fill 1 16 None sample_memory) = [] /\
  fresh_pointer sample_memory <> 1 /\
  dom (buffers (allocate 48 sample_memory)) = {[1; fresh_pointer sample_memory]}.
Proof. split_and!; by vm_compute. Qed.

Lemma run_tree_run_witness :
  run_tree click_run WndStatics_init sample_memory ≈
  Ret ({| buffers := buffers sample_memory; faults := [];
          oscalls := [SetTimer sample_hwnd TIMER_EVENT_ID 500;
                      KillTimer sample_hwnd TIMER_EVENT_ID; SendInput pInputs;
                      SetTimer sample_hwnd TIMER_EVENT_ID 500;
                      KillTimer sample_hwnd TIMER_EVENT_ID; SendInput pInputs] |},
       WndStatics_init).
Proof. exact (run_tree_run click_run (sys_init (H:=WinHost)) sample_memory). Defined.
