(* ===== verification/Tree.v ===== *)
(** * Tree: [_tWinMain] as an interaction tree

    [WinMain.v] models [_tWinMain] as a function of the answers of the
    system, over a finite list of the events of [GetMessage]; a loop that
    has used them up is given the result [Pumping].  The function itself does
    not end that way: it blocks in [GetMessage].  This file writes the
    function as the program it is, an interaction tree over the calls it
    makes, with the loop of lines 175-180 as [ITree.iter], and gives the calls
    their meaning by a handler over the same answers: a call of the start is
    logged and answered, [CreateWindow] delivers the messages it sends,
    [GetMessage] produces the next event (and never returns when there is
    none: the tree spins), [DispatchMessage] runs the window procedure.

    [WinMain_tree_run] shows that the two models agree: interpreted, the tree
    returns the exit code of the function in the state and with the calls of
    the function, when the function returns, and diverges when the function
    is [Pumping].  [message_loop_tree_halts] shows when the loop ends: it
    returns if [GetMessage] retrieves [WM_QUIT], and blocks for ever if it
    does not.  The examples at the end run the tree in the host of
    [Windows.v]. *)

From ITree Require Import ITree ITreeFacts Events.State Events.StateFacts.
From stdpp Require Import base numbers list strings.
From S2P Require Import Prelude Format Win32 WndProc System WinMain Windows Interp.

#[local] Open Scope Z_scope.
#[local] Open Scope tree_scope.

(** ** The calls of the program *)

(** A call of the start with its result, [GetLastError], and the three
    calls of the loop; [GetMessage] is given the message [msg] holds, which
    it leaves alone when it fails. *)
Variant winE : Type -> Type :=
| Call (c : BootCall) : winE Z
| GetLastError : winE DWORD
| GetMessage (cur : MSG.t) : winE (Z * MSG.t)
| TranslateMessage (m : MSG.t) : winE unit
| DispatchMessage (m : MSG.t) : winE unit.

(** ** The program *)

(** Lines 175-182: [while (GetMessage(&msg, NULL, 0, 0))] with its body, and
    the return of [msg.wParam] when the call returns 0. *)
Definition loop_body (msg : MSG.t) : itree winE (MSG.t + Z) :=
  r <- ITree.trigger (GetMessage msg) ;;
  if r.1 =? 0 then Ret (inr (wrap_LONG (MSG.wParam r.2)))
  else
    ITree.trigger (TranslateMessage r.2) ;;
    ITree.trigger (DispatchMessage r.2) ;;
    Ret (inl r.2).

Definition message_loop_tree : itree winE Z := ITree.iter loop_body msg_zero.

(** Lines 186-192. *)
Definition report_failure_tree : itree winE unit :=
  err <- ITree.trigger GetLastError ;;
  match StringCchPrintf szMessage_size diagnostic_format [err] with
  | Some szMessage =>
      ITree.trigger
        (Call (MessageBox NULL szMessage APPLICATION_NAME (MB_OK .| MB_ICONERROR)%mbc)) ;;
      Ret tt
  | None => Ret tt
  end.

(** Lines 155-184: [Some] of the exit code when the loop returned, [None]
    when a step of the initialization failed. *)
Definition initialize_and_pump_tree (hInst : HANDLE) : itree winE (option Z) :=
  atom <- ITree.trigger (Call (RegisterClass (wc hInst))) ;;
  if negb (atom =? 0) then
    hWnd <- ITree.trigger
              (Call (CreateWindow APPLICATION_NAME APPLICATION_NAME 0
                       CW_USEDEFAULT CW_USEDEFAULT CW_USEDEFAULT CW_USEDEFAULT
                       HWND_MESSAGE NULL hInst NULL)) ;;
    if negb (hWnd =? NULL) then
      registered <- ITree.trigger (Call (RegisterRawInputDevices [rid hWnd])) ;;
      if negb (registered =? 0) then
        code <- message_loop_tree ;; Ret (Some code)
      else Ret None
    else Ret None
  else Ret None.

(** Lines 152-153: [GetLastError] is called only when the handle is not
    [NULL] ([&&] is sequential). *)
Definition first_instance_tree : itree winE bool :=
  mutex <- ITree.trigger (Call (CreateMutex NULL FALSE APPLICATION_NAME)) ;;
  if negb (mutex =? NULL) then
    err <- ITree.trigger GetLastError ;; Ret (negb (err =? ERROR_ALREADY_EXISTS))
  else Ret false.

(** Lines 144-197. *)
Definition WinMain_tree (hInst : HANDLE) : itree winE Z :=
  first <- first_instance_tree ;;
  if first : bool then
    r <- initialize_and_pump_tree hInst ;;
    match r with
    | Some code => Ret code
    | None => report_failure_tree ;; Ret 0
    end
  else Ret 0.

(** ** The system as a handler *)

Section handler.
Context {H : Type} `{HostLaws H}.

(** The machine the program runs on: the events [GetMessage] has yet to
    produce, the answers of the system while the message last retrieved is
    handled, the system, and the calls of the start so far. *)
Record Machine : Type := {
  pending : list Pumped;
  env : OsAnswers * bool;
  sys : Sys H;
  log : list BootCall
}.

(** One call of [GetMessage]: the messages sent to the window are handled
    inside the call; it returns with a posted message, with [WM_QUIT], or
    with a failure; when no event is left it does not return. *)
Fixpoint get_message (hWnd : HWND) (q : list Pumped) (cur : MSG.t)
    (e : OsAnswers * bool) (s : Sys H)
  : option (Z * MSG.t * (OsAnswers * bool) * list Pumped * Sys H) :=
  match q with
  | [] => None
  | sent d :: q => get_message hWnd q cur e (dispatch hWnd d s)
  | posted d :: q => Some (1, msg d, (answers d, SetTimer_ok d), q, s)
  | quit m :: q => Some (0, m, e, q, s)
  | failed a ok :: q => Some (-1, cur, (a, ok), q, s)
  end.

(** The result of a call of the start. *)
Definition answer (a : BootAnswers) (c : BootCall) : Z :=
  match c with
  | CreateMutex _ _ _ => CreateMutex_result a
  | RegisterClass _ => RegisterClass_result a
  | CreateWindow _ _ _ _ _ _ _ _ _ _ _ => CreateWindow_result a
  | RegisterRawInputDevices _ => RegisterRawInputDevices_result a
  | MessageBox _ _ _ _ => 1
  end.

(** What a call of the start does to the system: [CreateWindow] sends
    messages to the window procedure before it returns. *)
Definition effect (a : BootAnswers) (c : BootCall) (s : Sys H) : Sys H :=
  match c with
  | CreateWindow _ _ _ _ _ _ _ _ _ _ _ => run (CreateWindow_sent a) s
  | _ => s
  end.

Definition handle (a : BootAnswers) : winE ~> Monads.stateT Machine (itree void1) :=
  fun _ e m =>
    match e with
    | Call c =>
        Ret ({| pending := pending m; env := env m; sys := effect a c (sys m);
                log := log m ++ [c] |}, answer a c)
    | GetLastError =>
        Ret (m, match log m with [_] => CreateMutex_error a | _ => failure_error a end)
    | GetMessage cur =>
        match get_message (CreateWindow_result a) (pending m) cur (env m) (sys m) with
        | Some (r, msg, e', q, s) =>
            Ret ({| pending := q; env := e'; sys := s; log := log m |}, (r, msg))
        | None => ITree.spin
        end
    | TranslateMessage _ => Ret (m, tt)
    | DispatchMessage msg =>
        Ret ({| pending := pending m; env := env m;
                sys := dispatch (CreateWindow_result a)
                         {| msg := msg; answers := (env m).1; SetTimer_ok := (env m).2 |}
                         (sys m);
                log := log m |}, tt)
    end.

(** The machine at the start. *)
Definition boot (a : BootAnswers) (e0 : OsAnswers * bool) (s : Sys H) : Machine :=
  {| pending := GetMessage_events a; env := e0; sys := s; log := [] |}.

(** What is left of the events, and the answers in force, when the loop
    returns. *)
Fixpoint loop_end (q : list Pumped) (e : OsAnswers * bool)
  : list Pumped * (OsAnswers * bool) :=
  match q with
  | [] => ([], e)
  | sent d :: q => loop_end q e
  | posted d :: q => loop_end q (answers d, SetTimer_ok d)
  | quit m :: q => (q, e)
  | failed a ok :: q => loop_end q (a, ok)
  end.

(** The machine when the function of [WinMain.v] has returned. *)
Definition WinMain_machine (hInst : HANDLE) (a : BootAnswers) (e0 : OsAnswers * bool)
    (s : Sys H) : Machine :=
  let looped := first_instance a && initialized a in
  {| pending := if looped then (loop_end (GetMessage_events a) e0).1
                else GetMessage_events a;
     env := if looped then (loop_end (GetMessage_events a) e0).2 else e0;
     sys := final (WinMain hInst) a s;
     log := calls (WinMain hInst) a s |}.

(** ** The loop *)

(** Interprets the events of the tree up to the next choice. *)
Ltac tree_run :=
  repeat first
    [ tree_step
    | progress cbn [handle answer effect get_message pending env sys log
                    fst snd negb Z.eqb Pos.eqb app] ].

Lemma deliver_eta d :
  {| msg := msg d; answers := answers d; SetTimer_ok := SetTimer_ok d |} = d.
Proof. by destruct d. Qed.

(** The loop of the tree is the loop of the function. *)
Lemma message_loop_tree_run a q : forall cur e s l,
  interp_state (handle a) (ITree.iter loop_body cur)
    {| pending := q; env := e; sys := s; log := l |} ≈
  match (message_loop (CreateWindow_result a) q cur s).1 with
  | Returned code =>
      Ret ({| pending := (loop_end q e).1; env := (loop_end q e).2;
              sys := (message_loop (CreateWindow_result a) q cur s).2; log := l |}, code)
  | Pumping => ITree.spin
  end.
Proof.
  induction q as [|[d|d|m|a0 ok] q IH]; intros cur e s l;
    cbn [message_loop loop_end fst snd].
  - rewrite unfold_iter. unfold loop_body at 1. by tree_run.
  - rewrite <- (IH cur e (dispatch (CreateWindow_result a) d s) l).
    rewrite !(unfold_iter loop_body cur). unfold loop_body at 1 3. by tree_run.
  - rewrite unfold_iter. unfold loop_body at 1. tree_run.
    rewrite deliver_eta. apply IH.
  - rewrite unfold_iter. unfold loop_body at 1. by tree_run.
  - rewrite unfold_iter. unfold loop_body at 1. tree_run. apply IH.
Qed.

(** C34. The loop ends exactly when [GetMessage] retrieves [WM_QUIT]: if the
    events hold a quit message the loop returns, in the state the deliveries
    before it have led to and with the events after it still to come; if
    they hold none, the loop never returns, whatever the other messages are:
    the program blocks in [GetMessage]. *)
Theorem message_loop_tree_halts a q cur e s l :
  let t := interp_state (handle a) (ITree.iter loop_body cur)
             {| pending := q; env := e; sys := s; log := l |} in
  if existsb is_quit q
  then exists code,
         t ≈ Ret ({| pending := (loop_end q e).1; env := (loop_end q e).2;
                     sys := run (dispatched (CreateWindow_result a) q cur) s;
                     log := l |}, code)
  else t ≈ ITree.spin.
Proof.
  cbn zeta. pose proof (message_loop_tree_run a q cur e s l) as Ht.
  rewrite <- (message_loop_returns (CreateWindow_result a) q cur s), <- message_loop_run.
  destruct (message_loop _ _ _ _) as [[c|] s']; cbn [fst snd returned] in *; eauto.
Qed.

(** ** The function *)

(** C10. The two models of [_tWinMain] agree.  Run on a machine that answers
    its calls with [a], the program as an interaction tree returns exactly
    when the function of [WinMain.v] returns, with the same exit code, the
    same final state of the system and the same calls of the start in the
    same order, its events used up to the [WM_QUIT] that ended the loop; and
    when the function is in its loop with no event left, the tree never
    returns: it blocks in [GetMessage]. *)
Theorem WinMain_tree_run hInst a e0 s :
  interp_state (handle a) (WinMain_tree hInst) (boot a e0 s) ≈
  match result (WinMain hInst) a s with
  | Returned code => Ret (WinMain_machine hInst a e0 s, code)
  | Pumping => ITree.spin
  end.
Proof.
  unfold WinMain_machine, result, final, calls. rewrite WinMain_run. cbn zeta.
  unfold WinMain_tree, first_instance_tree, initialize_and_pump_tree,
    report_failure_tree, message_loop_tree, boot, start_calls, failure_box,
    first_instance, initialized, class_registered.
  tree_run.
  repeat (case_test; cbn [negb andb fst snd]; tree_run; try done);
    rewrite ?StringCchPrintf_diagnostic; tree_run; try done.
  rewrite message_loop_tree_run.
  destruct (message_loop _ _ _ _) as [[c|] s']; cbn [fst snd]; by tree_run.
Qed.

End handler.

(** ** The program in the host of [Windows.v] *)

(** The answers in force before the first message. *)
Definition sample_env : OsAnswers * bool := (sample_os (sample_report 0 0 0 0), true).

(** The program on the machine that answers with [a]. *)
Definition sample_tree (a : BootAnswers) : itree void1 (Machine (H:=WinHost) * Z) :=
  interp_state (handle a) (WinMain_tree 0x400000) (boot a sample_env sys_init).

(** Instantiates the result of the function in [Ht] with its value. *)
Ltac eval_result Ht e :=
  match type of Ht with
  | context [result ?m ?a ?s] => replace (result m a s) with e in Ht by (by vm_compute)
  end.

(** The session of [Windows.v], as the tree runs it: the program returns 0
    with one click injected, no timer left, every event retrieved and four
    calls made at the start.  Without the [WM_QUIT] at its end
    the program never returns; a second instance and a start that fails
    return 0 with no message retrieved. *)
Lemma WinMain_tree_run_witness :
  (exists m, sample_tree (sample_boot session) ≈ Ret (m, 0) /\
             input_stream (host (sys m)) = pInputs /\ timers (host (sys m)) = ∅ /\
             pending m = [] /\ length (log m) = 4%nat) /\
  sample_tree (sample_boot (removelast session)) ≈ ITree.spin /\
  (exists m, sample_tree second_boot ≈ Ret (m, 0) /\
             sys m = sys_init /\ length (log m) = 1%nat) /\
  (exists m, sample_tree failing_boot ≈ Ret (m, 0) /\
             last (log m) = Some (failure_box failing_boot)).
Proof.
  pose proof (WinMain_tree_run (H:=WinHost) 0x400000 (sample_boot session)
                sample_env sys_init) as H1.
  pose proof (WinMain_tree_run (H:=WinHost) 0x400000 (sample_boot (removelast session))
                sample_env sys_init) as H2.
  pose proof (WinMain_tree_run (H:=WinHost) 0x400000 second_boot sample_env sys_init) as H3.
  pose proof (WinMain_tree_run (H:=WinHost) 0x400000 failing_boot sample_env sys_init) as H4.
  eval_result H1 (Returned 0). eval_result H2 Pumping.
  eval_result H3 (Returned 0). eval_result H4 (Returned 0).
  split; [|split; [|split]];
    [eexists; split; [exact H1|by vm_compute] | exact H2
    | eexists; split; [exact H3|by vm_compute]
    | eexists; split; [exact H4|by vm_compute]].
Defined.

Lemma message_loop_tree_halts_witness :
  let t q := interp_state (handle (H:=WinHost) (sample_boot [])) (ITree.iter loop_body msg_zero)
               {| pending := q; env := sample_env; sys := sys_init; log := [] |} in
  (exists m code, t session ≈ Ret (m, code) /\ pending m = [] /\
                  input_stream (host (sys m)) = pInputs) /\
  t (removelast session) ≈ ITree.spin.
Proof.
  pose proof (message_loop_tree_halts (H:=WinHost) (sample_boot []) session msg_zero
                sample_env sys_init []) as H1.
  pose proof (message_loop_tree_halts (H:=WinHost) (sample_boot []) (removelast session)
                msg_zero sample_env sys_init []) as H2.
  cbn zeta in *. split; [|exact H2].
  destruct H1 as [code H1]. eexists _, code. split; [exact H1|by vm_compute].
Defined.
