(* ===== verification/Timed.v ===== *)
(** * Timed: the click timer in time

    The purpose of the program is a matter of time: a click is injected when
    the mouse has rested for the double-click time after it moved.  The
    composition of [System.v] knows a timer only as pending or not.  This
    file gives the host a clock.  A timer has a period and a due time;
    [SetTimer] replaces the timer with one that is due a period from now;
    when the clock passes the due time of the click timer the host hands
    [WM_TIMER] to the window procedure, and, as Win32 timers are periodic, the
    timer is due again a period later unless the program destroys it.  Input
    messages are given with the time they arrive.

    The host is an instance of the interface of [System.v], so every theorem
    of the composition holds of it; the theorems here are about the times of
    the clicks: when a click comes after a move ([click_iff_rest]), the
    clicks of a burst of moves ([debounce]), and, for every timeline of input
    messages, that a click comes only after a rest ([click_after_rest]) and
    that a rest that is long enough brings the click
    ([pending_click_comes]). *)

From stdpp Require Import base numbers list gmap.
From S2P Require Import Prelude Win32 WndProc System Hosts WinMain Windows.

#[local] Open Scope Z_scope.

(** ** The host with a clock *)

(** [SetTimer] raises a smaller period to [USER_TIMER_MINIMUM]. *)
Definition USER_TIMER_MINIMUM : Z := 0x0000000A.

Record Timer : Set := {
  period : Z;
  due : Z
}.

Record TimedHost : Type := {
  clock : Z;                          (* milliseconds *)
  timer_table : gmap (Z * Z) Timer;   (* (window, timer id) to its timer *)
  injected : list (Z * list INPUT);   (* the input of each SendInput, with its time *)
  posted_quit : option Z
}.

Definition TimedHost_init : TimedHost :=
  {| clock := 0; timer_table := ∅; injected := []; posted_quit := None |}.

Definition timed_SetTimer (h id e : Z) (x : TimedHost) : TimedHost :=
  let p := Z.max e USER_TIMER_MINIMUM in
  {| clock := clock x;
     timer_table := <[(h, id) := {| period := p; due := clock x + p |}]> (timer_table x);
     injected := injected x; posted_quit := posted_quit x |}.

Definition timed_KillTimer (h id : Z) (x : TimedHost) : TimedHost :=
  {| clock := clock x; timer_table := delete (h, id) (timer_table x);
     injected := injected x; posted_quit := posted_quit x |}.

Definition timed_SendInput (inputs : list INPUT) (x : TimedHost) : TimedHost :=
  {| clock := clock x; timer_table := timer_table x;
     injected := injected x ++ [(clock x, inputs)]; posted_quit := posted_quit x |}.

Definition timed_apply (ok : bool) (c : OsCall) (x : TimedHost) : TimedHost :=
  match c with
  | SetTimer h id e => if ok then timed_SetTimer h id e x else x
  | KillTimer h id => timed_KillTimer h id x
  | SendInput inputs => timed_SendInput inputs x
  | PostQuitMessage n =>
      {| clock := clock x; timer_table := timer_table x; injected := injected x;
         posted_quit := Some n |}
  | DefWindowProc _ _ _ _ => x
  end.

#[export] Instance timed_host : Host TimedHost := {|
  host_init := TimedHost_init;
  host_apply := timed_apply;
  timer_pending h id x := bool_decide (is_Some (timer_table x !! (h, id)));
  sent_input x := mjoin (snd <$> injected x);
  quit_code := posted_quit
|}.

#[export] Instance timed_host_laws : HostLaws TimedHost.
Proof.
  split; try done.
  - intros [] h id e h' id' x; cbn; [|done]. apply win_timer_pending_insert.
  - intros ok h id h' id' x. apply win_timer_pending_delete.
  - by intros ok [] h id x.
  - intros ok inputs x. cbn. rewrite fmap_app, join_app. cbn. by rewrite app_nil_r.
  - intros ok [h id e| | l | |] x Hc; try done; [by destruct ok | by destruct (Hc l)].
  - intros ok [h id e| | | n |] x Hc; try done; [by destruct ok | by destruct (Hc n)].
Qed.

(** ** Time passing *)

Section timed.
(** The program's window, and the answers of the system while a timer
    message is handled (the handler asks nothing). *)
Context (hwnd : HWND) (os : OsAnswers).

Definition set_clock (t : Z) (s : Sys TimedHost) : Sys TimedHost :=
  {| statics := statics s;
     host := {| clock := t; timer_table := timer_table (host s);
                injected := injected (host s); posted_quit := posted_quit (host s) |} |}.

(** The click timer, if it is pending. *)
Definition click_timer (s : Sys TimedHost) : option Timer :=
  timer_table (host s) !! (hwnd, TIMER_EVENT_ID).

(** The timer message of the click timer. *)
Definition WM_TIMER_delivery : Delivery :=
  {| msg := {| MSG.hwnd := hwnd; MSG.message := WM_TIMER; MSG.wParam := TIMER_EVENT_ID;
               MSG.lParam := 0; MSG.time := 0; MSG.pt := (0, 0) |};
     answers := os; SetTimer_ok := true |}.

(** The timer is due again a period later. *)
Definition reschedule (tm : Timer) (s : Sys TimedHost) : Sys TimedHost :=
  {| statics := statics s;
     host := {| clock := clock (host s);
                timer_table :=
                  <[(hwnd, TIMER_EVENT_ID) :=
                      {| period := period tm; due := due tm + period tm |}]>
                    (timer_table (host s));
                injected := injected (host s); posted_quit := posted_quit (host s) |} |}.

(** One expiry before time [t]: the clock moves to the due time, the timer
    is rescheduled, the window procedure handles the timer message. *)
Definition expire (t : Z) (s : Sys TimedHost) : option (Sys TimedHost) :=
  match click_timer s with
  | Some tm =>
      if due tm <? t
      then Some (deliver WM_TIMER_delivery
                   (reschedule tm (set_clock (Z.max (clock (host s)) (due tm)) s)))
      else None
  | None => None
  end.

Fixpoint expire_all (fuel : nat) (t : Z) (s : Sys TimedHost) : Sys TimedHost :=
  match fuel with
  | O => s
  | S fuel =>
      match expire t s with
      | Some s' => expire_all fuel t s'
      | None => s
      end
  end.

(** Nothing arrives until [t]: the timer expires as often as it is due
    before [t] (a period is at least [USER_TIMER_MINIMUM], which bounds the
    number of expiries), then the clock is [t]. *)
Definition wait (t : Z) (s : Sys TimedHost) : Sys TimedHost :=
  let fuel := Z.to_nat ((t - clock (host s)) / USER_TIMER_MINIMUM + 1) in
  set_clock t (expire_all fuel t s).

(** Input messages with their arrival times, one after the other; a timer
    message that is due at the time an input message arrives waits, as
    [WM_TIMER] has the lowest priority. *)
Fixpoint timed_run (evs : list (Z * Delivery)) (s : Sys TimedHost) : Sys TimedHost :=
  match evs with
  | [] => s
  | (t, d) :: evs => timed_run evs (deliver d (wait t s))
  end.

(** The times at which input was injected. *)
Definition click_times (s : Sys TimedHost) : list Z := fst <$> injected (host s).

(** The period of a timer set with the double-click time [dct]. *)
Definition click_period (dct : Z) : Z := Z.max dct USER_TIMER_MINIMUM.

(** The events of a timed run are input messages of the window. *)
Definition input_events (evs : list (Z * Delivery)) : Prop :=
  Forall (fun e => MSG.hwnd (msg e.2) = hwnd /\ MSG.message (msg e.2) <> WM_TIMER) evs.

(** The state after the click of an expiry at time [c]. *)
Definition clicked (c t : Z) (s : Sys TimedHost) : Sys TimedHost :=
  {| statics := reset_click (statics s);
     host := {| clock := t;
                timer_table := delete (hwnd, TIMER_EVENT_ID) (timer_table (host s));
                injected := injected (host s) ++ [(c, pInputs)];
                posted_quit := posted_quit (host s) |} |}.

(** A move of a burst: a plain move that exceeds the threshold by itself,
    handled while the double-click time is [dct] and [SetTimer] works. *)
Definition burst_move (dct : Z) (d : Delivery) : Prop :=
  exists m, delivers_move hwnd d m /\ GetDoubleClickTime (answers d) = dct /\
    exceeds_threshold (lLastX m) (lLastY m) = true /\
    LONG_MIN < lLastX m <= LONG_MAX /\ LONG_MIN < lLastY m <= LONG_MAX.

(** The engine is ready for a burst: no button is held, and clicking is
    enabled or the deltas are reset. *)
Definition ready (s : Sys TimedHost) : Prop :=
  usMouseButtonsDown (statics s) = 0 /\
  (fOkToClick (statics s) = true \/
   lLastClickDeltaX (statics s) = 0 /\ lLastClickDeltaY (statics s) = 0).

(** The times of the clicks a burst of moves at the times [ts] should
    cause, observed until [t_end]: one period after each move that is
    followed by more than a period of rest. *)
Fixpoint rest_clicks (p : Z) (ts : list Z) (t_end : Z) : list Z :=
  match ts with
  | [] => []
  | t :: ts' =>
      (if t + p <? hd t_end ts' then [t + p] else []) ++ rest_clicks p ts' t_end
  end.

(** A timeline for the double-click time [dct], from time [t0]: input
    messages of the window, at times that do not go back, handled while the
    double-click time is [dct] and [SetTimer] works. *)
Fixpoint on_time (dct t0 : Z) (evs : list (Z * Delivery)) : Prop :=
  match evs with
  | [] => True
  | (t, d) :: evs =>
      t0 <= t /\ MSG.hwnd (msg d) = hwnd /\ MSG.message (msg d) <> WM_TIMER /\
      SetTimer_ok d = true /\ GetDoubleClickTime (answers d) = dct /\
      on_time dct t evs
  end.

(** The time of the last event of a timeline that starts at [t0]. *)
Definition end_time (t0 : Z) (evs : list (Z * Delivery)) : Z :=
  foldl (fun _ e => e.1) t0 evs.

(** The timer message of an expiry before [t], if there is one. *)
Definition expiry (t : Z) (s : Sys TimedHost) : list Delivery :=
  match expire t s with Some _ => [WM_TIMER_delivery] | None => [] end.

(** The deliveries of a timed run, in order: before each input message, the
    timer message of the expiry that precedes it. *)
Fixpoint trace (evs : list (Z * Delivery)) (s : Sys TimedHost) : list Delivery :=
  match evs with
  | [] => []
  | (t, d) :: evs => expiry t s ++ d :: trace evs (deliver d (wait t s))
  end.

(** The time [c] is one period after a report of [past], and the mouse has
    rested in between: no report of [past] is later than that one and not
    later than [c]. *)
Definition rested (p : Z) (past : list (Z * Delivery)) (c : Z) : Prop :=
  exists t d, (t, d) ∈ past /\ is_report d = true /\ c = t + p /\
    forall e, e ∈ past -> is_report e.2 = true -> e.1 <= t \/ c < e.1.

(** The invariant of a timed run with the events [past] behind it: the
    invariant of the system; the clock is not behind an event; a pending
    click timer is due in the future, one period after the last report; every
    click was injected in the past, after a rest. *)
Definition timed_inv (p : Z) (past : list (Z * Delivery)) (s : Sys TimedHost) : Prop :=
  sys_inv hwnd s /\
  Forall (fun e => e.1 <= clock (host s)) past /\
  (forall tm, click_timer s = Some tm ->
     clock (host s) <= due tm /\ rested p past (due tm)) /\
  Forall (fun c => c < clock (host s) /\ rested p past c) (click_times s).

#[export] Instance on_time_dec dct evs : forall t0, Decision (on_time dct t0 evs).
Proof. induction evs as [|[t d] evs IH]; intros t0; cbn; apply _. Defined.

(** ** Expiry *)

(** Reduces the projections of the host's records. *)
Ltac timed_simpl :=
  unfold clicked, timed_SendInput, timed_KillTimer, timed_SetTimer, reschedule,
    set_clock, click_timer, click_timer_pending in *;
  cbn [statics host clock timer_table injected posted_quit period due
       timer_pending timed_host] in *.

Lemma deliver_WM_TIMER s :
  deliver WM_TIMER_delivery s =
    {| statics := reset_click (statics s);
       host := timed_SendInput pInputs (timed_KillTimer hwnd TIMER_EVENT_ID (host s)) |}.
Proof. reflexivity. Qed.

Lemma expire_due t tm s :
  click_timer s = Some tm -> clock (host s) <= due tm < t ->
  expire t s = Some (clicked (due tm) (due tm) s).
Proof.
  intros Htm [Hc Hd]. unfold expire. rewrite Htm, (proj2 (Z.ltb_lt _ _)) by done.
  rewrite deliver_WM_TIMER. timed_simpl.
  by rewrite delete_insert_eq, Z.max_r.
Qed.

Lemma expire_idle t s :
  (forall tm, click_timer s = Some tm -> t <= due tm) -> expire t s = None.
Proof.
  intros Hidle. unfold expire. destruct (click_timer s) as [tm|]; [|done].
  by rewrite (proj2 (Z.ltb_ge _ _)) by by apply Hidle.
Qed.

Lemma expire_all_idle fuel t s :
  (forall tm, click_timer s = Some tm -> t <= due tm) -> expire_all fuel t s = s.
Proof. intros Hidle. destruct fuel; [done|]. cbn. by rewrite expire_idle. Qed.

Lemma click_timer_clicked c t s : click_timer (clicked c t s) = None.
Proof. unfold click_timer, clicked. cbn. apply lookup_delete_eq. Qed.

(** The fuel of [wait] is positive when time does not go back. *)
Lemma wait_fuel c t :
  c <= t -> exists n, Z.to_nat ((t - c) / USER_TIMER_MINIMUM + 1) = S n.
Proof.
  intros Ht. exists (Z.to_nat ((t - c) / USER_TIMER_MINIMUM)).
  unfold USER_TIMER_MINIMUM. rewrite Z2Nat.inj_add by (try apply Z.div_pos; lia). lia.
Qed.

(** The click comes, once: when the click timer is pending and due before
    [t], and nothing arrives until [t], the window procedure has handled
    exactly one timer message, at the due time. *)
Lemma wait_due t tm s :
  click_timer s = Some tm -> clock (host s) <= due tm < t ->
  wait t s = clicked (due tm) t s.
Proof.
  intros Htm Hd. unfold wait.
  assert (exists n, Z.to_nat ((t - clock (host s)) / USER_TIMER_MINIMUM + 1) = S n)
    as [n ->] by (apply wait_fuel; lia).
  cbn [expire_all]. rewrite (expire_due t tm) by done.
  rewrite expire_all_idle; [done|]. intros tm'. by rewrite click_timer_clicked.
Qed.

(** No click before its time. *)
Lemma wait_idle t s :
  (forall tm, click_timer s = Some tm -> t <= due tm) -> wait t s = set_clock t s.
Proof. intros Hidle. unfold wait. by rewrite expire_all_idle. Qed.

(** After an expiry no click timer is pending: the handler of [WM_TIMER]
    destroys it. *)
Lemma expire_kills t s s' : expire t s = Some s' -> click_timer s' = None.
Proof.
  unfold expire. destruct (click_timer s) as [tm|]; [|done].
  case_test; [|done]. intros [= <-]. rewrite deliver_WM_TIMER.
  timed_simpl. apply lookup_delete_eq.
Qed.

(** One unit of fuel is all [expire_all] uses: the second expiry finds no
    timer. *)
Lemma expire_all_complete fuel t s : expire t (expire_all (S fuel) t s) = None.
Proof.
  cbn [expire_all]. destruct (expire t s) as [s'|] eqn:He; [|done].
  assert (forall tm, click_timer s' = Some tm -> t <= due tm) as Hidle.
  { intros tm. by rewrite (expire_kills t s s'). }
  rewrite expire_all_idle by done. by apply expire_idle.
Qed.

(** C35. The fuel of [wait] is enough: when the clock is advanced to a time
    [t] that is not in the past, every expiry that is due before [t] has
    been handled when [wait] returns: no timer is left that is due before
    [t], and the clock is [t]. *)
Theorem wait_complete t s :
  clock (host s) <= t ->
  expire t (wait t s) = None /\ clock (host (wait t s)) = t.
Proof.
  intros Ht. split; [|done]. unfold wait.
  assert (exists n, Z.to_nat ((t - clock (host s)) / USER_TIMER_MINIMUM + 1) = S n)
    as [n ->] by (apply wait_fuel; lia).
  pose proof (expire_all_complete n t s) as He. revert He. unfold expire.
  change (click_timer (set_clock t ?x)) with (click_timer x).
  destruct (click_timer _); [|done]. by case_test.
Qed.

(** ** Motion *)

(** A move that sets the timer moves the deadline, whatever timer was
    pending before. *)
Lemma deliver_arm_timer d m s :
  delivers_move hwnd d m -> usMouseButtonsDown (statics s) = 0 ->
  fOkToClick (update_deltas m (statics s)) = true ->
  let p := click_period (GetDoubleClickTime (answers d)) in
  click_timer (deliver d s) = Some {| period := p; due := clock (host s) + p |} /\
  clock (host (deliver d s)) = clock (host s) /\
  injected (host (deliver d s)) = injected (host s).
Proof.
  intros Hd Hb Harm p. unfold click_timer.
  rewrite (deliver_arm_host hwnd d m s Hd Hb Harm). cbn.
  by rewrite lookup_insert_eq.
Qed.

(** C2. A click exactly when the mouse rests.  A plain move arrives, with
    no button held and the threshold exceeded, and sets the timer; the next
    message arrives at time [t].  If [t] is later than the move by more than
    the period (the double-click time), one click has been injected in
    between, one period after the move, and the engine is reset; otherwise
    nothing has happened but time passing, and the move that arrives at [t]
    will move the deadline.  Earlier deadlines do not matter. *)
Theorem click_iff_rest d m s t :
  delivers_move hwnd d m -> usMouseButtonsDown (statics s) = 0 ->
  fOkToClick (update_deltas m (statics s)) = true ->
  let c := clock (host s) + click_period (GetDoubleClickTime (answers d)) in
  wait t (deliver d s) =
    if c <? t then clicked c t (deliver d s) else set_clock t (deliver d s).
Proof.
  intros Hd Hb Harm c.
  destruct (deliver_arm_timer d m s Hd Hb Harm) as (Htm & Hclock & _).
  fold c in Htm. case_test; reflect_Z.
  - rewrite (wait_due t _ _ Htm); [done|]. cbn [due]. rewrite Hclock.
    unfold c, click_period, USER_TIMER_MINIMUM in *. lia.
  - apply wait_idle. intros tm. rewrite Htm. intros [= <-]. cbn [due]. lia.
Qed.

(** ** Bursts *)

(** A move of a burst sets the timer in a ready state, and leaves the
    engine ready whether the click comes before the next message or not. *)
Lemma burst_move_arms dct d s :
  burst_move dct d -> ready s ->
  click_timer (deliver d s) =
    Some {| period := click_period dct; due := clock (host s) + click_period dct |} /\
  clock (host (deliver d s)) = clock (host s) /\
  injected (host (deliver d s)) = injected (host s) /\
  usMouseButtonsDown (statics (deliver d s)) = 0 /\
  fOkToClick (statics (deliver d s)) = true.
Proof.
  intros (m & Hd & <- & Hbig & Hx & Hy) [Hb Hr].
  assert (fOkToClick (update_deltas m (statics s)) = true) as Harm.
  { destruct Hr as [Hok|[H0x H0y]]; [by apply update_deltas_monotone|].
    rewrite update_deltas_exact by (rewrite ?H0x, ?H0y; lia).
    cbn [fOkToClick]. by rewrite H0x, H0y, !Z.add_0_l, Hbig, orb_true_r. }
  destruct (deliver_arm_timer d m s Hd Hb Harm) as (Htm & Hc & Hi).
  destruct (deliver_move hwnd d m s Hd) as [Hs _].
  by rewrite Hs.
Qed.

Lemma burst_rest dct d s t :
  burst_move dct d -> ready s ->
  let c := clock (host s) + click_period dct in
  let s' := wait t (deliver d s) in
  ready s' /\ clock (host s') = t /\
  click_times s' = click_times s ++ (if c <? t then [c] else []).
Proof.
  intros Hd Hr c s'. destruct (burst_move_arms dct d s Hd Hr) as (Htm & Hc & Hi & Hb & Hok).
  unfold s', click_times. fold c in Htm. destruct (Z.ltb_spec c t) as [Hlt|Hge].
  - rewrite (wait_due t _ _ Htm) by
      (cbn [due]; rewrite Hc; unfold c, click_period, USER_TIMER_MINIMUM in *; lia).
    timed_simpl. rewrite fmap_app, Hi. split_and!; try done. split; [done|by right].
  - rewrite wait_idle by (intros tm; rewrite Htm; intros [= <-]; cbn [due]; lia).
    timed_simpl. rewrite Hi, app_nil_r. split_and!; try done. split; [done|by left].
Qed.

(** The clicks of a burst whose first move has just arrived. *)
Lemma burst_clicks dct evs : forall d s t_end,
  ready s -> burst_move dct d -> Forall (fun e => burst_move dct e.2) evs ->
  click_times (wait t_end (timed_run evs (deliver d s))) =
    click_times s ++
    rest_clicks (click_period dct) (clock (host s) :: (fst <$> evs)) t_end.
Proof.
  induction evs as [|[t' d'] evs IH]; intros d s t_end Hr Hd Hevs.
  - destruct (burst_rest dct d s t_end Hd Hr) as (_ & _ & Hct).
    cbn [timed_run]. rewrite Hct. cbn [rest_clicks hd fmap list_fmap].
    by rewrite app_nil_r.
  - apply Forall_cons in Hevs as [Hd' Hevs].
    destruct (burst_rest dct d s t' Hd Hr) as (Hr' & Hc' & Hct).
    cbn [timed_run]. rewrite (IH d' _ t_end Hr' Hd' Hevs), Hc', Hct, <- app_assoc.
    done.
Qed.

(** C3. Debouncing: a burst of moves, each beyond the threshold, arrives
    at the times [t :: ts] in a state with no timer pending and no button
    held.  Until [t_end] the clicks injected are those of [rest_clicks]: one
    click one period after each move that is followed by more than a period
    without a message, and none for a move that is followed sooner.  A click
    never comes while the mouse keeps moving, and always comes when it
    rests. *)
Theorem debounce dct t d evs s t_end :
  ready s -> click_timer s = None ->
  burst_move dct d -> Forall (fun e => burst_move dct e.2) evs ->
  click_times (wait t_end (timed_run ((t, d) :: evs) s)) =
    click_times s ++ rest_clicks (click_period dct) (t :: (fst <$> evs)) t_end.
Proof.
  intros Hr Hno Hd Hevs. cbn [timed_run].
  rewrite (wait_idle t s) by (by rewrite Hno).
  by rewrite (burst_clicks dct evs d (set_clock t s) t_end).
Qed.

(** ** The invariant in time *)

Lemma set_clock_inv t s : sys_inv hwnd s -> sys_inv hwnd (set_clock t s).
Proof. done. Qed.

Lemma clicked_inv c t s : sys_inv hwnd s -> sys_inv hwnd (clicked c t s).
Proof.
  intros (Hwf & Honly & _). split; [by apply reset_click_wf|]. split.
  - intros h id. cbn. rewrite win_timer_pending_delete. intros [_ Hp]%andb_prop.
    by apply Honly.
  - unfold click_timer_pending. cbn. by rewrite lookup_delete_eq.
Qed.

Lemma expire_inv t s s' : sys_inv hwnd s -> expire t s = Some s' -> sys_inv hwnd s'.
Proof.
  unfold expire. intros Hinv. destruct (click_timer s) as [tm|] eqn:Htm; [|done].
  case_test; [|done]. intros [= <-]. rewrite deliver_WM_TIMER. timed_simpl.
  rewrite delete_insert_eq.
  by apply (clicked_inv (Z.max (clock (host s)) (due tm))
              (Z.max (clock (host s)) (due tm)) s).
Qed.

Lemma expire_all_inv fuel t : forall s, sys_inv hwnd s -> sys_inv hwnd (expire_all fuel t s).
Proof.
  induction fuel as [|fuel IH]; intros s Hinv; [done|]. cbn.
  destruct (expire t s) as [s'|] eqn:He; [|done]. by eapply IH, expire_inv.
Qed.

Lemma wait_inv t s : sys_inv hwnd s -> sys_inv hwnd (wait t s).
Proof. intros Hinv. by apply set_clock_inv, expire_all_inv. Qed.

(** C22. The invariant holds in time: along every timed run of input
    messages, with the timer messages the host inserts when the click timer
    is due, the statics are well formed, the click timer is the only timer
    and it is pending only while no button is held and clicking is
    enabled. *)
Theorem timed_run_inv evs : forall s,
  sys_inv hwnd s -> input_events evs -> sys_inv hwnd (timed_run evs s).
Proof.
  induction evs as [|[t d] evs IH]; intros s Hinv Hev; [done|].
  apply Forall_cons in Hev as [[Hw Hm] Hev]. cbn. apply IH; [|done].
  apply deliver_inv; [by apply wait_inv | by split].
Qed.

(** ** Clicks follow a rest *)

Lemma rested_later p past c t d :
  rested p past c -> c < t -> rested p (past ++ [(t, d)]) c.
Proof.
  intros (t0 & d0 & Hin & Hr & -> & Hq) Hc. exists t0, d0.
  split_and!; [set_solver|done..|]. intros e [?| ->%list_elem_of_singleton]%elem_of_app Hre.
  - by apply Hq.
  - by right.
Qed.

Lemma rested_other p past c t d :
  rested p past c -> is_report d = false -> rested p (past ++ [(t, d)]) c.
Proof.
  intros (t0 & d0 & Hin & Hr & -> & Hq) Hd. exists t0, d0.
  split_and!; [set_solver|done..|]. intros e [?| ->%list_elem_of_singleton]%elem_of_app Hre.
  - by apply Hq.
  - cbn in Hre. congruence.
Qed.

Lemma rested_new p past t d :
  is_report d = true -> Forall (fun e => e.1 <= t) past ->
  rested p (past ++ [(t, d)]) (t + p).
Proof.
  intros Hd Hpast. exists t, d. split_and!; [set_solver|done..|].
  intros e [He| ->%list_elem_of_singleton]%elem_of_app _; left; [|done].
  by apply (proj1 (Forall_forall _ _) Hpast).
Qed.

(** A call that concerns neither timers nor input leaves the clock, the
    timers and the injected input alone. *)
Lemma timed_apply_other ok c x :
  not_timer_call c -> (forall i, c <> SendInput i) ->
  clock (timed_apply ok c x) = clock x /\
  timer_table (timed_apply ok c x) = timer_table x /\
  injected (timed_apply ok c x) = injected x.
Proof. intros Hc Hi. destruct c as [| |l| |]; try done. by destruct (Hi l). Qed.

(** Time passes: the invariant, at the new time. *)
Lemma wait_timed_inv p past t s :
  timed_inv p past s -> clock (host s) <= t ->
  timed_inv p past (wait t s) /\ clock (host (wait t s)) = t.
Proof.
  intros (Hinv & Hpast & Htm & Hcl) Ht. split; [|done].
  assert (Forall (fun e => e.1 <= t) past) as Hpast'
    by (eapply Forall_impl; [exact Hpast|]; cbn; lia).
  assert (Forall (fun c => c < t /\ rested p past c) (click_times s)) as Hcl'
    by (eapply Forall_impl; [exact Hcl|]; cbn; intros c [? ?]; split; [lia|done]).
  destruct (click_timer s) as [tm|] eqn:Hs.
  - destruct (Htm tm eq_refl) as [Hdue Hr]. destruct (Z.ltb_spec (due tm) t).
    + rewrite (wait_due t tm) by done. split_and!; [by apply clicked_inv|done| |].
      * intros tm'. by rewrite click_timer_clicked.
      * unfold click_times. timed_simpl. rewrite fmap_app.
        apply Forall_app. split; [done|]. by repeat constructor.
    + rewrite wait_idle by (intros tm'; rewrite Hs; intros [= <-]; lia).
      split_and!; [done..| |done]. intros tm'. timed_simpl. rewrite Hs.
      by intros [= <-].
  - rewrite wait_idle by (intros tm'; by rewrite Hs).
    split_and!; [done..| |done]. intros tm'. timed_simpl. by rewrite Hs.
Qed.

(** The effect of an input message on the timed host. *)
Lemma deliver_input_timed d s :
  sys_inv hwnd s -> MSG.hwnd (msg d) = hwnd -> MSG.message (msg d) <> WM_TIMER ->
  SetTimer_ok d = true ->
  clock (host (deliver d s)) = clock (host s) /\
  injected (host (deliver d s)) = injected (host s) /\
  ((click_timer (deliver d s) = click_timer s /\
    (is_report d = true -> click_timer s = None)) \/
   click_timer (deliver d s) = None \/
   (is_report d = true /\
    click_timer (deliver d s) =
      Some {| period := click_period (GetDoubleClickTime (answers d));
              due := clock (host s) + click_period (GetDoubleClickTime (answers d)) |})).
Proof.
  intros Hinv Hw Hm Hok. unfold click_timer. rewrite deliver_host, Hok.
  destruct (deliver_input_calls hwnd d s Hinv Hw Hm)
    as [[-> Hr]|[[-> Hr]|[->|(c & -> & Hc & Hi & Hr)]]]; cbn.
  - split_and!; [done..|]. left. split; [done|]. intros Hp%Hr.
    apply bool_decide_eq_false in Hp. by apply eq_None_not_Some.
  - split_and!; [done..|]. right; right. by rewrite lookup_insert_eq.
  - split_and!; [done..|]. right; left. apply lookup_delete_eq.
  - destruct (timed_apply_other true c (host s) Hc Hi) as (-> & -> & ->).
    split_and!; [done..|]. left. split; [done|]. congruence.
Qed.

(** A message arrives: the invariant, with the message behind. *)
Lemma deliver_timed_inv dct past t d s :
  timed_inv (click_period dct) past s -> clock (host s) = t ->
  MSG.hwnd (msg d) = hwnd -> MSG.message (msg d) <> WM_TIMER ->
  SetTimer_ok d = true -> GetDoubleClickTime (answers d) = dct ->
  timed_inv (click_period dct) (past ++ [(t, d)]) (deliver d s) /\
  clock (host (deliver d s)) = t.
Proof.
  intros (Hinv & Hpast & Htm & Hcl) <- Hw Hm Hok <-.
  destruct (deliver_input_timed d s Hinv Hw Hm Hok) as (Hc & Hi & Hcases).
  split; [|done]. unfold timed_inv, click_times. rewrite Hc, Hi. split_and!.
  - by apply deliver_inv.
  - apply Forall_app. split; [done|]. by repeat constructor.
  - intros tm Hd. destruct Hcases as [[He Hr]|[He|[Hr He]]]; rewrite He in Hd.
    + destruct (Htm tm Hd) as [? ?]. split; [done|]. apply rested_other; [done|].
      apply not_true_is_false. intros Hrep%Hr. congruence.
    + done.
    + injection Hd as <-. cbn [due].
      split; [unfold click_period, USER_TIMER_MINIMUM; lia|by apply rested_new].
  - eapply Forall_impl; [exact Hcl|]. cbn. intros c [? ?].
    split; [done|]. by apply rested_later.
Qed.

(** Clicks are never taken back. *)
Lemma wait_click_times p past t s :
  timed_inv p past s -> clock (host s) <= t ->
  click_times s `prefix_of` click_times (wait t s).
Proof.
  intros (_ & _ & Htm & _) Ht. destruct (click_timer s) as [tm|] eqn:Hs.
  - destruct (Htm tm eq_refl) as [Hdue _]. destruct (Z.ltb_spec (due tm) t).
    + rewrite (wait_due t tm) by done. unfold click_times. timed_simpl.
      rewrite fmap_app. by apply prefix_app_r.
    + by rewrite wait_idle by (intros tm'; rewrite Hs; intros [= <-]; lia).
  - by rewrite wait_idle by (intros tm'; by rewrite Hs).
Qed.

Lemma end_time_le t0 t_end evs :
  t0 <= t_end -> Forall (fun e => e.1 <= t_end) evs -> end_time t0 evs <= t_end.
Proof.
  revert t0. induction evs as [|e evs IH]; intros t0 H0 Hevs; [done|].
  apply Forall_cons in Hevs as [He Hevs]. by apply IH.
Qed.

Lemma on_time_app dct evs1 evs2 : forall t0,
  on_time dct t0 (evs1 ++ evs2) <->
  on_time dct t0 evs1 /\ on_time dct (end_time t0 evs1) evs2.
Proof.
  induction evs1 as [|[t d] evs1 IH]; intros t0; cbn; [naive_solver|].
  rewrite IH. naive_solver.
Qed.

Lemma timed_run_app evs1 evs2 s :
  timed_run (evs1 ++ evs2) s = timed_run evs2 (timed_run evs1 s).
Proof.
  revert s. induction evs1 as [|[t d] evs1 IH]; intros s; [done|]. cbn. apply IH.
Qed.

(** A timeline keeps the invariant, ends at the time of its last event and
    takes no click back. *)
Lemma timed_run_timed_inv dct evs : forall past s,
  timed_inv (click_period dct) past s -> on_time dct (clock (host s)) evs ->
  timed_inv (click_period dct) (past ++ evs) (timed_run evs s) /\
  clock (host (timed_run evs s)) = end_time (clock (host s)) evs /\
  click_times s `prefix_of` click_times (timed_run evs s).
Proof.
  induction evs as [|[t d] evs IH]; intros past s Hinv Hev.
  - by rewrite app_nil_r.
  - destruct Hev as (Ht & Hw & Hm & Hok & Hdct & Hev). cbn [timed_run].
    destruct (wait_timed_inv _ past t s Hinv Ht) as [Hinv1 Hc1].
    pose proof (wait_click_times _ past t s Hinv Ht) as Hp1.
    destruct (deliver_timed_inv dct past t d _ Hinv1 Hc1 Hw Hm Hok Hdct) as [Hinv2 Hc2].
    destruct (deliver_input_timed d _ (proj1 Hinv1) Hw Hm Hok) as (_ & Hi & _).
    rewrite <- Hc2 in Hev. destruct (IH _ _ Hinv2 Hev) as (Hinv3 & Hc3 & Hp3).
    rewrite <- app_assoc in Hinv3. rewrite Hc3, Hc2. split_and!; [done..|].
    etrans; [exact Hp1|]. etrans; [|exact Hp3]. unfold click_times. by rewrite Hi.
Qed.

(** A click that is due before the next event is injected before it and
    stays. *)
Lemma pending_click_stays dct evs t d t_end tm s past :
  timed_inv (click_period dct) past s -> click_timer s = Some tm ->
  clock (host s) <= due tm < t -> on_time dct (clock (host s)) ((t, d) :: evs) ->
  Forall (fun e => e.1 <= t_end) ((t, d) :: evs) ->
  due tm ∈ click_times (wait t_end (timed_run ((t, d) :: evs) s)).
Proof.
  intros Hinv Htm Hdue (Hle & Hw & Hm & Hok & Hdct & Hev) [Hte Hend]%Forall_cons.
  cbn [timed_run].
  assert (due tm ∈ click_times (wait t s)) as Hin.
  { rewrite (wait_due t tm) by done. unfold click_times. timed_simpl.
    rewrite fmap_app. set_solver. }
  destruct (wait_timed_inv _ past t s Hinv Hle) as [Hinv1 Hc1].
  destruct (deliver_timed_inv dct past t d _ Hinv1 Hc1 Hw Hm Hok Hdct) as [Hinv2 Hc2].
  destruct (deliver_input_timed d _ (proj1 Hinv1) Hw Hm Hok) as (_ & Hi & _).
  rewrite <- Hc2 in Hev.
  destruct (timed_run_timed_inv dct evs _ _ Hinv2 Hev) as (Hinv3 & Hc3 & Hp3).
  eapply elem_of_prefix; [|apply (wait_click_times _ _ t_end _ Hinv3)].
  - eapply elem_of_prefix; [|exact Hp3]. unfold click_times in *. by rewrite Hi.
  - rewrite Hc3, Hc2. by apply end_time_le.
Qed.

Lemma sys_init_timed_inv p : timed_inv p [] (sys_init (H:=TimedHost)).
Proof. split_and!; [apply sys_init_inv|done| |done]. intros tm. by unfold click_timer. Qed.

(** C4. A click follows a rest, always.  On every timeline of input
    messages (moves, button and wheel reports, reports that are dropped,
    other messages, in any order and at any times that do not go back), every
    click the program has injected by a later time [t_end] was injected one
    double-click time after a report of the mouse, with no report in
    between: the program never clicks while the mouse moves or a button is
    used, nor sooner than the double-click time after it. *)
Theorem click_after_rest dct evs t_end c :
  on_time dct 0 evs -> 0 <= t_end -> Forall (fun e => e.1 <= t_end) evs ->
  c ∈ click_times (wait t_end (timed_run evs sys_init)) ->
  c < t_end /\ rested (click_period dct) evs c.
Proof.
  intros Hev H0 Hend Hc.
  destruct (timed_run_timed_inv dct evs [] sys_init (sys_init_timed_inv _) Hev)
    as (Hinv & Hclock & _).
  assert (clock (host (timed_run evs sys_init)) <= t_end) as Ht
    by (rewrite Hclock; by apply end_time_le).
  destruct (wait_timed_inv _ _ t_end _ Hinv Ht) as [(_ & _ & _ & Hcl) Hclock'].
  rewrite Hclock' in Hcl. by apply (proj1 (Forall_forall _ _) Hcl).
Qed.

(** C5. No click is lost.  When the click timer is pending after the
    events [evs1] of a timeline and the next event, if there is one, arrives
    after the timer is due, the click is injected at the due time, whatever
    follows. *)
Theorem pending_click_comes dct evs1 evs2 t_end tm :
  on_time dct 0 (evs1 ++ evs2) -> Forall (fun e => e.1 <= t_end) evs2 ->
  click_timer (timed_run evs1 sys_init) = Some tm ->
  due tm < hd t_end (fst <$> evs2) ->
  due tm ∈ click_times (wait t_end (timed_run (evs1 ++ evs2) sys_init)).
Proof.
  intros [Hev1 Hev2]%on_time_app Hend Htm Hdue.
  destruct (timed_run_timed_inv dct evs1 [] sys_init (sys_init_timed_inv _) Hev1)
    as (Hinv1 & Hc1 & _).
  rewrite timed_run_app. change (clock (host sys_init)) with 0 in Hc1.
  rewrite <- Hc1 in Hev2.
  destruct (proj1 (proj2 (proj2 Hinv1)) tm Htm) as [Hclock _].
  destruct evs2 as [|[t d] evs2].
  - rewrite (wait_due t_end tm) by done. unfold click_times. timed_simpl.
    rewrite fmap_app. set_solver.
  - by apply (pending_click_stays dct evs2 t d t_end tm _ ([] ++ evs1)).
Qed.

(** ** Timed runs are runs *)

(** Time passing is the delivery of the timer message that is due, if one
    is, as far as the system is observed. *)
Lemma wait_sys_eq p past t s :
  timed_inv p past s -> clock (host s) <= t ->
  sys_eq (wait t s) (run (expiry t s) s) /\ valid_run hwnd (expiry t s) s.
Proof.
  intros (_ & _ & Htm & _) Ht. unfold expiry.
  destruct (click_timer s) as [tm|] eqn:Hs.
  - destruct (Htm tm eq_refl) as [Hdue _]. destruct (Z.ltb_spec (due tm) t).
    + rewrite (wait_due t tm), (expire_due t tm) by done.
      cbn [run valid_run]. rewrite deliver_WM_TIMER. split.
      * split; [done|]. split_and!; [done| |done]. cbn. by rewrite !fmap_app.
      * split; [|done]. split; [done|]. intros _.
        apply bool_decide_eq_true_2. by exists tm.
    + rewrite wait_idle, expire_idle by (intros tm'; rewrite Hs; intros [= <-]; lia).
      by split.
  - rewrite wait_idle, expire_idle by (intros tm'; by rewrite Hs). by split.
Qed.

Lemma timed_run_trace dct evs : forall past s,
  timed_inv (click_period dct) past s -> on_time dct (clock (host s)) evs ->
  sys_eq (timed_run evs s) (run (trace evs s) s) /\ valid_run hwnd (trace evs s) s.
Proof.
  induction evs as [|[t d] evs IH]; intros past s Hinv Hev; [done|].
  destruct Hev as (Ht & Hw & Hm & Hok & Hdct & Hev). cbn [timed_run trace].
  destruct (wait_sys_eq _ past t s Hinv Ht) as [Heq Hval].
  destruct (wait_timed_inv _ past t s Hinv Ht) as [Hinv1 Hc1].
  destruct (deliver_timed_inv dct past t d _ Hinv1 Hc1 Hw Hm Hok Hdct) as [Hinv2 Hc2].
  rewrite <- Hc2 in Hev. destruct (IH _ _ Hinv2 Hev) as [IHeq IHval].
  rewrite run_app, valid_run_app. cbn [run valid_run]. split_and!.
  - by rewrite <- Heq.
  - done.
  - by split.
  - by rewrite <- Heq.
Qed.

(** A timed run is a run.  The clock decides which timer messages are
    delivered and when; it adds nothing else: the state after a timeline is,
    in all that is observed of it, the state after the deliveries of the
    timeline with the timer messages of the expiries in between, in any host
    that satisfies the laws, and those deliveries are a run that host may
    make.  What is proved of all runs holds of all timed runs. *)
Lemma timed_run_is_run {H2 : Type} `{HostLaws H2} dct evs :
  on_time dct 0 evs ->
  sys_eq (timed_run evs sys_init) (run (trace evs sys_init) (sys_init (H:=H2))) /\
  valid_run hwnd (trace evs sys_init) (sys_init (H:=H2)).
Proof.
  intros Hev.
  destruct (timed_run_trace dct evs [] sys_init (sys_init_timed_inv _) Hev) as [Heq Hval].
  assert (sys_eq (sys_init (H:=TimedHost)) (sys_init (H:=H2))) as Hinit
    by (split; [done|apply host_init_obs_eq]).
  split.
  - exact (sys_eq_trans _ _ _ Heq (run_sys_eq _ _ _ Hinit)).
  - exact (proj1 (valid_run_sys_eq hwnd _ _ _ Hinit) Hval).
Qed.

(** C12. The program on a timeline.  [_tWinMain] starts, and [GetMessage]
    hands it the messages of a timeline, each timer message at the expiry
    the clock decides: the state in which the program ends or waits is, in
    all that is observed of it, the state of the timed run, in any host that
    satisfies the laws, and it is a reachable state of the composition.  The
    clicks of the program are the clicks of the timed run, which come after
    a rest and only then. *)
Theorem WinMain_on_timeline {H2 : Type} `{HostLaws H2} hInst a dct evs :
  on_time dct 0 evs -> deliveries a = trace evs sys_init ->
  sys_eq (timed_run evs sys_init) (final (WinMain (H:=H2) hInst) a sys_init) /\
  reachable hwnd (final (WinMain (H:=H2) hInst) a sys_init).
Proof.
  intros Hev Hds. rewrite WinMain_final, Hds.
  destruct (timed_run_is_run (H2:=H2) dct evs Hev) as [Heq Hval].
  split; [done|]. apply run_reachable; [constructor|done].
Qed.

End timed.

(** ** A timeline *)

(** The mouse moves at 0, 100 and 200 ms, rests, and moves again at 1000
    and 1100 ms; the double-click time is 500 ms. *)
Definition timeline : list (Z * Delivery) :=
  [(0, input_delivery 0 3 0); (100, input_delivery 0 1 0); (200, input_delivery 0 1 0);
   (1000, input_delivery 0 5 0); (1100, input_delivery 0 0 1)].

(** Debouncing on the timeline: the moves at 100 and 200 ms postpone
    the click, which is injected at 700 ms, 500 ms after the last move of the
    first burst; the second burst is still within its double-click time at
    1300 ms and has clicked by 1700 ms, once. *)
Example timeline_clicks :
  let s := timed_run sample_hwnd (sample_os (sample_report 0 0 0 0)) timeline sys_init in
  click_times (wait sample_hwnd (sample_os (sample_report 0 0 0 0)) 1300 s) = [700] /\
  click_times (wait sample_hwnd (sample_os (sample_report 0 0 0 0)) 1700 s) = [700; 1600] /\
  sent_input (host (wait sample_hwnd (sample_os (sample_report 0 0 0 0)) 5000 s)) =
    pInputs ++ pInputs.
Proof. by vm_compute. Qed.

Lemma click_iff_rest_witness :
  let d := input_delivery 0 3 0 in
  let s := sys_init (H:=TimedHost) in
  wait sample_hwnd (sample_os (sample_report 0 0 0 0)) 501 (deliver d s) =
    if clock (host s) + click_period (GetDoubleClickTime (answers d)) <? 501
    then clicked sample_hwnd
           (clock (host s) + click_period (GetDoubleClickTime (answers d))) 501
           (deliver d s)
    else set_clock 501 (deliver d s).
Proof.
  apply (click_iff_rest sample_hwnd (sample_os (sample_report 0 0 0 0))
           (input_delivery 0 3 0) (mouse (sample_report 0 0 3 0)) sys_init 501);
    by vm_compute.
Defined.

Lemma wait_complete_witness :
  let os := sample_os (sample_report 0 0 0 0) in
  let s := deliver (input_delivery 0 3 0) (sys_init (H:=TimedHost)) in
  expire sample_hwnd os 1700 (wait sample_hwnd os 1700 s) = None /\
  clock (host (wait sample_hwnd os 1700 s)) = 1700.
Proof.
  apply (wait_complete sample_hwnd (sample_os (sample_report 0 0 0 0)) 1700).
  by vm_compute.
Defined.

Lemma click_after_rest_witness :
  700 < 1700 /\ rested (click_period 500) timeline 700.
Proof.
  apply (click_after_rest sample_hwnd (sample_os (sample_report 0 0 0 0)) 500 timeline 1700);
    [by apply (bool_decide_unpack _); vm_compute | lia
    | by apply (bool_decide_unpack _); vm_compute
    | by apply (bool_decide_unpack _); vm_compute].
Defined.

Lemma pending_click_comes_witness :
  500 ∈ click_times
          (wait sample_hwnd (sample_os (sample_report 0 0 0 0)) 1700
             (timed_run sample_hwnd (sample_os (sample_report 0 0 0 0))
                ([(0, input_delivery 0 3 0)] ++ [(1000, input_delivery 0 5 0)]) sys_init)).
Proof.
  apply (pending_click_comes sample_hwnd (sample_os (sample_report 0 0 0 0)) 500
           [(0, input_delivery 0 3 0)] [(1000, input_delivery 0 5 0)] 1700
           {| period := 500; due := 500 |});
    [by apply (bool_decide_unpack _); vm_compute
    | by apply (bool_decide_unpack _); vm_compute | by vm_compute | by vm_compute].
Defined.

Lemma timed_run_is_run_witness :
  let os := sample_os (sample_report 0 0 0 0) in
  let ds := trace sample_hwnd os timeline sys_init in
  sys_eq (timed_run sample_hwnd os timeline sys_init) (run ds (sys_init (H:=WinHost))) /\
  valid_run sample_hwnd ds (sys_init (H:=WinHost)).
Proof.
  apply (timed_run_is_run sample_hwnd (sample_os (sample_report 0 0 0 0)) 500 timeline).
  by apply (bool_decide_unpack _); vm_compute.
Defined.

(** The deliveries of the timeline: the timer message comes after the third
    move, before the fourth. *)
Example timeline_trace :
  (fun d => MSG.message (msg d)) <$>
    trace sample_hwnd (sample_os (sample_report 0 0 0 0)) timeline sys_init =
  [WM_INPUT; WM_INPUT; WM_INPUT; WM_TIMER; WM_INPUT; WM_INPUT].
Proof. by vm_compute. Qed.

(** The program from its start to the second rest of the timeline: the two
    messages [CreateWindow] sends arrive at time 0, then the timeline. *)
Definition creation_timeline : list (Z * Delivery) :=
  [(0, plain_delivery 0x81); (0, plain_delivery 0x01)] ++ timeline.

Definition timeline_boot : BootAnswers :=
  sample_boot
    (posted <$> drop 2 (trace sample_hwnd (sample_os (sample_report 0 0 0 0))
                          creation_timeline sys_init)).

Lemma WinMain_on_timeline_witness :
  sys_eq (timed_run sample_hwnd (sample_os (sample_report 0 0 0 0)) creation_timeline sys_init)
    (final (WinMain (H:=WinHost) 0x400000) timeline_boot sys_init) /\
  reachable sample_hwnd (final (WinMain (H:=WinHost) 0x400000) timeline_boot sys_init).
Proof.
  apply (WinMain_on_timeline sample_hwnd (sample_os (sample_report 0 0 0 0))
           0x400000 timeline_boot 500 creation_timeline);
    [by apply (bool_decide_unpack _); vm_compute | by vm_compute].
Defined.

(** The program has clicked once when the last message of the timeline is
    handled, and the click timer is pending for the second click. *)
Example timeline_program :
  let s := final (WinMain (H:=WinHost) 0x400000) timeline_boot sys_init in
  result (WinMain (H:=WinHost) 0x400000) timeline_boot sys_init = Pumping /\
  input_stream (host s) = pInputs /\
  click_timer_pending sample_hwnd s = true.
Proof. by vm_compute. Qed.

Lemma timed_run_inv_witness :
  sys_inv sample_hwnd
    (timed_run sample_hwnd (sample_os (sample_report 0 0 0 0)) timeline sys_init).
Proof.
  apply timed_run_inv; [apply sys_init_inv|].
  unfold input_events, timeline. repeat constructor; by vm_compute.
Defined.

Lemma debounce_witness :
  click_times
    (wait sample_hwnd (sample_os (sample_report 0 0 0 0)) 5000
       (timed_run sample_hwnd (sample_os (sample_report 0 0 0 0))
          [(0, input_delivery 0 3 0); (100, input_delivery 0 3 0);
           (1000, input_delivery 0 (-3) 0)] sys_init)) =
  click_times (sys_init (H:=TimedHost)) ++
  rest_clicks (click_period 500) (0 :: (fst <$> [(100, input_delivery 0 3 0);
                                                 (1000, input_delivery 0 (-3) 0)])) 5000.
Proof.
  apply (debounce sample_hwnd (sample_os (sample_report 0 0 0 0)) 500).
  - split; [done | by right].
  - by vm_compute.
  - exists (mouse (sample_report 0 0 3 0)). by vm_compute.
  - repeat apply Forall_cons_2; [| |done].
    + exists (mouse (sample_report 0 0 3 0)). by vm_compute.
    + exists (mouse (sample_report 0 0 (-3) 0)). by vm_compute.
Defined.
